(** * simple_nmea_simulator: route tracking and NMEA sentence encoding

    A shallow embedding of [nmea_simulator/gps_tracker.py],
    [nmea_simulator/messages.py] and the [NMEASimulator] class of
    [nmea_simulator/server.py].

    Number model.  Python [float] values are idealised as real numbers
    ([R]); Python [int] values are [Z].  Operations that raise in Python
    (division and modulo by zero, list indexing out of range, the explicit
    [ValueError] of the tracker constructor) return [Raise].  The wall
    clock ([time.time()], [datetime.now()]) and the pseudo-random generator
    ([random.random()]) are explicit inputs.

    Limits of the idealisation.  Real arithmetic does not round, so three
    outcomes of the program that are decided by the last bit of a float
    are outside the real-number model: [math.sqrt(1 - a)] in
    [Waypoint.distance_to] raising [ValueError] when the haversine term
    rounds above 1 (nearly antipodal waypoints); [x % 360] returning
    [360.0] itself for a tiny negative [x]; and
    [(total / speed) * speed] falling one unit in the last place short of
    [total].  The second one decides a stated bound of the environmental
    data, so the wind-direction update is embedded a second time on
    IEEE 754 binary64 numbers (module [Binary64]). *)

From Stdlib Require Import Reals Lra Lia ZArith NArith Bool String Ascii List.
From Stdlib Require Import Zfloor DecimalString.
From Stdlib Require Floats.
Import ListNotations.

Local Open Scope R_scope.

(** ** Python exceptions and results *)

Inductive exn : Type :=
| ValueError
| ZeroDivisionError
| IndexError.

Inductive result (A : Type) : Type :=
| Ok (a : A)
| Raise (e : exn).

Arguments Ok {A} a.
Arguments Raise {A} e.

Definition rbind {A B : Type} (r : result A) (k : A -> result B) : result B :=
  match r with
  | Ok a => k a
  | Raise e => Raise e
  end.

Notation "x <-? r ;; k" := (rbind r (fun x => k))
  (at level 61, r at next level, right associativity).

(** ** Python float and list primitives *)

Module Py.

(** [x % y] on floats, for [y <> 0]: the result has the sign of [y].
    Over the reals it is always strictly between 0 and [y]; the float
    operation can round up to [y] itself ([Binary64.float_mod]). *)
Definition float_mod (x y : R) : R := x - IZR (Zfloor (x / y)) * y.

(** [x % y]: raises on a zero divisor. *)
Definition mod_ (x y : R) : result R :=
  if Req_dec_T y 0 then Raise ZeroDivisionError else Ok (float_mod x y).

(** [x / y]: raises on a zero divisor. *)
Definition div_ (x y : R) : result R :=
  if Req_dec_T y 0 then Raise ZeroDivisionError else Ok (x / y).

(** [math.radians], [math.degrees]. *)
Definition radians (x : R) : R := x * (PI / 180).
Definition degrees (x : R) : R := x * (180 / PI).

(** [math.atan2 y x]. *)
Definition atan2 (y x : R) : R :=
  if Rlt_dec 0 x then atan (y / x)
  else if Rlt_dec x 0 then
    (if Rle_dec 0 y then atan (y / x) + PI else atan (y / x) - PI)
  else if Rlt_dec 0 y then PI / 2
  else if Rlt_dec y 0 then - (PI / 2)
  else 0.

(** [int(x)]: truncation towards zero. *)
Definition int_ (x : R) : Z :=
  if Rle_dec 0 x then Zfloor x else Zceil x.

(** [max(a, b)]: the first argument unless the second is larger. *)
Definition max_ (a b : R) : R := if Rlt_dec a b then b else a.
Definition min_ (a b : R) : R := if Rlt_dec b a then b else a.

(** [l[i]] with Python's negative indices. *)
Definition getitem {A : Type} (l : list A) (i : Z) : result A :=
  let n := Z.of_nat (length l) in
  let j := if (i <? 0)%Z then (i + n)%Z else i in
  if (j <? 0)%Z then Raise IndexError
  else match nth_error l (Z.to_nat j) with
       | Some a => Ok a
       | None => Raise IndexError
       end.

End Py.

(** ** messages.py: Position *)

Record Position : Type := mkPosition { p_lat : R; p_lon : R }.

(** ** gps_tracker.py *)

Module GpsTracker.

Record Waypoint : Type := mkWaypoint { lat : R; lon : R }.

(** [Waypoint.distance_to]: haversine distance in metres.  [math.sqrt]
    raises [ValueError] on a negative argument.  Over the reals [a] lies
    in [0, 1] (lemma [haversine_term_range]) and both square roots are
    defined; in floating point [a] can round above 1 for nearly antipodal
    waypoints, and that [ValueError] is not represented here. *)
Definition distance_to (self other : Waypoint) : R :=
  let R_earth := 6371000 in
  let lat1_rad := Py.radians (lat self) in
  let lat2_rad := Py.radians (lat other) in
  let delta_lat := Py.radians (lat other - lat self) in
  let delta_lon := Py.radians (lon other - lon self) in
  let a := sin (delta_lat / 2) ^ 2
           + cos lat1_rad * cos lat2_rad * sin (delta_lon / 2) ^ 2 in
  let c := 2 * Py.atan2 (sqrt a) (sqrt (1 - a)) in
  R_earth * c.

(** [Waypoint.bearing_to]: initial bearing in degrees. *)
Definition bearing_to (self other : Waypoint) : R :=
  let lat1_rad := Py.radians (lat self) in
  let lat2_rad := Py.radians (lat other) in
  let delta_lon_rad := Py.radians (lon other - lon self) in
  let y := sin delta_lon_rad * cos lat2_rad in
  let x := cos lat1_rad * sin lat2_rad
           - sin lat1_rad * cos lat2_rad * cos delta_lon_rad in
  let bearing_rad := Py.atan2 y x in
  let bearing_deg := Py.degrees bearing_rad in
  Py.float_mod (bearing_deg + 360) 360.

Record GPSTracker : Type := mkGPSTracker {
  waypoints : list Waypoint;
  speed_knots : R;
  speed_ms : R;
  current_waypoint_index : Z;
  start_time : R;
  total_distance : R;
  current_position : Position
}.

Definition wp0 : Waypoint := mkWaypoint 0 0.

(** [waypoints[i]] for an index that the surrounding loop keeps in range. *)
Definition wp_at (wps : list Waypoint) (i : nat) : Waypoint := nth i wps wp0.

(** The body of the loop of [_calculate_total_distance]:
    [total_distance += waypoints[i].distance_to(waypoints[i + 1])]. *)
Definition leg (wps : list Waypoint) (total_distance : R) (i : nat) : R :=
  total_distance + distance_to (wp_at wps i) (wp_at wps (i + 1)).

(** [GPSTracker._calculate_total_distance]. *)
Definition _calculate_total_distance (wps : list Waypoint) : R :=
  let total_distance := fold_left (leg wps) (seq 0 (length wps - 1)) 0 in
  if (2 <? length wps)%nat
  then total_distance + distance_to (wp_at wps (length wps - 1)) (wp_at wps 0)
  else total_distance.

(** [GPSTracker.__init__]; [now] is the value of [time.time()]. *)
Definition init (now : R) (wps : list Waypoint) (speed_knots : R)
  : result GPSTracker :=
  if (length wps <? 2)%nat then Raise ValueError
  else Ok {| waypoints := wps;
             speed_knots := speed_knots;
             speed_ms := speed_knots * 0.514444;
             current_waypoint_index := 0%Z;
             start_time := now;
             total_distance := _calculate_total_distance wps;
             current_position :=
               mkPosition (lat (wp_at wps 0)) (lon (wp_at wps 0)) |}.

(** [GPSTracker._interpolate_position]. *)
Definition _interpolate_position (start end_ : Waypoint) (progress : R)
  : Position :=
  let progress := Py.max_ 0 (Py.min_ 1 progress) in
  mkPosition (lat start + (lat end_ - lat start) * progress)
             (lon start + (lon end_ - lon start) * progress).

(** The segment search of [get_current_position]: the [for] loop over the
    remaining indices [idx], with its two accumulators.  [Ok (Some _)] is
    the early [return] from inside the loop, [Ok None] is falling out of
    the loop. *)
Fixpoint find_segment (wps : list Waypoint) (distance_traveled : R)
    (idx : list nat) (current_distance : R) (segment_start : Waypoint)
  : result (option (nat * Position)) :=
  match idx with
  | [] => Ok None
  | i :: rest =>
      let segment_end :=
        if (i =? length wps - 1)%nat then wp_at wps 0 else wp_at wps (i + 1) in
      let segment_distance := distance_to segment_start segment_end in
      if Rlt_dec distance_traveled (current_distance + segment_distance) then
        segment_progress <-?
          Py.div_ (distance_traveled - current_distance) segment_distance ;;
        Ok (Some (i, _interpolate_position segment_start segment_end
                       segment_progress))
      else
        find_segment wps distance_traveled rest
          (current_distance + segment_distance) segment_end
  end.

Definition set_index (t : GPSTracker) (i : Z) : GPSTracker :=
  {| waypoints := waypoints t;
     speed_knots := speed_knots t;
     speed_ms := speed_ms t;
     current_waypoint_index := i;
     start_time := start_time t;
     total_distance := total_distance t;
     current_position := current_position t |}.

(** The distance used by the search: [elapsed * speed], wrapped when it
    reaches the total distance. *)
Definition wrapped_distance (t : GPSTracker) (now : R) : result R :=
  let elapsed_time := now - start_time t in
  let distance_traveled := elapsed_time * speed_ms t in
  if Rge_dec distance_traveled (total_distance t)
  then Py.mod_ distance_traveled (total_distance t)
  else Ok distance_traveled.

(** [GPSTracker.get_current_position]; returns the position and the
    tracker with its updated [current_waypoint_index]. *)
Definition get_current_position (t : GPSTracker) (now : R)
  : result (Position * GPSTracker) :=
  distance_traveled <-? wrapped_distance t now ;;
  segment_start <-? Py.getitem (waypoints t) 0 ;;
  found <-? find_segment (waypoints t) distance_traveled
              (seq 0 (length (waypoints t))) 0 segment_start ;;
  match found with
  | Some (i, pos) => Ok (pos, set_index t (Z.of_nat i))
  | None =>
      last <-? Py.getitem (waypoints t) (-1) ;;
      Ok (mkPosition (lat last) (lon last),
          set_index t (Z.of_nat (length (waypoints t)) - 2)%Z)
  end.

(** [GPSTracker.get_current_heading]. *)
Definition get_current_heading (t : GPSTracker) : result R :=
  let n := Z.of_nat (length (waypoints t)) in
  if (current_waypoint_index t >=? n - 1)%Z then
    if (n >=? 2)%Z then
      a <-? Py.getitem (waypoints t) (-2) ;;
      b <-? Py.getitem (waypoints t) (-1) ;;
      Ok (bearing_to a b)
    else Ok 0
  else
    current_wp <-? Py.getitem (waypoints t) (current_waypoint_index t) ;;
    next_wp <-? Py.getitem (waypoints t) (current_waypoint_index t + 1) ;;
    Ok (bearing_to current_wp next_wp).

(** [GPSTracker.get_current_speed]. *)
Definition get_current_speed (t : GPSTracker) : R := speed_knots t.

(** [GPSTracker.is_route_complete]. *)
Definition is_route_complete (t : GPSTracker) (now : R) : result bool :=
  let elapsed_time := now - start_time t in
  expected_time <-? Py.div_ (total_distance t) (speed_ms t) ;;
  Ok (if Rge_dec elapsed_time expected_time then true else false).

(** [GPSTracker.reset_route]. *)
Definition reset_route (t : GPSTracker) (now : R) : result GPSTracker :=
  first <-? Py.getitem (waypoints t) 0 ;;
  Ok {| waypoints := waypoints t;
        speed_knots := speed_knots t;
        speed_ms := speed_ms t;
        current_waypoint_index := 0%Z;
        start_time := now;
        total_distance := total_distance t;
        current_position := mkPosition (lat first) (lon first) |}.

(** *** RouteConfig *)

(** [range(n)] for a Python int [n]. *)
Definition range (n : Z) : list Z := map Z.of_nat (seq 0 (Z.to_nat n)).

(** [RouteConfig.create_circular_route].  The division by
    [60.0 * math.cos(math.radians(center_lat))] never raises in the
    program: no float is an odd multiple of pi/2, so the float cosine is
    never [0.0] (at [center_lat = 90.0] it is 6.1e-17).  It is therefore
    the total division of [R]; at the two latitudes where the real cosine
    vanishes the longitude radius of the model is not that of the
    program, and the theorems on waypoint coordinates exclude them. *)
Definition create_circular_route (center_lat center_lon radius_nm : R)
    (num_points : Z) : result (list Waypoint) :=
  let radius_lat_deg := radius_nm / 60 in
  let radius_lon_deg := radius_nm / (60 * cos (Py.radians center_lat)) in
  Ok (map (fun i =>
             let angle := 2 * PI * IZR i / IZR num_points in
             mkWaypoint (center_lat + radius_lat_deg * cos angle)
                        (center_lon + radius_lon_deg * sin angle))
          (range num_points)).

(** The loop of [create_line_route]; [i / (num_points - 1)] divides two
    ints and raises when [num_points = 1]. *)
Fixpoint line_points (start_lat start_lon end_lat end_lon : R)
    (num_points : Z) (idx : list Z) : result (list Waypoint) :=
  match idx with
  | [] => Ok []
  | i :: rest =>
      progress <-? Py.div_ (IZR i) (IZR (num_points - 1)) ;;
      tl <-? line_points start_lat start_lon end_lat end_lon num_points rest ;;
      Ok (mkWaypoint (start_lat + (end_lat - start_lat) * progress)
                     (start_lon + (end_lon - start_lon) * progress) :: tl)
  end.

(** [RouteConfig.create_line_route]. *)
Definition create_line_route (start_lat start_lon end_lat end_lon : R)
    (num_points : Z) : result (list Waypoint) :=
  line_points start_lat start_lon end_lat end_lon num_points
    (range num_points).

(** [RouteConfig.create_rectangle_route]. *)
Definition create_rectangle_route
    (center_lat center_lon width_nm height_nm : R) : list Waypoint :=
  let width_deg := width_nm / 60 in
  let height_deg := height_nm / 60 in
  [ mkWaypoint (center_lat - height_deg / 2) (center_lon - width_deg / 2);
    mkWaypoint (center_lat - height_deg / 2) (center_lon + width_deg / 2);
    mkWaypoint (center_lat + height_deg / 2) (center_lon + width_deg / 2);
    mkWaypoint (center_lat + height_deg / 2) (center_lon - width_deg / 2);
    mkWaypoint (center_lat - height_deg / 2) (center_lon - width_deg / 2) ].

End GpsTracker.

(** ** Route vocabulary of the specification

    The specification speaks of the total length of a route as a sum over
    consecutive waypoint pairs, and of the segment a snapshot lies in.
    These definitions follow its words; the theorems below compare them
    with the code. *)

Module RouteSpec.
Import GpsTracker.

(** Sum of [distance(route[i], route[i+1])] over consecutive pairs. *)
Fixpoint consecutive_sum (route : list Waypoint) : R :=
  match route with
  | a :: ((b :: _) as rest) => distance_to a b + consecutive_sum rest
  | _ => 0
  end.

(** Total length: the consecutive sum, plus the leg from the last waypoint
    back to the first exactly when the route has more than 2 waypoints. *)
Definition total_length (route : list Waypoint) : R :=
  consecutive_sum route
  + (if (2 <? length route)%nat
     then distance_to (last route wp0) (hd wp0 route)
     else 0).

(** Segment [i] of a route runs from [route[i]] to [route[i+1]]; the
    closing segment [n-1] runs from [route[n-1]] back to [route[0]]. *)
Definition segment_start (route : list Waypoint) (i : nat) : Waypoint :=
  wp_at route i.
Definition segment_end (route : list Waypoint) (i : nat) : Waypoint :=
  if (i =? length route - 1)%nat then wp_at route 0 else wp_at route (i + 1).
Definition segment_length (route : list Waypoint) (i : nat) : R :=
  distance_to (segment_start route i) (segment_end route i).

(** Distance from the start of the route to the start of segment [i]. *)
Fixpoint distance_before (route : list Waypoint) (i : nat) : R :=
  match i with
  | O => 0
  | S j => distance_before route j + segment_length route j
  end.

(** A travelled distance [d] lies in segment [i]. *)
Definition in_segment (route : list Waypoint) (i : nat) (d : R) : Prop :=
  distance_before route i <= d < distance_before route (S i).

End RouteSpec.

(** ** messages.py: formatting primitives *)

Local Open Scope string_scope.

Module Fmt.

(** [str(z)] and the [d] format of a Python int. *)
Definition decimal (z : Z) : string := NilZero.string_of_int (Z.to_int z).

(** Left padding with zeros up to a minimum width. *)
Fixpoint zeros (k : nat) : string :=
  match k with
  | O => ""
  | S k' => String "0" (zeros k')
  end.

Definition pad0 (width : nat) (s : string) : string :=
  zeros (width - String.length s) ++ s.

(** [f"{z:0wd}"]: the sign comes before the padding. *)
Definition format_0d (width : nat) (z : Z) : string :=
  if (z <? 0)%Z then "-" ++ pad0 (width - 1) (decimal (- z))
  else pad0 width (decimal z).

Definition digit (d : Z) : ascii := ascii_of_nat (48 + Z.to_nat d).

(** Exactly [w] decimal digits of [n], most significant first. *)
Fixpoint fixed_digits (w : nat) (n : Z) : string :=
  match w with
  | O => ""
  | S w' => fixed_digits w' (n / 10) ++ String (digit (n mod 10)) ""
  end.

(** Rounding to the nearest integer, ties to even. *)
Definition round_half_even (x : R) : Z :=
  let f := Zfloor x in
  if Rlt_dec (x - IZR f) (1 / 2) then f
  else if Rlt_dec (1 / 2) (x - IZR f) then (f + 1)%Z
  else if Z.even f then f else (f + 1)%Z.

(** The digits of [f"{x:.pf}"] without the sign: the magnitude rounded to
    [p] decimal places. *)
Definition magnitude_f (p : nat) (x : R) : string :=
  let n := round_half_even (Rabs x * 10 ^ p) in
  let scale := (10 ^ Z.of_nat p)%Z in
  match p with
  | O => decimal n
  | _ => decimal (n / scale) ++ "." ++ fixed_digits p (n mod scale)
  end.

(** [f"{x:.pf}"]. *)
Definition format_f (p : nat) (x : R) : string :=
  if Rlt_dec x 0 then "-" ++ magnitude_f p x else magnitude_f p x.

(** [f"{x:0w.pf}"]. *)
Definition format_0f (width p : nat) (x : R) : string :=
  if Rlt_dec x 0 then "-" ++ pad0 (width - 1) (magnitude_f p x)
  else pad0 width (magnitude_f p x).

Definition hex_digit (d : N) : ascii :=
  match String.get (N.to_nat d) "0123456789ABCDEF" with
  | Some c => c
  | None => "0"%char
  end.

(** Upper-case hexadecimal digits of [n], most significant first. *)
Fixpoint hex_digits (fuel : nat) (n : N) (acc : string) : string :=
  match fuel with
  | O => acc
  | S fuel' =>
      let acc' := String (hex_digit (n mod 16)) acc in
      if (n / 16 =? 0)%N then acc' else hex_digits fuel' (n / 16) acc'
  end.

(** [f"{n:02X}"]. *)
Definition format_02X (n : N) : string :=
  pad0 2 (hex_digits (S (N.to_nat (N.log2 n))) n "").

(** [s[1:-1]] and [s[:-3]]. *)
Definition slice_1_m1 (s : string) : string :=
  substring 1 (String.length s - 2) s.
Definition slice_to_m3 (s : string) : string :=
  substring 0 (String.length s - 3) s.

(** [sep.join(l)]. *)
Fixpoint join (sep : string) (l : list string) : string :=
  match l with
  | [] => ""
  | [s] => s
  | s :: rest => s ++ sep ++ join sep rest
  end.

End Fmt.

(** ** messages.py: the random source and the clock *)

(** The supply of values returned by successive calls of [random.random()]. *)
Definition Rng : Type := nat -> R.

Definition Rand (A : Type) : Type := Rng -> A * Rng.

Definition ret {A : Type} (a : A) : Rand A := fun g => (a, g).

Definition bind {A B : Type} (m : Rand A) (k : A -> Rand B) : Rand B :=
  fun g => let (a, g') := m g in k a g'.

Notation "x <- m ;; k" := (bind m (fun x => k))
  (at level 61, m at next level, right associativity).

(** [random.random()]. *)
Definition random : Rand R := fun g => (g O, fun n => g (S n)).

(** [random.uniform(a, b)]. *)
Definition uniform (a b : R) : Rand R :=
  (u <- random ;; ret (a + (b - a) * u))%R.

(** A [datetime] value, as captured by [datetime.now(timezone.utc)]. *)
Record datetime : Type := mkDatetime {
  year : Z; month : Z; day : Z;
  hour : Z; minute : Z; second : Z; microsecond : Z
}.

(** ** messages.py: Position and NMEAMessage *)

Module Messages.
Import Fmt.

(** [Position.to_nmea_lat]. *)
Definition to_nmea_lat (self : Position) : string * string :=
  let abs_lat := Rabs (p_lat self) in
  let degrees := Py.int_ abs_lat in
  let minutes := ((abs_lat - IZR degrees) * 60)%R in
  let direction := if Rge_dec (p_lat self) 0 then "N" else "S" in
  (format_0d 2 degrees ++ format_0f 9 6 minutes, direction).

(** [Position.to_nmea_lon]. *)
Definition to_nmea_lon (self : Position) : string * string :=
  let abs_lon := Rabs (p_lon self) in
  let degrees := Py.int_ abs_lon in
  let minutes := ((abs_lon - IZR degrees) * 60)%R in
  let direction := if Rge_dec (p_lon self) 0 then "E" else "W" in
  (format_0d 3 degrees ++ format_0f 9 6 minutes, direction).

(** The loop of [NMEAMessage.calculate_checksum]. *)
Fixpoint xor_chars (data : string) (checksum : N) : N :=
  match data with
  | EmptyString => checksum
  | String char rest => xor_chars rest (N.lxor checksum (N_of_ascii char))
  end.

(** [NMEAMessage.calculate_checksum]. *)
Definition calculate_checksum (data : string) : string :=
  format_02X (xor_chars data 0).

(** [NMEAMessage.add_random_variation]. *)
Definition add_random_variation (value variation_percent : R) : Rand R :=
  (u <- random ;;
   let variation := value * variation_percent * (u - 0.5) * 2 in
   ret (value + variation))%R.

(** [strftime("%H%M%S.%f")], [strftime('%d%m%y')], [strftime('%d,%m,%Y')]. *)
Definition strftime_HMSf (t : datetime) : string :=
  format_0d 2 (hour t) ++ format_0d 2 (minute t) ++ format_0d 2 (second t)
  ++ "." ++ format_0d 6 (microsecond t).
Definition strftime_dmy (t : datetime) : string :=
  format_0d 2 (day t) ++ format_0d 2 (month t)
  ++ format_0d 2 (year t mod 100).
Definition strftime_d_m_Y (t : datetime) : string :=
  format_0d 2 (day t) ++ "," ++ format_0d 2 (month t) ++ ","
  ++ format_0d 4 (year t).

(** [NMEAMessage.format_time]. *)
Definition format_time (timestamp : datetime) : string :=
  slice_to_m3 (strftime_HMSf timestamp).

(** The two closing lines of every [to_string]:
    [checksum = self.calculate_checksum(data[1:-1]); return data + checksum]. *)
Definition with_checksum (data : string) : string :=
  data ++ calculate_checksum (slice_1_m1 data).

(** [",".join([str(sat) if sat in satellites else "" for sat in range(1, 13)])]. *)
Definition sat_list (satellites : list Z) : string :=
  join ","
    (map (fun sat => if existsb (Z.eqb sat) satellites then decimal sat else "")
         (map Z.of_nat (seq 1 12))).

(** The sentence classes.  Every constructor stands for one subclass of
    [NMEAMessage]; its first argument is the [timestamp] captured by
    [NMEAMessage.__init__], the others are the fields set by the
    subclass's [__init__]. *)
Inductive NMEAMessage : Type :=
| GPRMC (timestamp : datetime) (position : Position) (speed_knots course : R)
| IIVHW (timestamp : datetime) (speed_knots heading : R)
| GPVTG (timestamp : datetime) (course speed_knots : R)
| IIHDT (timestamp : datetime) (heading : R)
| GPGLL (timestamp : datetime) (position : Position)
| GPGGA (timestamp : datetime) (position : Position) (quality satellites : Z)
        (hdop altitude : R)
| GPGSA (timestamp : datetime) (satellites : list Z) (pdop hdop vdop : R)
| GPZDA (timestamp : datetime)
| IIVBW (timestamp : datetime) (speed_knots : R)
| WIMWD (timestamp : datetime) (wind_direction wind_speed_knots : R)
| WIMWV (timestamp : datetime) (wind_direction wind_speed_knots : R)
| IIMTW (timestamp : datetime) (temperature_celsius : R)
| SDDPT (timestamp : datetime) (depth_meters offset : R)
| SDDBT (timestamp : datetime) (depth_feet depth_meters depth_fathoms : R)
| IIRPM (timestamp : datetime) (engine_id : string) (rpm pitch : R)
| IIAPB (timestamp : datetime) (bearing_to_dest bearing_to_dest_mag heading : R)
| GPRMB (timestamp : datetime) (position : Position)
        (bearing distance speed heading : R)
| AIVDO (timestamp : datetime) (message_id fragment_count fragment_number : Z)
        (radio_channel payload : string)
| AIVDM (timestamp : datetime) (message_id fragment_count fragment_number : Z)
        (radio_channel payload : string).

(** [to_string] of every subclass. *)
Definition to_string (self : NMEAMessage) : Rand string :=
  match self with
  | GPRMC timestamp position speed_knots course =>
      let (lat_str, lat_dir) := to_nmea_lat position in
      let (lon_str, lon_dir) := to_nmea_lon position in
      speed <- add_random_variation speed_knots 0.05 ;;
      course <- add_random_variation course 0.1 ;;
      ret (with_checksum
             ("$GPRMC," ++ format_time timestamp ++ ",A," ++ lat_str ++ ","
              ++ lat_dir ++ "," ++ lon_str ++ "," ++ lon_dir ++ ","
              ++ format_f 1 speed ++ "," ++ format_f 1 course ++ ","
              ++ strftime_dmy timestamp ++ ",,,*"))
  | IIVHW timestamp speed_knots heading =>
      speed <- add_random_variation speed_knots 0.05 ;;
      heading <- add_random_variation heading 0.1 ;;
      let speed_kmh := (speed * 1.852)%R in
      ret (with_checksum
             ("$IIVHW," ++ format_f 1 heading ++ ",T," ++ format_f 1 heading
              ++ ",M," ++ format_f 1 speed ++ ",N," ++ format_f 1 speed_kmh
              ++ ",K*"))
  | GPVTG timestamp course speed_knots =>
      course <- add_random_variation course 0.1 ;;
      speed <- add_random_variation speed_knots 0.05 ;;
      let speed_kmh := (speed * 1.852)%R in
      ret (with_checksum
             ("$GPVTG," ++ format_f 1 course ++ ",T," ++ format_f 1 course
              ++ ",M," ++ format_f 1 speed ++ ",N," ++ format_f 1 speed_kmh
              ++ ",K*"))
  | IIHDT timestamp heading =>
      heading <- add_random_variation heading 0.1 ;;
      ret (with_checksum ("$IIHDT," ++ format_f 1 heading ++ ",T*"))
  | GPGLL timestamp position =>
      let (lat_str, lat_dir) := to_nmea_lat position in
      let (lon_str, lon_dir) := to_nmea_lon position in
      ret (with_checksum
             ("$GPGLL," ++ lat_str ++ "," ++ lat_dir ++ "," ++ lon_str ++ ","
              ++ lon_dir ++ "," ++ format_time timestamp ++ ",A*"))
  | GPGGA timestamp position quality satellites hdop altitude =>
      let (lat_str, lat_dir) := to_nmea_lat position in
      let (lon_str, lon_dir) := to_nmea_lon position in
      sats <- add_random_variation (IZR satellites) 0.2 ;;
      let satellites := Z.max 1 (Py.int_ sats) in
      hdop <- add_random_variation hdop 0.3 ;;
      let hdop := Py.max_ 0.5 hdop in
      altitude <- add_random_variation altitude 0.1 ;;
      ret (with_checksum
             ("$GPGGA," ++ format_time timestamp ++ "," ++ lat_str ++ ","
              ++ lat_dir ++ "," ++ lon_str ++ "," ++ lon_dir ++ ","
              ++ decimal quality ++ "," ++ decimal satellites ++ ","
              ++ format_f 1 hdop ++ "," ++ format_f 1 altitude ++ ",M,,,,*"))
  | GPGSA timestamp satellites pdop hdop vdop =>
      pdop <- add_random_variation pdop 0.2 ;;
      let pdop := Py.max_ 0.5 pdop in
      hdop <- add_random_variation hdop 0.2 ;;
      let hdop := Py.max_ 0.5 hdop in
      vdop <- add_random_variation vdop 0.2 ;;
      let vdop := Py.max_ 0.5 vdop in
      ret (with_checksum
             ("$GPGSA,A,3," ++ sat_list satellites ++ "," ++ format_f 1 pdop
              ++ "," ++ format_f 1 hdop ++ "," ++ format_f 1 vdop ++ "*"))
  | GPZDA timestamp =>
      ret (with_checksum
             ("$GPZDA," ++ format_time timestamp ++ ","
              ++ strftime_d_m_Y timestamp ++ ",02,00*"))
  | IIVBW timestamp speed_knots =>
      speed <- add_random_variation speed_knots 0.05 ;;
      ret (with_checksum
             ("$IIVBW," ++ format_f 1 speed ++ "," ++ format_f 1 speed ++ ",A,"
              ++ format_f 1 (speed * 0.9) ++ "," ++ format_f 1 (speed * 0.9)
              ++ ",A," ++ format_f 1 (speed * 1.1) ++ ",A,"
              ++ format_f 1 (speed * 0.95) ++ ",A*"))
  | WIMWD timestamp wind_direction wind_speed_knots =>
      direction <- add_random_variation wind_direction 0.1 ;;
      speed <- add_random_variation wind_speed_knots 0.1 ;;
      let speed_ms := (speed * 0.514444)%R in
      ret (with_checksum
             ("$WIMWD," ++ format_f 1 direction ++ ",T," ++ format_f 1 direction
              ++ ",M," ++ format_f 1 speed ++ ",N," ++ format_f 1 speed_ms
              ++ ",M*"))
  | WIMWV timestamp wind_direction wind_speed_knots =>
      direction <- add_random_variation wind_direction 0.1 ;;
      speed <- add_random_variation wind_speed_knots 0.1 ;;
      ret (with_checksum
             ("$WIMWV," ++ format_f 1 direction ++ ",R," ++ format_f 1 speed
              ++ ",N,A*"))
  | IIMTW timestamp temperature_celsius =>
      temp <- add_random_variation temperature_celsius 0.05 ;;
      ret (with_checksum ("$IIMTW," ++ format_f 1 temp ++ ",C*"))
  | SDDPT timestamp depth_meters offset =>
      depth <- add_random_variation depth_meters 0.1 ;;
      ret (with_checksum
             ("$SDDPT," ++ format_f 1 depth ++ "," ++ format_f 1 offset ++ "*"))
  | SDDBT timestamp depth_feet depth_meters depth_fathoms =>
      depth_f <- add_random_variation depth_feet 0.1 ;;
      depth_m <- add_random_variation depth_meters 0.1 ;;
      depth_fathoms <- add_random_variation depth_fathoms 0.1 ;;
      ret (with_checksum
             ("$SDDBT," ++ format_f 1 depth_f ++ ",f," ++ format_f 1 depth_m
              ++ ",M," ++ format_f 1 depth_fathoms ++ ",F*"))
  | IIRPM timestamp engine_id rpm pitch =>
      rpm <- add_random_variation rpm 0.05 ;;
      pitch <- add_random_variation pitch 0.1 ;;
      ret (with_checksum
             ("$IIRPM," ++ engine_id ++ "," ++ engine_id ++ ","
              ++ format_f 1 rpm ++ "," ++ format_f 1 pitch ++ ",A*"))
  | IIAPB timestamp bearing_to_dest bearing_to_dest_mag heading =>
      bearing <- add_random_variation bearing_to_dest 0.1 ;;
      bearing_mag <- add_random_variation bearing_to_dest_mag 0.1 ;;
      heading <- add_random_variation heading 0.1 ;;
      ret (with_checksum
             ("$IIAPB,A,A," ++ format_f 6 bearing ++ ",R,N,,,"
              ++ format_f 1 heading ++ ",T,dest," ++ format_f 1 bearing_mag
              ++ ",T," ++ format_f 1 bearing_mag ++ ",T,A*"))
  | GPRMB timestamp position bearing distance speed heading =>
      let (lat_str, lat_dir) := to_nmea_lat position in
      let (lon_str, lon_dir) := to_nmea_lon position in
      bearing <- add_random_variation bearing 0.1 ;;
      distance <- add_random_variation distance 0.05 ;;
      speed <- add_random_variation speed 0.05 ;;
      heading <- add_random_variation heading 0.1 ;;
      ret (with_checksum
             ("$GPRMB,A," ++ format_f 6 bearing ++ ",R,origin,dest,"
              ++ lat_str ++ "," ++ lat_dir ++ "," ++ lon_str ++ "," ++ lon_dir
              ++ "," ++ format_f 3 distance ++ "," ++ format_f 1 heading
              ++ ",-1.4,,A*"))
  | AIVDO timestamp message_id fragment_count fragment_number
          radio_channel payload =>
      ret (with_checksum
             ("!AIVDO," ++ decimal fragment_count ++ ","
              ++ decimal fragment_number ++ ",," ++ radio_channel ++ ","
              ++ payload ++ "," ++ decimal fragment_number ++ "*"))
  | AIVDM timestamp message_id fragment_count fragment_number
          radio_channel payload =>
      ret (with_checksum
             ("!AIVDM," ++ decimal fragment_count ++ ","
              ++ decimal fragment_number ++ ",," ++ radio_channel ++ ","
              ++ payload ++ "," ++ decimal fragment_number ++ "*"))
  end.

End Messages.

(** ** server.py: NMEASimulator *)

Module Server.
Import GpsTracker Messages.

Record NMEASimulator : Type := mkNMEASimulator {
  gps_tracker : GPSTracker;
  engine_rpm : R;
  engine_pitch : R;
  wind_direction : R;
  wind_speed : R;
  water_temp : R;
  depth : R;
  ais_payloads : list string
}.

(** [NMEASimulator.__init__]. *)
Definition init (gps_tracker : GPSTracker) : NMEASimulator :=
  {| gps_tracker := gps_tracker;
     engine_rpm := 612.0;
     engine_pitch := 10.5;
     wind_direction := 255.1;
     wind_speed := 27.8;
     water_temp := 6.7;
     depth := 2.2;
     ais_payloads :=
       [ "17PaewhP0gar0FkcvG4hBh>t0000";
         "57Paewh00001<To7;?@plD5<Tl0000000000000U1@:552R8R2TnA3QF";
         "@00000000000002" ] |}.

(** [NMEASimulator._update_environmental_data]. *)
Definition _update_environmental_data (self : NMEASimulator)
  : Rand NMEASimulator :=
  (u1 <- uniform (-2) 2 ;;
   let wind_direction := Py.float_mod (wind_direction self + u1) 360 in
   u2 <- uniform (-1) 1 ;;
   let wind_speed := Py.max_ 0 (wind_speed self + u2) in
   u3 <- uniform (-0.2) 0.2 ;;
   let water_temp := Py.max_ 0 (water_temp self + u3) in
   u4 <- uniform (-0.1) 0.1 ;;
   let depth := Py.max_ 0.1 (depth self + u4) in
   u5 <- uniform (-5) 5 ;;
   let engine_rpm := Py.max_ 0 (engine_rpm self + u5) in
   u6 <- uniform (-0.5) 0.5 ;;
   let engine_pitch := Py.max_ 0 (engine_pitch self + u6) in
   ret {| gps_tracker := gps_tracker self;
          engine_rpm := engine_rpm;
          engine_pitch := engine_pitch;
          wind_direction := wind_direction;
          wind_speed := wind_speed;
          water_temp := water_temp;
          depth := depth;
          ais_payloads := ais_payloads self |})%R.

Definition set_tracker (self : NMEASimulator) (t : GPSTracker)
  : NMEASimulator :=
  {| gps_tracker := t;
     engine_rpm := engine_rpm self;
     engine_pitch := engine_pitch self;
     wind_direction := wind_direction self;
     wind_speed := wind_speed self;
     water_temp := water_temp self;
     depth := depth self;
     ais_payloads := ais_payloads self |}.

(** Rendering the sentences one after the other, each drawing from the
    random source where the previous one stopped. *)
Fixpoint render_all (msgs : list NMEAMessage) : Rand (list string) :=
  match msgs with
  | [] => ret []
  | m :: rest =>
      s <- to_string m ;;
      tl <- render_all rest ;;
      ret (s :: tl)
  end.

(** The sentences built by [generate_messages], in the order in which it
    appends them; [clock k] is the time at which the [k]-th sentence object
    is constructed. *)
Definition batch (self : NMEASimulator) (position : Position)
    (heading speed : R) (clock : nat -> datetime) (p0 p1 p2 : string)
  : list NMEAMessage :=
  [ GPRMC (clock 0%nat) position speed heading;
    IIVHW (clock 1%nat) speed heading;
    GPVTG (clock 2%nat) heading speed;
    IIHDT (clock 3%nat) heading;
    GPGLL (clock 4%nat) position;
    GPGGA (clock 5%nat) position 1 4 1.0 2.0;
    GPGSA (clock 6%nat) [8; 11; 15; 22]%Z 2.0 1.0 1.0;
    GPZDA (clock 7%nat);
    IIVBW (clock 8%nat) speed;
    WIMWD (clock 9%nat) (wind_direction self) (wind_speed self);
    WIMWV (clock 10%nat) (wind_direction self) (wind_speed self);
    IIMTW (clock 11%nat) (water_temp self);
    SDDPT (clock 12%nat) (depth self) 0.3;
    SDDBT (clock 13%nat) (depth self * 3.28084) (depth self)
          (depth self * 0.546807);
    IIRPM (clock 14%nat) "1" (engine_rpm self) (engine_pitch self);
    IIRPM (clock 15%nat) "2" 0 (engine_pitch self);
    IIAPB (clock 16%nat) 0.012140 260.4 heading;
    GPRMB (clock 17%nat) position 0.012140 3.573 speed heading;
    AIVDO (clock 18%nat) 1 1 1 "A" p0;
    AIVDM (clock 19%nat) 1 1 1 "A" p0;
    AIVDO (clock 20%nat) 2 1 9 "A" p1;
    AIVDO (clock 21%nat) 2 2 9 "A" p2;
    AIVDM (clock 22%nat) 2 1 9 "A" p1;
    AIVDM (clock 23%nat) 2 2 9 "A" p2 ]%R.

(** [NMEASimulator.generate_messages]: the batch of sentence strings, the
    simulator after the update of its tracker and environmental fields,
    and the remaining random supply. *)
Definition generate_messages (self : NMEASimulator) (now : R)
    (clock : nat -> datetime) (g : Rng)
  : result (list string * NMEASimulator * Rng) :=
  r <-? get_current_position (gps_tracker self) now ;;
  let (position, tracker) := r : Position * GPSTracker in
  heading <-? get_current_heading tracker ;;
  let speed := get_current_speed tracker in
  let (self', g') := _update_environmental_data (set_tracker self tracker) g in
  p0 <-? Py.getitem (ais_payloads self') 0 ;;
  p1 <-? Py.getitem (ais_payloads self') 1 ;;
  p2 <-? Py.getitem (ais_payloads self') 2 ;;
  let (messages, g'') :=
    render_all (batch self' position heading speed clock p0 p1 p2) g' in
  Ok (messages, self', g'').

End Server.

(** ** Simulator vocabulary of the specification *)

Module SimSpec.
Import Server.

(** The bounds on the environmental readings. *)
Definition env_ok (s : NMEASimulator) : Prop :=
  (0 <= wind_direction s < 360
   /\ 0 <= wind_speed s
   /\ 0 <= water_temp s
   /\ 0.1 <= depth s
   /\ 0 <= engine_rpm s
   /\ 0 <= engine_pitch s)%R.

(** The states a simulator can be in: freshly constructed, after an
    update of the environmental data, or after a generated batch. *)
Inductive reachable : NMEASimulator -> Prop :=
| reach_init (t : GpsTracker.GPSTracker) : reachable (init t)
| reach_update (s : NMEASimulator) (g : Rng) :
    reachable s -> reachable (fst (_update_environmental_data s g))
| reach_generate (s s' : NMEASimulator) (now : R)
    (clock : nat -> datetime) (g g' : Rng) (msgs : list string) :
    reachable s ->
    generate_messages s now clock g = Ok (msgs, s', g') ->
    reachable s'.

(** [n] successive updates, each drawing from the same random supply. *)
Fixpoint ticks (n : nat) (s : NMEASimulator) : Rand NMEASimulator :=
  match n with
  | O => ret s
  | S n' => s' <- _update_environmental_data s ;; ticks n' s'
  end.

End SimSpec.

(** ** Binary64 arithmetic of the environmental update

    Whether [(wind_direction + u) % 360] stays below 360 is decided by
    the rounding of a float addition inside Python's remainder, which the
    real-number model cannot show.  Here the six readings and their update
    are embedded on IEEE 754 binary64 numbers (Rocq's primitive floats,
    round to nearest even, as CPython's [float]). *)

Module Binary64.
Import PrimFloat FloatOps SpecFloat.
Local Open Scope float_scope.
#[local] Set Warnings "-inexact-float".

(** C's [fmod]: the remainder of the truncated division, exact, with the
    sign of [x].  Both operands are scaled to the smaller of the two
    exponents, where the remainder is the integer one. *)
Definition fmod (x y : float) : float :=
  match Prim2SF x, Prim2SF y with
  | S754_nan, _ | _, S754_nan => nan
  | S754_infinity _, _ | _, S754_zero _ => nan
  | _, S754_infinity _ | S754_zero _, _ => x
  | S754_finite sx mx ex, S754_finite _ my ey =>
      let e := Z.min ex ey in
      let r := Z.rem (Z.pos mx * 2 ^ (ex - e)) (Z.pos my * 2 ^ (ey - e)) in
      SF2Prim (binary_normalize prec emax (if sx then - r else r)%Z e sx)
  end.

(** [x % y] on floats, for [y <> 0] (CPython's [float_rem]): [fmod],
    then [y] is added when the remainder is not zero and its sign differs
    from that of [y]; that addition rounds. *)
Definition float_mod (x y : float) : float :=
  let m := fmod x y in
  if m =? 0 then (if get_sign y then neg_zero else zero)
  else if xorb (y <? 0) (m <? 0) then m + y else m.

(** [max(a, b)]: the first argument unless the second is larger. *)
Definition max_ (a b : float) : float := if a <? b then b else a.

(** The supply of [random.random()] values. *)
Definition Rng : Type := nat -> float.

Definition random (g : Rng) : float * Rng := (g O, fun n => g (S n)).

(** [random.uniform(a, b)]: [a + (b - a) * random()]. *)
Definition uniform (a b : float) (g : Rng) : float * Rng :=
  let (u, g') := random g in (a + (b - a) * u, g').

(** The value [random.random()] returns for the 53 random bits [k]:
    [k / 2^53], for [0 <= k < 2^53]. *)
Definition random_value (k : Z) : float :=
  Z.ldexp (of_uint63 (Uint63Axioms.of_Z k)) (-53).

(** The environmental readings of [NMEASimulator]. *)
Record Env : Type := mkEnv {
  engine_rpm : float;
  engine_pitch : float;
  wind_direction : float;
  wind_speed : float;
  water_temp : float;
  depth : float
}.

(** The seed values of [NMEASimulator.__init__]. *)
Definition init : Env :=
  {| engine_rpm := 612.0;
     engine_pitch := 10.5;
     wind_direction := 255.1;
     wind_speed := 27.8;
     water_temp := 6.7;
     depth := 2.2 |}.

(** [NMEASimulator._update_environmental_data]. *)
Definition _update_environmental_data (self : Env) (g : Rng) : Env * Rng :=
  let (u1, g) := uniform (-2) 2 g in
  let wind_direction := float_mod (wind_direction self + u1) 360 in
  let (u2, g) := uniform (-1) 1 g in
  let wind_speed := max_ 0 (wind_speed self + u2) in
  let (u3, g) := uniform (-0.2) 0.2 g in
  let water_temp := max_ 0 (water_temp self + u3) in
  let (u4, g) := uniform (-0.1) 0.1 g in
  let depth := max_ 0.1 (depth self + u4) in
  let (u5, g) := uniform (-5) 5 g in
  let engine_rpm := max_ 0 (engine_rpm self + u5) in
  let (u6, g) := uniform (-0.5) 0.5 g in
  let engine_pitch := max_ 0 (engine_pitch self + u6) in
  ({| engine_rpm := engine_rpm;
      engine_pitch := engine_pitch;
      wind_direction := wind_direction;
      wind_speed := wind_speed;
      water_temp := water_temp;
      depth := depth |}, g).

(** [n] successive updates, each drawing from the same random supply. *)
Fixpoint ticks (n : nat) (s : Env) (g : Rng) : Env * Rng :=
  match n with
  | O => (s, g)
  | S n' => let (s', g') := _update_environmental_data s g in ticks n' s' g'
  end.

(** A supply whose draws are all [0.0] except the one numbered [i],
    which is [k / 2^53]. *)
Definition one_draw (i : nat) (k : Z) : Rng :=
  fun n => if Nat.eqb n i then random_value k else 0.

(** 127 ticks that each lower the wind direction by 2 degrees (six draws
    a tick), then a draw of [2026619832316735 / 2^53] for the wind
    direction of tick 128. *)
Definition veering_supply : Rng := one_draw (6 * 127) 2026619832316735.

End Binary64.

(** ** Sentence vocabulary of the specification *)

Module SentenceSpec.

(** XOR of the byte value of every character of a string. *)
Fixpoint xor_bytes (s : string) : N :=
  match s with
  | EmptyString => 0%N
  | String c rest => N.lxor (N_of_ascii c) (xor_bytes rest)
  end.

(** Upper-case hexadecimal digits and their values. *)
Definition hex_value (c : ascii) : option N :=
  let n := N_of_ascii c in
  if ((48 <=? n) && (n <=? 57))%N then Some (n - 48)%N
  else if ((65 <=? n) && (n <=? 70))%N then Some (n - 55)%N
  else None.

(** The value of a two-digit upper-case hexadecimal numeral. *)
Definition hex2_value (h1 h2 : ascii) : option N :=
  match hex_value h1, hex_value h2 with
  | Some a, Some b => Some (16 * a + b)%N
  | _, _ => None
  end.

(** Re-parsing a rendered sentence: the characters strictly between the
    first character and the trailing ["*"], and the two characters after
    that ["*"]. *)
Fixpoint split_trailer (s : string) : option (string * ascii * ascii) :=
  match s with
  | EmptyString => None
  | String c rest =>
      match rest with
      | String h1 (String h2 EmptyString) =>
          if Ascii.eqb c "*" then Some (EmptyString, h1, h2) else None
      | _ =>
          match split_trailer rest with
          | Some (body, h1, h2) => Some (String c body, h1, h2)
          | None => None
          end
      end
  end.

Definition parse_sentence (s : string) : option (ascii * string * ascii * ascii) :=
  match s with
  | String lead rest =>
      match split_trailer rest with
      | Some (body, h1, h2) => Some (lead, body, h1, h2)
      | None => None
      end
  | EmptyString => None
  end.

(** A string that ends with ["*"], split before it. *)
Fixpoint strip_star (s : string) : option string :=
  match s with
  | EmptyString => None
  | String c rest =>
      match rest with
      | EmptyString => if Ascii.eqb c "*" then Some EmptyString else None
      | _ => option_map (String c) (strip_star rest)
      end
  end.

(** [f"{n:02X}"] is two upper-case hexadecimal digits of value [n]. *)
Definition two_hex_ok (n : N) : bool :=
  match Fmt.format_02X n with
  | String h1 (String h2 EmptyString) =>
      match hex2_value h1 h2 with
      | Some v => (v =? n)%N
      | None => false
      end
  | _ => false
  end.

(** A string ending with ["*"], and the text of a sentence before its
    checksum is appended: a leading ["$"] or ["!"], a body, and ["*"]. *)
Definition ends_star (s : string) : Prop := exists b, s = b ++ "*".

Definition framed (data : string) : Prop :=
  exists lead body,
    data = String lead (body ++ "*") /\ (lead = "$" \/ lead = "!")%char.

(** The fields of a comma-separated text. *)
Fixpoint split_on (sep : ascii) (s : string) : list string :=
  match s with
  | EmptyString => [EmptyString]
  | String c rest =>
      if Ascii.eqb c sep then EmptyString :: split_on sep rest
      else match split_on sep rest with
           | [] => [String c EmptyString]
           | field :: fields => String c field :: fields
           end
  end.

Fixpoint has_char (sep : ascii) (s : string) : bool :=
  match s with
  | EmptyString => false
  | String c rest => Ascii.eqb c sep || has_char sep rest
  end.

(** The satellite slot for an ID: the ID when it is in the list given at
    construction, empty otherwise. *)
Definition slot (satellites : list Z) (id : Z) : string :=
  if in_dec Z.eq_dec id satellites then Fmt.decimal id else "".

Definition slot_ids : list Z := [1; 2; 3; 4; 5; 6; 7; 8; 9; 10; 11; 12]%Z.

Definition in_slot_range (id : Z) : bool := ((1 <=? id) && (id <=? 12))%Z.

End SentenceSpec.

(** ** Batch vocabulary of the specification *)

Module BatchSpec.
Import Messages.

(** The [sentence_type] each subclass passes to [NMEAMessage.__init__],
    and the character its [to_string] starts with. *)
Definition sentence_type (m : NMEAMessage) : string :=
  match m with
  | GPRMC _ _ _ _ => "GPRMC"
  | IIVHW _ _ _ => "IIVHW"
  | GPVTG _ _ _ => "GPVTG"
  | IIHDT _ _ => "IIHDT"
  | GPGLL _ _ => "GPGLL"
  | GPGGA _ _ _ _ _ _ => "GPGGA"
  | GPGSA _ _ _ _ _ => "GPGSA"
  | GPZDA _ => "GPZDA"
  | IIVBW _ _ => "IIVBW"
  | WIMWD _ _ _ => "WIMWD"
  | WIMWV _ _ _ => "WIMWV"
  | IIMTW _ _ => "IIMTW"
  | SDDPT _ _ _ => "SDDPT"
  | SDDBT _ _ _ _ => "SDDBT"
  | IIRPM _ _ _ _ => "IIRPM"
  | IIAPB _ _ _ _ => "IIAPB"
  | GPRMB _ _ _ _ _ _ => "GPRMB"
  | AIVDO _ _ _ _ _ _ => "AIVDO"
  | AIVDM _ _ _ _ _ _ => "AIVDM"
  end.

Definition lead_char (m : NMEAMessage) : ascii :=
  match m with
  | AIVDO _ _ _ _ _ _ | AIVDM _ _ _ _ _ _ => "!"
  | _ => "$"
  end.

(** The identifier a rendered sentence starts with: its first 6
    characters. *)
Definition sentence_id (s : string) : string := substring 0 6 s.

(** The order and composition of a batch: position/course fix, water
    speed and heading, track made good, heading, geographic position, GPS
    fix, DOP and satellites, date and time, water-referenced speed, two
    wind sentences, water temperature, two depth sentences, two engine
    sentences, autopilot, navigation information, six AIS sentences. *)
Definition batch_layout : list string :=
  [ "$GPRMC"; "$IIVHW"; "$GPVTG"; "$IIHDT"; "$GPGLL"; "$GPGGA"; "$GPGSA";
    "$GPZDA"; "$IIVBW"; "$WIMWD"; "$WIMWV"; "$IIMTW"; "$SDDPT"; "$SDDBT";
    "$IIRPM"; "$IIRPM"; "$IIAPB"; "$GPRMB";
    "!AIVDO"; "!AIVDM"; "!AIVDO"; "!AIVDO"; "!AIVDM"; "!AIVDM" ].

(** The six AIS sentences of every batch. *)
Definition ais_sentences : list string :=
  [ "!AIVDO,1,1,,A,17PaewhP0gar0FkcvG4hBh>t0000,1*0F";
    "!AIVDM,1,1,,A,17PaewhP0gar0FkcvG4hBh>t0000,1*0D";
    "!AIVDO,1,9,,A,57Paewh00001<To7;?@plD5<Tl0000000000000U1@:552R8R2TnA3QF,9*09";
    "!AIVDO,2,9,,A,@00000000000002,9*64";
    "!AIVDM,1,9,,A,57Paewh00001<To7;?@plD5<Tl0000000000000U1@:552R8R2TnA3QF,9*0B";
    "!AIVDM,2,9,,A,@00000000000002,9*66" ].

(** [s] starts with [prefix]. *)
Definition starts_with (prefix s : string) : Prop :=
  exists rest, s = prefix ++ rest.

End BatchSpec.

(** ** server.py: NMEATCPServer construction and create_simulator_from_config

    The configuration dictionary is modelled for well-typed values: every
    key the function reads is a field, [None] when the key is absent, so
    that [config.get(key, default)] is [get field default].  The set of
    connected clients, empty at construction, is a list. *)

Module ServerConfig.
Import GpsTracker.
Local Open Scope R_scope.

Record Config : Type := mkConfig {
  host : option string;
  port : option Z;
  speed_knots : option R;
  route_type : option string;
  start_lat : option R;
  start_lon : option R;
  end_lat : option R;
  end_lon : option R;
  center_lat : option R;
  center_lon : option R;
  radius_nm : option R;
  num_points : option Z;
  width_nm : option R;
  height_nm : option R
}.

(** [config.get(key, default)]. *)
Definition get {A : Type} (field : option A) (default : A) : A :=
  match field with
  | Some v => v
  | None => default
  end.

Record NMEATCPServer : Type := mkNMEATCPServer {
  srv_host : string;
  srv_port : Z;
  srv_gps_tracker : GPSTracker;
  srv_simulator : Server.NMEASimulator;
  srv_clients : list nat;
  srv_running : bool
}.

(** [NMEATCPServer._create_default_tracker]. *)
Definition _create_default_tracker (now : R) : result GPSTracker :=
  let waypoints :=
    [ mkWaypoint (-33.8587) 151.2140;
      mkWaypoint (-33.8600) 151.2200;
      mkWaypoint (-33.8500) 151.2300;
      mkWaypoint (-33.8400) 151.2200 ] in
  init now waypoints 5.0.

(** [NMEATCPServer.__init__]. *)
Definition server_init (now : R) (host : string) (port : Z)
    (gps_tracker : option GPSTracker) : result NMEATCPServer :=
  tracker <-?
    match gps_tracker with
    | Some t => Ok t
    | None => _create_default_tracker now
    end ;;
  Ok {| srv_host := host;
        srv_port := port;
        srv_gps_tracker := tracker;
        srv_simulator := Server.init tracker;
        srv_clients := [];
        srv_running := false |}.

(** [create_simulator_from_config]; [create_line_route] is called without
    its [num_points] argument, whose default is 10. *)
Definition create_simulator_from_config (now : R) (config : Config)
  : result NMEATCPServer :=
  let host := get (host config) "0.0.0.0" in
  let port := get (port config) 10110%Z in
  let speed_knots := get (speed_knots config) 5.0 in
  let route_type := get (route_type config) "line" in
  waypoints <-?
    (if String.eqb route_type "line" then
       let start_lat := get (start_lat config) (-33.8587) in
       let start_lon := get (start_lon config) 151.2140 in
       let end_lat := get (end_lat config) (-33.8400) in
       let end_lon := get (end_lon config) 151.2200 in
       create_line_route start_lat start_lon end_lat end_lon 10
     else if String.eqb route_type "circle" then
       let center_lat := get (center_lat config) (-33.8587) in
       let center_lon := get (center_lon config) 151.2140 in
       let radius_nm := get (radius_nm config) 0.5 in
       let num_points := get (num_points config) 8%Z in
       create_circular_route center_lat center_lon radius_nm num_points
     else if String.eqb route_type "rectangle" then
       let center_lat := get (center_lat config) (-33.8587) in
       let center_lon := get (center_lon config) 151.2140 in
       let width_nm := get (width_nm config) 0.3 in
       let height_nm := get (height_nm config) 0.2 in
       Ok (create_rectangle_route center_lat center_lon width_nm height_nm)
     else Raise ValueError) ;;
  gps_tracker <-? init now waypoints speed_knots ;;
  server_init now host port (Some gps_tracker).

End ServerConfig.

(** ** Vocabulary of the additional properties *)

Module ExtraSpec.
Import GpsTracker.
Local Open Scope R_scope.

(** Point [i] of a line of [n] points: the parameter is [i / (n - 1)]. *)
Definition line_point (start_lat start_lon end_lat end_lon : R) (n i : Z)
  : Waypoint :=
  mkWaypoint (start_lat + (end_lat - start_lat) * (IZR i / IZR (n - 1)))
             (start_lon + (end_lon - start_lon) * (IZR i / IZR (n - 1))).

(** The random supply after [k] more draws. *)
Definition shift (k : nat) (g : Rng) : Rng := fun n => g (k + n)%nat.

(** Every value of the supply lies in [0, 1), as [random.random()]
    promises. *)
Definition unit_draws (g : Rng) : Prop := forall n, 0 <= g n < 1.

(** The number of values each sentence class draws from the random
    supply: one per [add_random_variation] call of its [to_string]. *)
Definition draws (m : Messages.NMEAMessage) : nat :=
  match m with
  | Messages.GPRMC _ _ _ _ => 2
  | Messages.IIVHW _ _ _ => 2
  | Messages.GPVTG _ _ _ => 2
  | Messages.IIHDT _ _ => 1
  | Messages.GPGLL _ _ => 0
  | Messages.GPGGA _ _ _ _ _ _ => 3
  | Messages.GPGSA _ _ _ _ _ => 3
  | Messages.GPZDA _ => 0
  | Messages.IIVBW _ _ => 1
  | Messages.WIMWD _ _ _ => 2
  | Messages.WIMWV _ _ _ => 2
  | Messages.IIMTW _ _ => 1
  | Messages.SDDPT _ _ _ => 1
  | Messages.SDDBT _ _ _ _ => 3
  | Messages.IIRPM _ _ _ _ => 2
  | Messages.IIAPB _ _ _ _ => 3
  | Messages.GPRMB _ _ _ _ _ _ => 4
  | Messages.AIVDO _ _ _ _ _ _ => 0
  | Messages.AIVDM _ _ _ _ _ _ => 0
  end%nat.

Fixpoint total_draws (msgs : list Messages.NMEAMessage) : nat :=
  match msgs with
  | [] => 0
  | m :: rest => draws m + total_draws rest
  end%nat.



(** A simulator on which [generate_messages] can run: the AIS payloads of
    the constructor and a tracker with at least 2 waypoints on a route of
    positive length. *)
Definition well_formed (s : Server.NMEASimulator) : Prop :=
  Server.ais_payloads s = Server.ais_payloads (Server.init (Server.gps_tracker s))
  /\ (2 <= length (waypoints (Server.gps_tracker s)))%nat
  /\ 0 < total_distance (Server.gps_tracker s).

(** Successive calls of [generate_messages] at the given times, each
    starting from the simulator and the random supply the previous one
    left; the batches in order. *)
Fixpoint run_batches (s : Server.NMEASimulator) (times : list R)
    (clock : nat -> datetime) (g : Rng) : result (list (list string)) :=
  match times with
  | [] => Ok []
  | now :: rest =>
      r <-? Server.generate_messages s now clock g ;;
      let '(msgs, s', g') := r in
      tl <-? run_batches s' rest clock g' ;;
      Ok (msgs :: tl)
  end.

End ExtraSpec.

(** ** Example inputs *)

Module Examples.
Import GpsTracker.
Local Open Scope R_scope.

(** A loop of three waypoints on the equator, one degree apart, followed
    at 5 knots from time 0. *)
Definition equator_loop : list Waypoint :=
  [mkWaypoint 0 0; mkWaypoint 0 1; mkWaypoint 0 2].

Definition equator_tracker : GPSTracker :=
  {| waypoints := equator_loop;
     speed_knots := 5;
     speed_ms := 5 * 0.514444;
     current_waypoint_index := 0%Z;
     start_time := 0;
     total_distance := _calculate_total_distance equator_loop;
     current_position := mkPosition 0 0 |}.

(** The first waypoint of the default route of [server.py], the Sydney
    Opera House. *)
Definition opera_house : Position := mkPosition (-33.8587) 151.2140.

End Examples.

(** * Properties *)

(** ** Python float primitives *)

Module PyFacts.

Lemma float_mod_self (y : R) : y <> 0 -> Py.float_mod y y = 0.
Proof.
  intros Hy. unfold Py.float_mod.
  replace (y / y) with (IZR 1) by (field; exact Hy).
  rewrite ZfloorZ. lra.
Qed.

Lemma float_mod_bounds (x y : R) : 0 < y -> 0 <= Py.float_mod x y < y.
Proof.
  intros Hy. unfold Py.float_mod.
  destruct (Zfloor_bound (x / y)) as [Hlo Hhi].
  assert (Hx : x = x / y * y) by (field; lra).
  split.
  - apply Rmult_le_compat_r with (r := y) in Hlo; lra.
  - apply Rmult_lt_compat_r with (r := y) in Hhi; lra.
Qed.

Lemma float_mod_eq (x y : R) (k : Z) :
  0 < y -> IZR k * y <= x < (IZR k + 1) * y ->
  Py.float_mod x y = x - IZR k * y.
Proof.
  intros Hy [Hlo Hhi]. unfold Py.float_mod.
  rewrite (Zfloor_eq k); [reflexivity|].
  split.
  - apply Rmult_le_reg_r with (r := y); [exact Hy|].
    replace (x / y * y) with x by (field; lra). exact Hlo.
  - apply Rmult_lt_reg_r with (r := y); [exact Hy|].
    replace (x / y * y) with x by (field; lra). exact Hhi.
Qed.

Lemma atan2_nonneg (y x : R) : 0 <= y -> 0 <= x -> 0 <= Py.atan2 y x.
Proof.
  intros Hy Hx. unfold Py.atan2.
  destruct (Rlt_dec 0 x) as [Hx0|Hx0].
  - destruct Hy as [Hy|Hy].
    + left. rewrite <- atan_0. apply atan_increasing.
      apply Rdiv_lt_0_compat; assumption.
    + rewrite <- Hy. unfold Rdiv. rewrite Rmult_0_l, atan_0. lra.
  - destruct (Rlt_dec x 0); [lra|].
    destruct (Rlt_dec 0 y).
    + pose proof PI_RGT_0. lra.
    + destruct (Rlt_dec y 0); lra.
Qed.

Lemma atan2_pos (y x : R) : 0 < y -> 0 <= x -> 0 < Py.atan2 y x.
Proof.
  intros Hy Hx. unfold Py.atan2.
  destruct (Rlt_dec 0 x) as [Hx0|Hx0].
  - rewrite <- atan_0. apply atan_increasing.
    apply Rdiv_lt_0_compat; assumption.
  - destruct (Rlt_dec x 0); [lra|].
    destruct (Rlt_dec 0 y); [|lra].
    pose proof PI_RGT_0. lra.
Qed.

Lemma atan2_zero_pos : Py.atan2 0 1 = 0.
Proof.
  unfold Py.atan2. destruct (Rlt_dec 0 1); [|lra].
  unfold Rdiv. rewrite Rmult_0_l. apply atan_0.
Qed.

Lemma atan2_pos_zero (y : R) : 0 < y -> Py.atan2 y 0 = PI / 2.
Proof.
  intros Hy. unfold Py.atan2.
  destruct (Rlt_dec 0 0); [lra|].
  destruct (Rlt_dec 0 y); [reflexivity|lra].
Qed.

Lemma atan2_neg_zero (y : R) : y < 0 -> Py.atan2 y 0 = - (PI / 2).
Proof.
  intros Hy. unfold Py.atan2.
  destruct (Rlt_dec 0 0); [lra|].
  destruct (Rlt_dec 0 y); [lra|].
  destruct (Rlt_dec y 0); [reflexivity|lra].
Qed.

Lemma max_ge_l (a b : R) : a <= Py.max_ a b.
Proof. unfold Py.max_. destruct (Rlt_dec a b); lra. Qed.

Lemma clamp_zero : Py.max_ 0 (Py.min_ 1 0) = 0.
Proof.
  unfold Py.max_, Py.min_.
  destruct (Rlt_dec 0 1); [|lra]. destruct (Rlt_dec 0 0); lra.
Qed.

Lemma clamp_unit (p : R) : 0 <= p <= 1 -> Py.max_ 0 (Py.min_ 1 p) = p.
Proof.
  intros [H0 H1]. unfold Py.max_, Py.min_.
  destruct (Rlt_dec p 1); destruct (Rlt_dec 0 p); destruct (Rlt_dec 0 1); lra.
Qed.

Lemma getitem_nat {A : Type} (l : list A) (i : nat) (d : A) :
  (i < length l)%nat -> Py.getitem l (Z.of_nat i) = Ok (nth i l d).
Proof.
  intros Hi. unfold Py.getitem.
  destruct (Z.ltb_spec (Z.of_nat i) 0); [lia|].
  destruct (Z.ltb_spec (Z.of_nat i) 0); [lia|].
  rewrite Nat2Z.id.
  rewrite (nth_error_nth' l d Hi). reflexivity.
Qed.

Lemma getitem_head {A : Type} (a : A) (l : list A) :
  Py.getitem (a :: l) 0 = Ok a.
Proof. reflexivity. Qed.

Lemma getitem_neg {A : Type} (l : list A) (k : nat) (d : A) :
  (0 < k <= length l)%nat ->
  Py.getitem l (- Z.of_nat k) = Ok (nth (length l - k) l d).
Proof.
  intros Hk. unfold Py.getitem.
  destruct (Z.ltb_spec (- Z.of_nat k) 0); [|lia].
  destruct (Z.ltb_spec (- Z.of_nat k + Z.of_nat (length l)) 0); [lia|].
  replace (Z.to_nat (- Z.of_nat k + Z.of_nat (length l)))
    with (length l - k)%nat by lia.
  rewrite (nth_error_nth' l d); [reflexivity|lia].
Qed.

End PyFacts.

(** ** Geo math *)

Module GeoFacts.
Import GpsTracker.

Lemma distance_to_nonneg (a b : Waypoint) : 0 <= distance_to a b.
Proof.
  unfold distance_to.
  apply Rmult_le_pos; [lra|].
  apply Rmult_le_pos; [lra|].
  apply PyFacts.atan2_nonneg; apply sqrt_pos.
Qed.

Lemma distance_to_self (a : Waypoint) : distance_to a a = 0.
Proof.
  unfold distance_to, Py.radians.
  replace (lat a - lat a) with 0 by lra.
  replace (lon a - lon a) with 0 by lra.
  replace (0 * (PI / 180) / 2) with 0 by lra.
  rewrite sin_0.
  replace (0 ^ 2 + cos (lat a * (PI / 180)) * cos (lat a * (PI / 180)) * 0 ^ 2)
    with 0 by lra.
  rewrite sqrt_0. replace (1 - 0) with 1 by lra. rewrite sqrt_1.
  rewrite PyFacts.atan2_zero_pos. lra.
Qed.

(** The haversine term is positive as soon as the latitudes differ by less
    than a full turn and the longitudes agree. *)
Lemma distance_to_pos_meridian (a b : Waypoint) :
  lon a = lon b -> 0 < lat b - lat a < 360 -> 0 < distance_to a b.
Proof.
  intros Hlon Hlat. unfold distance_to, Py.radians.
  rewrite Hlon. replace (lon b - lon b) with 0 by lra.
  replace (0 * (PI / 180) / 2) with 0 by lra. rewrite sin_0.
  set (h := (lat b - lat a) * (PI / 180) / 2).
  assert (Hh : 0 < h < PI).
  { unfold h. pose proof PI_RGT_0. split; nra. }
  assert (Hs : 0 < sin h) by (apply sin_gt_0; lra).
  replace (sin h ^ 2 + _ * 0 ^ 2) with (sin h ^ 2) by lra.
  assert (Hsq : 0 < sin h ^ 2) by nra.
  apply Rmult_lt_0_compat; [lra|].
  apply Rmult_lt_0_compat; [lra|].
  apply PyFacts.atan2_pos; [apply sqrt_lt_R0; exact Hsq | apply sqrt_pos].
Qed.

(** Same along the equator. *)
Lemma distance_to_pos_equator (a b : Waypoint) :
  lat a = 0 -> lat b = 0 ->
  lon b - lon a <> 0 -> -360 < lon b - lon a < 360 ->
  0 < distance_to a b.
Proof.
  intros Ha Hb Hne Hlon. unfold distance_to, Py.radians.
  rewrite Ha, Hb. replace (0 - 0) with 0 by lra.
  replace (0 * (PI / 180)) with 0 by lra.
  replace (0 / 2) with 0 by lra. rewrite sin_0, cos_0.
  set (h := (lon b - lon a) * (PI / 180) / 2).
  assert (Hs : sin h <> 0).
  { pose proof PI_RGT_0 as Hpi.
    destruct (Rcase_abs (lon b - lon a)) as [Hneg|Hpos].
    - assert (sin h < 0); [|lra].
      apply sin_lt_0_var; unfold h; nra.
    - assert (0 < sin h); [|lra].
      apply sin_gt_0; unfold h; nra. }
  assert (Hsq : 0 < 0 ^ 2 + 1 * 1 * sin h ^ 2) by nra.
  apply Rmult_lt_0_compat; [lra|].
  apply Rmult_lt_0_compat; [lra|].
  apply PyFacts.atan2_pos; [apply sqrt_lt_R0; exact Hsq | apply sqrt_pos].
Qed.

(** Bearing along the equator: due east is 90 degrees, due west 270. *)
Lemma bearing_to_equator_east (a b : Waypoint) :
  lat a = 0 -> lat b = 0 -> 0 < lon b - lon a < 180 ->
  bearing_to a b = 90.
Proof.
  intros Ha Hb Hlon. unfold bearing_to, Py.radians, Py.degrees.
  rewrite Ha, Hb. replace (0 * (PI / 180)) with 0 by lra.
  rewrite sin_0, cos_0.
  set (h := (lon b - lon a) * (PI / 180)).
  pose proof PI_RGT_0 as Hpi.
  assert (Hs : 0 < sin h) by (apply sin_gt_0; unfold h; nra).
  replace (1 * 0 - 0 * 1 * cos h) with 0 by lra.
  rewrite PyFacts.atan2_pos_zero by lra.
  replace (PI / 2 * (180 / PI) + 360) with 450 by (field; lra).
  rewrite (PyFacts.float_mod_eq 450 360 1); lra.
Qed.

Lemma bearing_to_equator_west (a b : Waypoint) :
  lat a = 0 -> lat b = 0 -> 0 < lon a - lon b < 180 ->
  bearing_to a b = 270.
Proof.
  intros Ha Hb Hlon. unfold bearing_to, Py.radians, Py.degrees.
  rewrite Ha, Hb. replace (0 * (PI / 180)) with 0 by lra.
  rewrite sin_0, cos_0.
  set (h := (lon b - lon a) * (PI / 180)).
  pose proof PI_RGT_0 as Hpi.
  assert (Hs : sin h < 0) by (apply sin_lt_0_var; unfold h; nra).
  replace (1 * 0 - 0 * 1 * cos h) with 0 by lra.
  rewrite PyFacts.atan2_neg_zero by lra.
  replace (- (PI / 2) * (180 / PI) + 360) with 270 by (field; lra).
  rewrite (PyFacts.float_mod_eq 270 360 0); lra.
Qed.

(** The argument of the two square roots of [distance_to] always lies in
    [0, 1], so neither [math.sqrt] can fail. *)
Lemma haversine_term_range (self other : Waypoint) :
  let a := sin (Py.radians (lat other - lat self) / 2) ^ 2
           + cos (Py.radians (lat self)) * cos (Py.radians (lat other))
             * sin (Py.radians (lon other - lon self) / 2) ^ 2 in
  0 <= a <= 1.
Proof.
  cbv zeta. unfold Py.radians.
  set (f1 := lat self * (PI / 180)). set (f2 := lat other * (PI / 180)).
  set (h := (lon other - lon self) * (PI / 180) / 2).
  replace ((lat other - lat self) * (PI / 180) / 2) with ((f2 - f1) / 2)
    by (unfold f1, f2; lra).
  assert (Hhalf : sin ((f2 - f1) / 2) ^ 2 = (1 - cos (f2 - f1)) / 2).
  { pose proof (cos_2a_sin ((f2 - f1) / 2)) as Hc.
    replace (2 * ((f2 - f1) / 2)) with (f2 - f1) in Hc by lra. lra. }
  rewrite Hhalf, cos_minus.
  pose proof (sin2_cos2 f1) as H1. pose proof (sin2_cos2 f2) as H2.
  pose proof (sin2_cos2 h) as H3. unfold Rsqr in H1, H2, H3.
  set (s1 := sin f1) in *. set (c1 := cos f1) in *.
  set (s2 := sin f2) in *. set (c2 := cos f2) in *.
  set (u := sin h) in *. set (v := cos h) in *.
  assert (Hu : 0 <= u ^ 2 <= 1) by nra.
  set (k := 1 - 2 * u ^ 2).
  assert (Hk : -1 <= k <= 1) by (unfold k; lra).
  assert (Ha : (1 - (c2 * c1 + s2 * s1)) / 2 + c1 * c2 * u ^ 2
               = (1 - (s1 * s2 + c1 * c2 * k)) / 2) by (unfold k; field).
  rewrite Ha. clear Ha Hu H3. clearbody k s1 c1 s2 c2.
  assert (Hlo : 2 - 2 * (s1 * s2 + c1 * c2 * k)
                = (s1 - s2) ^ 2 + (c1 - k * c2) ^ 2 + c2 ^ 2 * (1 - k ^ 2))
    by nra.
  assert (Hhi : 2 + 2 * (s1 * s2 + c1 * c2 * k)
                = (s1 + s2) ^ 2 + (c1 + k * c2) ^ 2 + c2 ^ 2 * (1 - k ^ 2))
    by nra.
  assert (0 <= 1 - k ^ 2) by nra.
  assert (0 <= c2 ^ 2 * (1 - k ^ 2))
    by (apply Rmult_le_pos; [apply pow2_ge_0|assumption]).
  pose proof (pow2_ge_0 (s1 - s2)). pose proof (pow2_ge_0 (c1 - k * c2)).
  pose proof (pow2_ge_0 (s1 + s2)). pose proof (pow2_ge_0 (c1 + k * c2)).
  lra.
Qed.

End GeoFacts.

(** ** Route length and segment search *)

Module TrackerFacts.
Import GpsTracker RouteSpec.

Lemma fold_leg_shift (a : Waypoint) (l : list Waypoint) (n : nat) :
  forall k acc,
    fold_left (leg (a :: l)) (seq (S k) n) acc = fold_left (leg l) (seq k n) acc.
Proof.
  induction n as [|n IH]; intros k acc; [reflexivity|].
  cbn [seq fold_left]. rewrite IH. reflexivity.
Qed.

Lemma fold_leg_consecutive (l : list Waypoint) :
  forall acc,
    fold_left (leg l) (seq 0 (length l - 1)) acc = acc + consecutive_sum l.
Proof.
  induction l as [|a l IH]; intros acc; [simpl; lra|].
  destruct l as [|b l]; [simpl; lra|].
  replace (length (a :: b :: l) - 1)%nat with (S (length (b :: l) - 1))
    by (simpl; lia).
  cbn [seq fold_left]. rewrite fold_leg_shift, IH.
  unfold leg, wp_at. cbn [nth Nat.add consecutive_sum]. lra.
Qed.

Lemma wp_at_last (l : list Waypoint) :
  wp_at l (length l - 1) = last l wp0.
Proof.
  induction l as [|a l IH]; [reflexivity|].
  destruct l as [|b l]; [reflexivity|].
  replace (length (a :: b :: l) - 1)%nat with (S (length (b :: l) - 1))
    by (simpl; lia).
  unfold wp_at in *. change (last (a :: b :: l) wp0) with (last (b :: l) wp0).
  rewrite <- IH. reflexivity.
Qed.

Lemma wp_at_hd (l : list Waypoint) : wp_at l 0 = hd wp0 l.
Proof. destruct l; reflexivity. Qed.

Lemma calculate_total_distance_spec (wps : list Waypoint) :
  _calculate_total_distance wps = total_length wps.
Proof.
  unfold _calculate_total_distance, total_length.
  rewrite fold_leg_consecutive, wp_at_last, wp_at_hd.
  destruct (2 <? length wps)%nat; ring.
Qed.

Lemma consecutive_sum_cons (a b : Waypoint) (l : list Waypoint) :
  consecutive_sum (a :: b :: l) = distance_to a b + consecutive_sum (b :: l).
Proof. reflexivity. Qed.

Lemma consecutive_sum_nonneg (l : list Waypoint) : 0 <= consecutive_sum l.
Proof.
  induction l as [|a l IH]; [simpl; lra|].
  destruct l as [|b l]; [simpl; lra|].
  rewrite consecutive_sum_cons.
  pose proof (GeoFacts.distance_to_nonneg a b). lra.
Qed.

Lemma total_distance_nonneg (wps : list Waypoint) :
  0 <= _calculate_total_distance wps.
Proof.
  rewrite calculate_total_distance_spec. unfold total_length.
  pose proof (consecutive_sum_nonneg wps).
  pose proof (GeoFacts.distance_to_nonneg (last wps wp0) (hd wp0 wps)).
  destruct (2 <? length wps)%nat; lra.
Qed.

Lemma segment_length_nonneg (wps : list Waypoint) (i : nat) :
  0 <= segment_length wps i.
Proof. apply GeoFacts.distance_to_nonneg. Qed.

Lemma distance_before_mono (wps : list Waypoint) (k i : nat) :
  (k <= i)%nat -> distance_before wps k <= distance_before wps i.
Proof.
  induction 1 as [|i Hle IH]; [lra|].
  cbn [distance_before]. pose proof (segment_length_nonneg wps i). lra.
Qed.

(** The search never divides by zero once the distance is not below the
    accumulated length. *)
Lemma find_segment_returns (wps : list Waypoint) (d : R) (idx : list nat) :
  forall cur start,
    cur <= d -> exists r, find_segment wps d idx cur start = Ok r.
Proof.
  induction idx as [|i idx IH]; intros cur start Hcur; [eexists; reflexivity|].
  cbn [find_segment].
  destruct (Rlt_dec d _) as [Hlt|Hge].
  - unfold Py.div_. destruct (Req_dec_T _ 0) as [Hz|Hnz]; [lra|].
    eexists; reflexivity.
  - apply IH. lra.
Qed.

(** The search stops in the segment the distance lies in, and records its
    index. *)
Lemma find_segment_in_segment (wps : list Waypoint) (d : R) (i : nat) :
  (i < length wps)%nat -> in_segment wps i d ->
  forall m k, (i - k = m)%nat -> (k <= i)%nat ->
    find_segment wps d (seq k (length wps - k))
      (distance_before wps k) (wp_at wps k)
    = Ok (Some (i, _interpolate_position (segment_start wps i)
                     (segment_end wps i)
                     ((d - distance_before wps i) / segment_length wps i))).
Proof.
  intros Hi [Hlo Hhi]. cbn [distance_before] in Hhi.
  induction m as [|m IH]; intros k Hm Hk.
  - assert (k = i) by lia. subst k.
    replace (length wps - i)%nat with (S (length wps - S i)) by lia.
    cbn [seq find_segment].
    change (distance_to (wp_at wps i)
              (if (i =? length wps - 1)%nat then wp_at wps 0
               else wp_at wps (i + 1)))
      with (segment_length wps i).
    destruct (Rlt_dec d _) as [Hlt|Hge]; [|lra].
    unfold Py.div_. destruct (Req_dec_T _ 0) as [Hz|Hnz]; [lra|].
    reflexivity.
  - replace (length wps - k)%nat with (S (length wps - S k)) by lia.
    cbn [seq find_segment].
    change (distance_to (wp_at wps k)
              (if (k =? length wps - 1)%nat then wp_at wps 0
               else wp_at wps (k + 1)))
      with (segment_length wps k).
    pose proof (distance_before_mono wps (S k) i ltac:(lia)) as Hmono.
    cbn [distance_before] in Hmono.
    destruct (Rlt_dec d _) as [Hlt|Hge]; [lra|].
    destruct (Nat.eqb_spec k (length wps - 1)) as [He|Hne]; [lia|].
    replace (k + 1)%nat with (S k) by lia.
    apply (IH (S k)); lia.
Qed.

End TrackerFacts.

(** ** Tracker behaviour *)

Module TrackerProps.
Import GpsTracker RouteSpec.

Lemma init_ok (now : R) (wps : list Waypoint) (speed : R) :
  (2 <= length wps)%nat ->
  init now wps speed
  = Ok {| waypoints := wps;
          speed_knots := speed;
          speed_ms := speed * 0.514444;
          current_waypoint_index := 0%Z;
          start_time := now;
          total_distance := _calculate_total_distance wps;
          current_position :=
            mkPosition (lat (wp_at wps 0)) (lon (wp_at wps 0)) |}.
Proof.
  intros Hlen. unfold init.
  destruct (Nat.ltb_spec (length wps) 2); [lia|reflexivity].
Qed.

Lemma interpolate_start (a b : Waypoint) :
  _interpolate_position a b 0 = mkPosition (lat a) (lon a).
Proof.
  unfold _interpolate_position. rewrite PyFacts.clamp_zero.
  f_equal; lra.
Qed.

(** The wrapped distance at a whole number of laps is the same as at the
    start, including the failure on a route of zero length. *)
Lemma wrapped_distance_lap (t : GPSTracker) :
  0 <= total_distance t -> speed_ms t <> 0 ->
  wrapped_distance t (start_time t + total_distance t / speed_ms t)
  = wrapped_distance t (start_time t)
  /\ (0 < total_distance t -> wrapped_distance t (start_time t) = Ok 0).
Proof.
  intros Htot Hs. unfold wrapped_distance.
  replace ((start_time t + total_distance t / speed_ms t - start_time t)
           * speed_ms t) with (total_distance t) by (field; exact Hs).
  replace ((start_time t - start_time t) * speed_ms t) with 0 by ring.
  destruct (Rge_dec (total_distance t) (total_distance t)) as [_|Hn]; [|lra].
  unfold Py.mod_.
  destruct (Req_dec_T (total_distance t) 0) as [Hz|Hnz].
  - split; [|lra].
    destruct (Rge_dec 0 (total_distance t)); [reflexivity|lra].
  - rewrite PyFacts.float_mod_self by exact Hnz.
    destruct (Rge_dec 0 (total_distance t)); [lra|]. split; reflexivity.
Qed.

(** A query succeeds whenever the travelled distance is not negative and
    the route has positive length. *)
Lemma get_current_position_returns (t : GPSTracker) (now : R) :
  waypoints t <> [] -> 0 < total_distance t ->
  0 <= (now - start_time t) * speed_ms t ->
  exists pos t', get_current_position t now = Ok (pos, t').
Proof.
  intros Hne Htot Hx. unfold get_current_position.
  assert (Hw : exists d, wrapped_distance t now = Ok d /\ 0 <= d).
  { unfold wrapped_distance. destruct (Rge_dec _ _).
    - unfold Py.mod_. destruct (Req_dec_T _ 0); [lra|].
      eexists; split; [reflexivity|].
      apply PyFacts.float_mod_bounds; exact Htot.
    - eexists; split; [reflexivity|exact Hx]. }
  destruct Hw as [d [-> Hd]]. cbn [rbind].
  destruct (waypoints t) as [|a l] eqn:Hwps; [contradiction|].
  rewrite PyFacts.getitem_head. cbn [rbind].
  destruct (TrackerFacts.find_segment_returns (a :: l) d
              (seq 0 (length (a :: l))) 0 a Hd)
    as [r ->].
  cbn [rbind]. destruct r as [[i pos]|].
  - eexists _, _; reflexivity.
  - change (-1)%Z with (- Z.of_nat 1)%Z.
    rewrite (PyFacts.getitem_neg (a :: l) 1 wp0) by (simpl; lia).
    cbn [rbind]. eexists _, _; reflexivity.
Qed.

(** On a 2-waypoint route a distance at or beyond the total length is
    reduced modulo the length of the single leg and the position search
    starts over on that leg. *)
Lemma two_point_wraps (t : GPSTracker) (a b : Waypoint) (now : R) :
  waypoints t = [a; b] -> total_distance t = distance_to a b ->
  0 < distance_to a b ->
  (now - start_time t) * speed_ms t >= total_distance t ->
  get_current_position t now
  = Ok (_interpolate_position a b
          (Py.float_mod ((now - start_time t) * speed_ms t)
             (distance_to a b) / distance_to a b),
        set_index t 0).
Proof.
  intros Hw Ht Hd Hx. unfold get_current_position, wrapped_distance.
  destruct (Rge_dec _ _) as [_|Hn]; [|contradiction].
  unfold Py.mod_. rewrite Ht.
  destruct (Req_dec_T _ 0) as [Hz|_]; [lra|]. cbn [rbind].
  rewrite Hw.
  rewrite PyFacts.getitem_head.
  cbn [rbind length seq find_segment nth Nat.eqb Nat.sub Nat.add wp_at].
  unfold wp_at. cbn [nth Nat.add].
  pose proof (PyFacts.float_mod_bounds
                ((now - start_time t) * speed_ms t) _ Hd) as [Hlo Hhi].
  destruct (Rlt_dec _ _) as [_|Hn]; [|lra].
  unfold Py.div_. destruct (Req_dec_T _ 0) as [Hz|_]; [lra|].
  cbn [rbind]. rewrite Rminus_0_r. reflexivity.
Qed.

End TrackerProps.

(** ** Theorems about the tracker and the route generators *)

Module TrackerTheorems.
Import GpsTracker RouteSpec Examples.

(** C2.  The total route length computed by the tracker is the sum of the
    distances between consecutive waypoints, plus the distance from the
    last waypoint back to the first exactly when the route has more than
    2 waypoints; the constructor stores that value.  For a rectangle
    route, whose fifth waypoint repeats the first, the closing leg has
    length zero, so the total is the perimeter of the four sides. *)
Theorem total_length_sum_and_rectangle :
  (forall wps : list Waypoint,
      _calculate_total_distance wps
      = consecutive_sum wps
        + (if (2 <? length wps)%nat
           then distance_to (last wps wp0) (hd wp0 wps) else 0))
  /\ (forall (now speed : R) (wps : list Waypoint),
        match init now wps speed with
        | Ok t => total_distance t = total_length wps
        | Raise _ => (length wps < 2)%nat
        end)
  /\ (forall center_lat center_lon width_nm height_nm now speed : R,
        let route :=
          create_rectangle_route center_lat center_lon width_nm height_nm in
        let sw := wp_at route 0 in
        let se := wp_at route 1 in
        let ne := wp_at route 2 in
        let nw := wp_at route 3 in
        length route = 5%nat
        /\ wp_at route 4 = sw
        /\ exists t,
             init now route speed = Ok t
             /\ total_distance t
                = distance_to sw se + distance_to se ne
                  + distance_to ne nw + distance_to nw sw).
Proof.
  split; [|split].
  - intros wps. apply TrackerFacts.calculate_total_distance_spec.
  - intros now speed wps. unfold init.
    destruct (Nat.ltb_spec (length wps) 2) as [Hlt|Hge]; [exact Hlt|].
    cbn [total_distance]. apply TrackerFacts.calculate_total_distance_spec.
  - intros clat clon w h now speed route sw se ne nw.
    split; [reflexivity|]. split; [reflexivity|].
    eexists. split; [apply TrackerProps.init_ok; simpl; lia|].
    cbn [total_distance].
    rewrite TrackerFacts.calculate_total_distance_spec.
    unfold total_length, route, create_rectangle_route.
    cbn [length Nat.ltb Nat.leb last hd].
    rewrite !TrackerFacts.consecutive_sum_cons.
    cbn [consecutive_sum].
    rewrite GeoFacts.distance_to_self.
    subst sw se ne nw route. unfold wp_at, create_rectangle_route.
    cbn [nth]. ring.
Qed.

(** C1 (the code departs from the claim).  A tracker built from the
    2-waypoint route (0,0) -> (1,0) at 5 knots, queried at the time the
    route completes and at one and a half times that: [is_route_complete]
    is true at both, but the position is the first waypoint (0,0) at the
    former and the midpoint (0.5,0) at the latter, not the final waypoint
    (1,0): the distance is reduced modulo the route length and the leg is
    travelled again from its start. *)
Theorem two_point_route_restarts :
  let a := mkWaypoint 0 0 in
  let b := mkWaypoint 1 0 in
  exists t,
    init 0 [a; b] 5 = Ok t
    /\ 0 < total_distance t
    /\ let T := total_distance t / speed_ms t in
       is_route_complete t T = Ok true
       /\ get_current_position t T = Ok (mkPosition 0 0, set_index t 0)
       /\ is_route_complete t (1.5 * T) = Ok true
       /\ get_current_position t (1.5 * T)
          = Ok (mkPosition 0.5 0, set_index t 0)
       /\ mkPosition 0 0 <> mkPosition (lat b) (lon b)
       /\ mkPosition 0.5 0 <> mkPosition (lat b) (lon b).
Proof.
  intros a b.
  assert (Hd : 0 < distance_to a b).
  { apply GeoFacts.distance_to_pos_meridian; simpl; lra. }
  eexists. split; [apply TrackerProps.init_ok; simpl; lia|].
  set (t := {| waypoints := [a; b] |}).
  assert (Htot : total_distance t = distance_to a b).
  { cbn [t total_distance]. rewrite TrackerFacts.calculate_total_distance_spec.
    unfold total_length. cbn [length Nat.ltb Nat.leb consecutive_sum]. ring. }
  assert (Hs : speed_ms t = 5 * 0.514444) by reflexivity.
  split; [lra|]. cbv zeta.
  assert (HT : (total_distance t / speed_ms t - start_time t) * speed_ms t
               = distance_to a b).
  { rewrite Htot, Hs. cbn [t start_time]. field; lra. }
  assert (HT' : (1.5 * (total_distance t / speed_ms t) - start_time t)
                * speed_ms t = 1.5 * distance_to a b).
  { rewrite Htot, Hs. cbn [t start_time]. field; lra. }
  assert (Hcomplete : forall k, 1 <= k ->
            is_route_complete t (k * (total_distance t / speed_ms t))
            = Ok true).
  { intros k Hk. unfold is_route_complete, Py.div_.
    destruct (Req_dec_T (speed_ms t) 0) as [Hz|_]; [rewrite Hs in Hz; lra|].
    cbn [rbind]. destruct (Rge_dec _ _) as [_|Hn]; [reflexivity|].
    exfalso. apply Hn. rewrite Htot, Hs. cbn [t start_time].
    assert (0 < distance_to a b / (5 * 0.514444))
      by (apply Rdiv_lt_0_compat; lra).
    nra. }
  split; [rewrite <- (Rmult_1_l (_ / _)); apply Hcomplete; lra|].
  split.
  { rewrite (TrackerProps.two_point_wraps t a b) by
      (try reflexivity; try assumption; rewrite HT, Htot; lra).
    rewrite HT, PyFacts.float_mod_self by lra.
    replace (0 / distance_to a b) with 0 by (field; lra).
    rewrite TrackerProps.interpolate_start. reflexivity. }
  split; [apply Hcomplete; lra|].
  split.
  { rewrite (TrackerProps.two_point_wraps t a b) by
      (try reflexivity; try assumption; rewrite HT', Htot; lra).
    rewrite HT', (PyFacts.float_mod_eq _ _ 1) by lra.
    replace ((1.5 * distance_to a b - 1 * distance_to a b) / distance_to a b)
      with 0.5.
    2:{ unfold Rdiv.
        replace (1.5 * distance_to a b - 1 * distance_to a b)
          with (0.5 * distance_to a b) by lra.
        rewrite Rmult_assoc, Rinv_r by lra. lra. }
    unfold _interpolate_position.
    rewrite PyFacts.clamp_unit by lra.
    unfold a, b; cbn [lat lon].
    replace (0 + (1 - 0) * 0.5) with 0.5 by lra.
    replace (0 + (0 - 0) * 0.5) with 0 by lra. reflexivity. }
  split; intros Heq; injection Heq; unfold b; simpl; lra.
Qed.

(** C8.  For every route with at least 3 waypoints and positive speed,
    the position query at [elapsed = total_distance / speed] gives the
    same result as the query at [elapsed = 0].  When the route has
    positive length both queries return a position, and when its first
    leg has positive length that position is the first waypoint. *)
Theorem loop_wrap_round_trip
    (wps : list Waypoint) (speed now0 : R) (t : GPSTracker) :
  (3 <= length wps)%nat -> 0 < speed -> init now0 wps speed = Ok t ->
  let T := total_distance t / speed_ms t in
  get_current_position t (start_time t + T)
  = get_current_position t (start_time t)
  /\ (0 < total_distance t ->
      exists pos t', get_current_position t (start_time t) = Ok (pos, t'))
  /\ (0 < distance_to (wp_at wps 0) (wp_at wps 1) ->
      get_current_position t (start_time t)
      = Ok (mkPosition (lat (wp_at wps 0)) (lon (wp_at wps 0)),
            set_index t 0)).
Proof.
  intros Hlen Hspeed Hinit T.
  rewrite TrackerProps.init_ok in Hinit by lia.
  injection Hinit as <-.
  set (t := {| waypoints := wps |}) in *.
  pose proof (TrackerFacts.total_distance_nonneg wps) as Htot.
  assert (Hs : speed_ms t <> 0) by (cbn [t speed_ms]; lra).
  destruct (TrackerProps.wrapped_distance_lap t Htot Hs) as [Hlap Hzero].
  split; [|split].
  - unfold get_current_position, T. rewrite Hlap. reflexivity.
  - intros Hpos.
    apply TrackerProps.get_current_position_returns.
    + cbn [t waypoints]. destruct wps; [simpl in Hlen; lia|discriminate].
    + exact Hpos.
    + cbn [t start_time]. lra.
  - intros Hleg.
    assert (Hpos : 0 < total_distance t).
    { cbn [t total_distance].
      rewrite TrackerFacts.calculate_total_distance_spec.
      unfold total_length.
      destruct wps as [|a [|b l]]; [simpl in Hlen; lia ..|].
      rewrite TrackerFacts.consecutive_sum_cons.
      unfold wp_at in Hleg. cbn [nth] in Hleg.
      pose proof (TrackerFacts.consecutive_sum_nonneg (b :: l)).
      pose proof (GeoFacts.distance_to_nonneg
                    (last (a :: b :: l) wp0) (hd wp0 (a :: b :: l))).
      destruct (2 <? length (a :: b :: l))%nat; lra. }
    unfold get_current_position. rewrite (Hzero Hpos). cbn [rbind].
    destruct wps as [|a [|b l]]; [simpl in Hlen; lia ..|].
    cbn [t waypoints]. rewrite PyFacts.getitem_head. cbn [rbind].
    unfold wp_at in *. cbn [nth] in *.
    cbn [length seq find_segment].
    destruct (Nat.eqb_spec 0 (S (S (length l)) - 1)) as [He|_]; [lia|].
    unfold wp_at. cbn [Nat.add nth].
    destruct (Rlt_dec 0 (0 + distance_to a b)) as [_|Hn]; [|lra].
    unfold Py.div_. destruct (Req_dec_T _ 0) as [Hz|_]; [lra|].
    cbn [rbind]. replace ((0 - 0) / distance_to a b) with 0 by (field; lra).
    rewrite TrackerProps.interpolate_start. reflexivity.
Qed.

Lemma loop_wrap_round_trip_witness :
  let wps := [mkWaypoint 0 0; mkWaypoint 0 1; mkWaypoint 0 2] in
  let t := {| waypoints := wps;
              speed_knots := 5;
              speed_ms := 5 * 0.514444;
              current_waypoint_index := 0%Z;
              start_time := 10;
              total_distance := _calculate_total_distance wps;
              current_position := mkPosition 0 0 |} in
  get_current_position t (start_time t + total_distance t / speed_ms t)
  = get_current_position t (start_time t).
Proof.
  intros wps t.
  refine (proj1 (loop_wrap_round_trip wps 5 10 t _ _ _)).
  - simpl. lia.
  - lra.
  - reflexivity.
Defined.

(** The heading reported once the position search has recorded segment
    [i]: the bearing of segment [i] for the open segments, and the
    bearing of the last open segment for the closing segment. *)
Lemma heading_after_search (t : GPSTracker) (i : nat) :
  let wps := waypoints t in
  let n := length wps in
  (2 <= n)%nat -> (i < n)%nat ->
  get_current_heading (set_index t (Z.of_nat i))
  = Ok (if (i <? n - 1)%nat
        then bearing_to (wp_at wps i) (wp_at wps (i + 1))
        else bearing_to (wp_at wps (n - 2)) (wp_at wps (n - 1))).
Proof.
  cbv zeta. intros Hn Hi. unfold get_current_heading.
  cbn [set_index waypoints current_waypoint_index].
  remember (waypoints t) as wps eqn:Hwps.
  remember (length wps) as n eqn:Hlen.
  destruct (Nat.ltb_spec i (n - 1)) as [Hlt|Hge].
  - destruct (Z.geb_spec (Z.of_nat i) (Z.of_nat n - 1)) as [Hz|_]; [lia|].
    rewrite (PyFacts.getitem_nat wps i wp0) by lia.
    replace (Z.of_nat i + 1)%Z with (Z.of_nat (i + 1)) by lia.
    rewrite (PyFacts.getitem_nat wps (i + 1) wp0) by lia.
    reflexivity.
  - destruct (Z.geb_spec (Z.of_nat i) (Z.of_nat n - 1)) as [_|Hz]; [|lia].
    destruct (Z.geb_spec (Z.of_nat n) 2) as [_|Hz]; [|lia].
    change (-2)%Z with (- Z.of_nat 2)%Z. change (-1)%Z with (- Z.of_nat 1)%Z.
    rewrite (PyFacts.getitem_neg wps 2 wp0) by lia.
    rewrite (PyFacts.getitem_neg wps 1 wp0) by lia.
    rewrite <- Hlen. reflexivity.
Qed.

(** The position search on a distance lying in segment [i] returns the
    interpolated position on that segment and records [i]. *)
Lemma position_search_in_segment (t : GPSTracker) (now d : R) (i : nat) :
  (i < length (waypoints t))%nat ->
  wrapped_distance t now = Ok d -> in_segment (waypoints t) i d ->
  get_current_position t now
  = Ok (_interpolate_position
          (segment_start (waypoints t) i) (segment_end (waypoints t) i)
          ((d - distance_before (waypoints t) i)
           / segment_length (waypoints t) i),
        set_index t (Z.of_nat i)).
Proof.
  intros Hi Hw Hseg.
  remember (waypoints t) as wps eqn:Hwps.
  pose proof (TrackerFacts.find_segment_in_segment wps d i Hi Hseg i 0
                ltac:(lia) ltac:(lia)) as Hfind.
  rewrite Nat.sub_0_r in Hfind. cbn [distance_before] in Hfind.
  unfold get_current_position. rewrite Hw. cbn [rbind]. rewrite <- Hwps.
  destruct wps as [|a l]; [simpl in Hi; lia|].
  rewrite PyFacts.getitem_head. cbn [rbind].
  change (wp_at (a :: l) 0) with a in Hfind.
  rewrite Hfind. reflexivity.
Qed.

(** What [get_current_heading] returns after a position search on a loop
    route (more than 2 waypoints).  While the travelled distance lies in
    segment [i] the search records [i]; the heading is the bearing of
    that segment for every segment but the closing one.  On the closing
    segment [route[n-1] -> route[0]] the guard of [get_current_heading]
    takes the bearing of the last open segment instead, which is not the
    segment being sailed. *)
Lemma heading_of_occupied_segment
    (t : GPSTracker) (now d : R) (i : nat) :
  let wps := waypoints t in
  let n := length wps in
  (2 < n)%nat -> (i < n)%nat ->
  wrapped_distance t now = Ok d -> in_segment wps i d ->
  exists pos t',
    get_current_position t now = Ok (pos, t')
    /\ current_waypoint_index t' = Z.of_nat i
    /\ get_current_heading t'
       = Ok (if (i <? n - 1)%nat
             then bearing_to (segment_start wps i) (segment_end wps i)
             else bearing_to (wp_at wps (n - 2)) (wp_at wps (n - 1))).
Proof.
  cbv zeta. intros Hn Hi Hw Hseg.
  eexists _, _.
  split; [apply (position_search_in_segment t now d i Hi Hw Hseg)|].
  split; [reflexivity|].
  rewrite (heading_after_search t i) by lia.
  unfold segment_start, segment_end.
  destruct (Nat.ltb_spec i (length (waypoints t) - 1)) as [Hlt|Hge];
    [|reflexivity].
  destruct (Nat.eqb_spec i (length (waypoints t) - 1)); [lia|reflexivity].
Qed.

Lemma equator_tracker_init : init 0 equator_loop 5 = Ok equator_tracker.
Proof. reflexivity. Qed.

Lemma equator_loop_legs :
  0 < segment_length equator_loop 0
  /\ 0 < segment_length equator_loop 1
  /\ 0 < segment_length equator_loop 2
  /\ total_distance equator_tracker
     = segment_length equator_loop 0 + segment_length equator_loop 1
       + segment_length equator_loop 2.
Proof.
  repeat split;
    try (apply GeoFacts.distance_to_pos_equator; simpl; lra).
  cbn [equator_tracker total_distance].
  rewrite TrackerFacts.calculate_total_distance_spec.
  unfold total_length, equator_loop.
  rewrite !TrackerFacts.consecutive_sum_cons.
  cbn [consecutive_sum length Nat.ltb Nat.leb last hd].
  unfold segment_length, segment_start, segment_end, wp_at.
  cbn [length Nat.sub Nat.eqb Nat.add nth]. ring.
Qed.

(** At the moment the two open legs have been travelled the tracker is at
    the start of the closing segment. *)
Lemma equator_loop_on_closing_segment :
  let d := segment_length equator_loop 0 + segment_length equator_loop 1 in
  wrapped_distance equator_tracker (d / speed_ms equator_tracker) = Ok d
  /\ in_segment equator_loop 2 d.
Proof.
  intros d. destruct equator_loop_legs as (H0 & H1 & H2 & Htot).
  split.
  - unfold wrapped_distance. rewrite Htot. fold d.
    replace ((d / speed_ms equator_tracker - start_time equator_tracker)
             * speed_ms equator_tracker) with d
      by (cbn [equator_tracker speed_ms start_time]; field; lra).
    destruct (Rge_dec _ _) as [Hge|_]; [unfold d in Hge; lra|reflexivity].
  - unfold in_segment, d. cbn [distance_before]. lra.
Qed.

(** C4.  The heading is not that of the occupied segment on the closing
    segment of a loop.  On the equator loop (0,0), (0,1), (0,2) at 5
    knots, at the moment the two open legs have been travelled, the
    position search records segment 2, the closing segment
    (0,2) -> (0,0), whose bearing is 270 degrees; the heading reported is
    90 degrees, the bearing of the segment before it. *)
Theorem closing_segment_heading_diverges :
  let d := segment_length equator_loop 0 + segment_length equator_loop 1 in
  let now := d / speed_ms equator_tracker in
  init 0 equator_loop 5 = Ok equator_tracker
  /\ in_segment equator_loop 2 d
  /\ exists pos t',
       get_current_position equator_tracker now = Ok (pos, t')
       /\ current_waypoint_index t' = 2%Z
       /\ get_current_heading t' = Ok 90
       /\ bearing_to (segment_start equator_loop 2)
            (segment_end equator_loop 2) = 270
       /\ get_current_heading t'
          <> Ok (bearing_to (segment_start equator_loop 2)
                   (segment_end equator_loop 2)).
Proof.
  intros d now. destruct equator_loop_on_closing_segment as [Hw Hseg].
  fold d in Hw, Hseg. fold now in Hw.
  split; [reflexivity|]. split; [exact Hseg|].
  eexists _, _.
  split; [apply (position_search_in_segment equator_tracker now d 2);
          [simpl; lia | exact Hw | exact Hseg]|].
  split; [reflexivity|].
  assert (Hhead : get_current_heading (set_index equator_tracker (Z.of_nat 2))
                  = Ok 90).
  { rewrite (heading_after_search equator_tracker 2) by (simpl; lia).
    cbn [equator_tracker waypoints equator_loop length Nat.sub Nat.ltb Nat.leb].
    f_equal. apply GeoFacts.bearing_to_equator_east; simpl; lra. }
  assert (Hbear : bearing_to (segment_start equator_loop 2)
                    (segment_end equator_loop 2) = 270).
  { apply GeoFacts.bearing_to_equator_west; simpl; lra. }
  split; [exact Hhead|]. split; [exact Hbear|].
  rewrite Hhead, Hbear. intros Heq. injection Heq. lra.
Qed.

(** *** Route generators and constructor validation *)

Lemma range_nonpos (n : Z) : (n <= 0)%Z -> range n = [].
Proof.
  intros Hn. unfold range.
  replace (Z.to_nat n) with 0%nat by lia. reflexivity.
Qed.

Lemma range_length (n : Z) : length (range n) = Z.to_nat n.
Proof. unfold range. rewrite length_map, length_seq. reflexivity. Qed.

Lemma line_points_ok (sl so el eo : R) (n : Z) (idx : list Z) :
  (n - 1 <> 0)%Z ->
  exists wps,
    line_points sl so el eo n idx = Ok wps /\ length wps = length idx.
Proof.
  intros Hn. induction idx as [|i idx [wps [IH Hlen]]].
  - exists []. split; reflexivity.
  - cbn [line_points]. unfold Py.div_.
    destruct (Req_dec_T (IZR (n - 1)) 0) as [Hz|_].
    + exfalso. apply Hn. apply eq_IZR. exact Hz.
    + cbn [rbind]. rewrite IH. cbn [rbind].
      eexists. split; [reflexivity|]. simpl. rewrite Hlen. reflexivity.
Qed.

Lemma circular_route_ok (clat clon r : R) (n : Z) :
  exists wps,
    create_circular_route clat clon r n = Ok wps
    /\ length wps = Z.to_nat n.
Proof.
  unfold create_circular_route. eexists. split; [reflexivity|].
  rewrite length_map. apply range_length.
Qed.

Lemma init_short_route (now speed : R) (wps : list Waypoint) :
  (length wps < 2)%nat -> init now wps speed = Raise ValueError.
Proof.
  intros Hlen. unfold init.
  destruct (Nat.ltb_spec (length wps) 2) as [_|Hge]; [reflexivity|lia].
Qed.

(** C5 (as amended).  The tracker constructor rejects every route with
    fewer than 2 waypoints with a [ValueError].  The route generators do
    not validate their point count: the line generator returns the empty
    route for [num_points <= 0], fails with a division by zero for
    [num_points = 1] and returns [num_points] waypoints otherwise; the
    circular generator returns [max num_points 0] waypoints for every
    [num_points] and never fails, so for [num_points = 2] its route
    passes the length check of the constructor.  Hence a tracker built on
    a line route of fewer than 2 points or on a circular route of fewer
    than 2 points is never obtained: the line generator fails for 1
    point, the constructor in the other cases. *)
Theorem route_validation :
  (forall (now speed : R) (wps : list Waypoint),
      (length wps < 2)%nat -> init now wps speed = Raise ValueError)
  /\ (forall (sl so el eo : R) (n : Z),
        (n <= 0)%Z -> create_line_route sl so el eo n = Ok [])
  /\ (forall sl so el eo : R,
        create_line_route sl so el eo 1 = Raise ZeroDivisionError)
  /\ (forall (sl so el eo : R) (n : Z),
        (2 <= n)%Z ->
        exists wps,
          create_line_route sl so el eo n = Ok wps
          /\ length wps = Z.to_nat n)
  /\ (forall (clat clon r : R) (n : Z),
        exists wps,
          create_circular_route clat clon r n = Ok wps
          /\ length wps = Z.to_nat n)
  /\ (forall (now speed sl so el eo : R) (n : Z),
        (n < 2)%Z ->
        (wps <-? create_line_route sl so el eo n ;; init now wps speed)
        = Raise (if (n =? 1)%Z then ZeroDivisionError else ValueError))
  /\ (forall (now speed clat clon r : R) (n : Z),
        (n < 2)%Z ->
        (wps <-? create_circular_route clat clon r n ;; init now wps speed)
        = Raise ValueError).
Proof.
  assert (Hline0 : forall (sl so el eo : R) (n : Z),
             (n <= 0)%Z -> create_line_route sl so el eo n = Ok []).
  { intros sl so el eo n Hn. unfold create_line_route.
    rewrite range_nonpos by exact Hn. reflexivity. }
  assert (Hline1 : forall sl so el eo : R,
             create_line_route sl so el eo 1 = Raise ZeroDivisionError).
  { intros sl so el eo. unfold create_line_route.
    change (range 1) with [0%Z]. cbn [line_points].
    change (1 - 1)%Z with 0%Z. unfold Py.div_.
    destruct (Req_dec_T (IZR 0) 0) as [_|Hn]; [reflexivity|lra]. }
  split; [exact init_short_route|].
  split; [exact Hline0|]. split; [exact Hline1|].
  split; [|split; [|split]].
  - intros sl so el eo n Hn. unfold create_line_route.
    destruct (line_points_ok sl so el eo n (range n)) as [wps [H Hlen]];
      [lia|].
    exists wps. split; [exact H|]. rewrite Hlen. apply range_length.
  - exact circular_route_ok.
  - intros now speed sl so el eo n Hn.
    destruct (Z.eqb_spec n 1) as [->|Hne].
    + rewrite Hline1. reflexivity.
    + rewrite Hline0 by lia. cbn [rbind].
      apply init_short_route. simpl. lia.
  - intros now speed clat clon r n Hn.
    destruct (circular_route_ok clat clon r n) as [wps [-> Hlen]].
    cbn [rbind]. apply init_short_route. lia.
Qed.

Lemma cos_radians_zero : cos (Py.radians 0) = 1.
Proof.
  unfold Py.radians. replace (0 * (PI / 180)) with 0 by lra. apply cos_0.
Qed.

Lemma route_validation_witness :
  init 0 [mkWaypoint 0 0] 5 = Raise ValueError
  /\ create_line_route 0 0 1 1 (-3) = Ok []
  /\ (exists wps,
        create_line_route 0 0 1 1 4 = Ok wps /\ length wps = 4%nat)
  /\ (exists wps,
        create_circular_route 90 0 1 2 = Ok wps /\ length wps = 2%nat)
  /\ (wps <-? create_circular_route 0 0 1 1 ;; init 0 wps 5)
     = Raise ValueError.
Proof.
  destruct route_validation
    as (Hinit & Hline0 & _ & Hline & Hcirc & _ & Hbuild).
  split; [apply Hinit; simpl; lia|].
  split; [apply Hline0; lia|].
  split; [apply (Hline 0 0 1 1 4%Z); lia|].
  split; [apply (Hcirc 90 0 1 2%Z)|].
  apply Hbuild. lia.
Defined.

(** C5 (counterexample).  The line generator called with 0 points and the
    circular generator called with 2 points both return a route instead
    of failing, and the constructor accepts the 2-point circular route. *)
Lemma generators_do_not_validate :
  create_line_route 0 0 1 1 0 = Ok []
  /\ exists wps t,
       create_circular_route 0 0 1 2 = Ok wps
       /\ length wps = 2%nat
       /\ init 0 wps 5 = Ok t.
Proof.
  split; [reflexivity|].
  destruct (circular_route_ok 0 0 1 2) as [wps [H Hlen]].
  exists wps. eexists. split; [exact H|]. split; [exact Hlen|].
  apply TrackerProps.init_ok. rewrite Hlen. simpl. lia.
Qed.

End TrackerTheorems.

(** ** Environmental state *)

Module EnvTheorems.
Import Server SimSpec.
Local Open Scope R_scope.

Lemma update_env_ok (s : NMEASimulator) (g : Rng) :
  env_ok (fst (_update_environmental_data s g)).
Proof.
  unfold _update_environmental_data, uniform, bind, ret, random, env_ok.
  cbn [fst wind_direction wind_speed water_temp depth engine_rpm engine_pitch].
  repeat split;
    try apply PyFacts.max_ge_l;
    apply PyFacts.float_mod_bounds; lra.
Qed.

Lemma update_env_tracker (s : NMEASimulator) (g : Rng) :
  gps_tracker (fst (_update_environmental_data s g)) = gps_tracker s
  /\ ais_payloads (fst (_update_environmental_data s g)) = ais_payloads s.
Proof. split; reflexivity. Qed.

Lemma generate_messages_state (s s' : NMEASimulator) (now : R)
    (clock : nat -> datetime) (g g' : Rng) (msgs : list string) :
  generate_messages s now clock g = Ok (msgs, s', g') ->
  exists t g0, s' = fst (_update_environmental_data (set_tracker s t) g0).
Proof.
  unfold generate_messages. intros H.
  destruct (GpsTracker.get_current_position _ _) as [[pos t]|e];
    [|discriminate].
  cbn [rbind] in H.
  destruct (GpsTracker.get_current_heading t) as [h|e]; [|discriminate].
  cbn [rbind] in H.
  destruct (_update_environmental_data (set_tracker s t) g) as [s1 g1] eqn:Hu.
  destruct (Py.getitem (ais_payloads s1) 0) as [p0|e]; [|discriminate].
  destruct (Py.getitem (ais_payloads s1) 1) as [p1|e]; [|discriminate].
  destruct (Py.getitem (ais_payloads s1) 2) as [p2|e]; [|discriminate].
  cbn [rbind] in H.
  destruct (render_all _ g1) as [m g2].
  injection H as _ <- _.
  exists t, g. rewrite Hu. reflexivity.
Qed.

(** The bounds of the environmental readings in real arithmetic.  Every
    state reachable from the initial seed values by updates of the
    environmental data (directly or through generated batches) has wind
    speed, water temperature, engine RPM and engine pitch at least 0,
    depth at least 0.1, and a wind direction in [0, 360).  The floors
    carry over to floats ([max] does not round); the strict upper bound
    of the wind direction does not, see
    [Binary64Theorems.wind_direction_reaches_360]. *)
Lemma environmental_bounds_over_reals :
  (forall s : NMEASimulator, reachable s -> env_ok s)
  /\ (forall (t : GpsTracker.GPSTracker) (n : nat) (g : Rng),
        env_ok (fst (ticks n (init t) g))).
Proof.
  assert (Hinit : forall t, env_ok (init t)).
  { intros t. unfold env_ok. cbn. lra. }
  split.
  - intros s Hs. induction Hs as [t|s g Hs IH|s s' now clock g g' msgs Hs IH Hg].
    + apply Hinit.
    + apply update_env_ok.
    + destruct (generate_messages_state _ _ _ _ _ _ _ Hg) as (t & g0 & ->).
      apply update_env_ok.
  - intros t n g. destruct n as [|n]; [apply Hinit|].
    cbn [ticks]. unfold bind.
    pose proof (update_env_ok (init t) g) as H0.
    destruct (_update_environmental_data (init t) g) as [s1 g1].
    cbn [fst] in H0. clear Hinit. revert s1 g1 H0.
    induction n as [|n IH]; intros s1 g1 H0; [exact H0|].
    cbn [ticks]. unfold bind.
    pose proof (update_env_ok s1 g1) as H1.
    destruct (_update_environmental_data s1 g1) as [s2 g2].
    apply IH. exact H1.
Qed.

End EnvTheorems.

(** ** Environmental state in binary64 arithmetic *)

Module Binary64Theorems.
Import PrimFloat Binary64.
Local Open Scope float_scope.
#[local] Set Warnings "-inexact-float".

(** The remainder of the program on a few operands: the sign follows the
    divisor, an exact multiple gives zero, and a tiny negative operand
    gives the divisor itself. *)
Lemma float_mod_examples :
  float_mod 725 360 = 5
  /\ float_mod (-1.5) 360 = 358.5
  /\ float_mod 5.5 (-3) = -0.5
  /\ float_mod (-7) 3.5 = 0
  /\ float_mod (-0x1p-52) 360 = 360.
Proof. vm_compute. repeat split; reflexivity. Qed.

(** C9.  The wind direction leaves [0, 360).  From the seed values, 127
    ticks whose draws are all [0.0] bring the wind direction down from
    255.1 to 1.0999999999999943; on tick 128 the draw
    [2026619832316735 / 2^53] for the wind direction (one of the values
    [random.random()] can return) makes the sum a tiny negative number,
    and its remainder modulo 360 is the float [360.0] itself.  The five
    other readings stay at or above their floors. *)
Theorem wind_direction_reaches_360 :
  let s127 := fst (ticks 127 init veering_supply) in
  let s128 := fst (ticks 128 init veering_supply) in
  (0 <= 2026619832316735 < 2 ^ 53)%Z
  /\ wind_direction s127 = 0x1.199999999998p+0
  /\ wind_direction s127 + fst (uniform (-2) 2 (one_draw 0 2026619832316735))
     = -0x1p-51
  /\ wind_direction s128 = 360
  /\ (wind_direction s128 <? 360) = false
  /\ (0 <=? wind_speed s128) = true
  /\ (0 <=? water_temp s128) = true
  /\ (0.1 <=? depth s128) = true
  /\ (0 <=? engine_rpm s128) = true
  /\ (0 <=? engine_pitch s128) = true.
Proof.
  cbv zeta. split; [split; [lia|reflexivity]|].
  vm_compute. repeat split; reflexivity.
Qed.

End Binary64Theorems.

(** ** Strings, hexadecimal digits and the checksum *)

Module StringFacts.
Import Fmt Messages SentenceSpec.

Lemma append_assoc (a b c : string) : (a ++ b) ++ c = a ++ (b ++ c).
Proof. induction a as [|x a IH]; [reflexivity|]. simpl. rewrite IH. reflexivity. Qed.

Lemma length_append (a b : string) :
  String.length (a ++ b) = (String.length a + String.length b)%nat.
Proof. induction a as [|x a IH]; [reflexivity|]. simpl. rewrite IH. reflexivity. Qed.

Lemma substring_prefix (a b : string) :
  substring 0 (String.length a) (a ++ b) = a.
Proof.
  induction a as [|x a IH]; [destruct b; reflexivity|].
  simpl. rewrite IH. reflexivity.
Qed.

Lemma slice_framed (lead : ascii) (body : string) :
  slice_1_m1 (String lead (body ++ "*")) = body.
Proof.
  unfold slice_1_m1. cbn [String.length].
  rewrite length_append. cbn [String.length].
  replace (S (String.length body + 1) - 2)%nat with (String.length body) by lia.
  cbn [substring]. apply substring_prefix.
Qed.

Lemma strip_star_sound (s b : string) : strip_star s = Some b -> s = b ++ "*".
Proof.
  revert b. induction s as [|c s IH]; intros b H; [discriminate|].
  cbn [strip_star] in H. destruct s as [|c' s'].
  - destruct (Ascii.eqb_spec c "*"); [|discriminate].
    injection H as <-. subst c. reflexivity.
  - destruct (strip_star (String c' s')) as [b'|]; [|discriminate].
    injection H as <-. rewrite (IH b' eq_refl). reflexivity.
Qed.

Lemma split_trailer_complete (body : string) (h1 h2 : ascii) :
  split_trailer (body ++ String "*" (String h1 (String h2 EmptyString)))
  = Some (body, h1, h2).
Proof.
  induction body as [|c b IH]; [reflexivity|].
  change (String c b ++ String "*" (String h1 (String h2 "")))
    with (String c (b ++ String "*" (String h1 (String h2 "")))).
  cbn [split_trailer]. rewrite IH.
  destruct b as [|c1 [|c2 [|c3 b]]]; reflexivity.
Qed.

(** The XOR accumulated by the checksum loop is the XOR of all bytes. *)
Lemma xor_chars_spec (data : string) (acc : N) :
  xor_chars data acc = N.lxor acc (xor_bytes data).
Proof.
  revert acc. induction data as [|c data IH]; intros acc.
  - simpl. rewrite N.lxor_0_r. reflexivity.
  - cbn [xor_chars xor_bytes]. rewrite IH, N.lxor_assoc. reflexivity.
Qed.

Lemma lxor_byte (a b : N) : (a < 256 -> b < 256 -> N.lxor a b < 256)%N.
Proof.
  intros Ha Hb.
  destruct (N.eq_dec (N.lxor a b) 0) as [->|Hnz]; [lia|].
  change 256%N with (2 ^ 8)%N. apply N.log2_lt_pow2; [lia|].
  pose proof (N.log2_lxor a b) as Hl.
  assert (N.log2 a < 8)%N.
  { destruct (N.eq_dec a 0) as [->|]; [reflexivity|].
    apply N.log2_lt_pow2; [lia|exact Ha]. }
  assert (N.log2 b < 8)%N.
  { destruct (N.eq_dec b 0) as [->|]; [reflexivity|].
    apply N.log2_lt_pow2; [lia|exact Hb]. }
  lia.
Qed.

Lemma xor_bytes_byte (s : string) : (xor_bytes s < 256)%N.
Proof.
  induction s as [|c s IH]; [reflexivity|].
  cbn [xor_bytes]. apply lxor_byte; [apply N_ascii_bounded|exact IH].
Qed.

(** Checking a property of every byte value by enumeration. *)
Lemma forall_byte (P : N -> bool) :
  forallb P (map N.of_nat (seq 0 256)) = true ->
  forall n, (n < 256)%N -> P n = true.
Proof.
  intros H n Hn. rewrite forallb_forall in H. apply H.
  apply in_map_iff. exists (N.to_nat n). split; [lia|].
  apply in_seq. lia.
Qed.

Lemma format_02X_byte (n : N) :
  (n < 256)%N ->
  exists h1 h2,
    format_02X n = String h1 (String h2 EmptyString)
    /\ hex2_value h1 h2 = Some n.
Proof.
  intros Hn.
  assert (H : two_hex_ok n = true).
  { apply forall_byte; [vm_compute; reflexivity|exact Hn]. }
  unfold two_hex_ok in H.
  destruct (format_02X n) as [|h1 [|h2 [|]]]; try discriminate.
  exists h1, h2. split; [reflexivity|].
  destruct (hex2_value h1 h2) as [v|]; [|discriminate].
  apply N.eqb_eq in H. subst v. reflexivity.
Qed.

(** The checksum of a string: two upper-case hexadecimal digits whose
    value is the XOR of its bytes. *)
Lemma calculate_checksum_spec (data : string) :
  exists h1 h2,
    calculate_checksum data = String h1 (String h2 EmptyString)
    /\ hex2_value h1 h2 = Some (xor_bytes data).
Proof.
  unfold calculate_checksum. rewrite xor_chars_spec, N.lxor_0_l.
  apply format_02X_byte, xor_bytes_byte.
Qed.

End StringFacts.

(** ** Theorems about the sentences *)

Module SentenceTheorems.
Import Fmt Messages SentenceSpec.

Lemma ends_star_app (a s : string) : ends_star s -> ends_star (a ++ s).
Proof.
  intros [b ->]. exists (a ++ b). symmetry. apply StringFacts.append_assoc.
Qed.

Lemma ends_star_lit (s b : string) : strip_star s = Some b -> ends_star s.
Proof. intros H. exists b. apply StringFacts.strip_star_sound. exact H. Qed.

Lemma framed_app (lead : ascii) (pre rest : string) :
  (lead = "$" \/ lead = "!")%char -> ends_star rest ->
  framed (String lead pre ++ rest).
Proof.
  intros Hlead [b ->]. exists lead, (pre ++ b). split; [|exact Hlead].
  simpl. rewrite StringFacts.append_assoc. reflexivity.
Qed.

Ltac solve_ends_star :=
  repeat apply ends_star_app; eapply ends_star_lit; reflexivity.

Ltac solve_framed :=
  apply framed_app; [first [left; reflexivity | right; reflexivity]
                    | solve_ends_star].

(** Every [to_string] returns [data + checksum(data[1:-1])] for a
    [data] that starts with ["$"] or ["!"] and ends with ["*"]. *)
Lemma to_string_framed (m : NMEAMessage) (g : Rng) :
  exists data, fst (to_string m g) = with_checksum data /\ framed data.
Proof.
  destruct m; unfold to_string, to_nmea_lat, to_nmea_lon,
    add_random_variation, bind, ret, random; cbn [fst];
    (eexists; split; [reflexivity|solve_framed]).
Qed.

Lemma with_checksum_framed (lead : ascii) (body : string) :
  exists h1 h2,
    with_checksum (String lead (body ++ "*"))
    = String lead (body ++ String "*" (String h1 (String h2 EmptyString)))
    /\ hex2_value h1 h2 = Some (xor_bytes body).
Proof.
  unfold with_checksum. rewrite StringFacts.slice_framed.
  destruct (StringFacts.calculate_checksum_spec body) as (h1 & h2 & -> & Hv).
  exists h1, h2. split; [|exact Hv].
  simpl. rewrite StringFacts.append_assoc. reflexivity.
Qed.

(** C3.  For every sentence type and every random supply, the rendered
    string is a leading ["$"] or ["!"], a body, ["*"], and exactly two
    upper-case hexadecimal digits whose value is the XOR of the byte
    values of the body, that is of every character strictly between the
    leading character and the trailing ["*"]; re-parsing the rendered
    string recovers that body and those two digits. *)
Theorem checksum_self_consistent (m : NMEAMessage) (g : Rng) :
  exists lead body h1 h2,
    fst (to_string m g)
    = String lead (body ++ String "*" (String h1 (String h2 EmptyString)))
    /\ (lead = "$" \/ lead = "!")%char
    /\ hex2_value h1 h2 = Some (xor_bytes body)
    /\ parse_sentence (fst (to_string m g)) = Some (lead, body, h1, h2).
Proof.
  destruct (to_string_framed m g) as (data & -> & lead & body & -> & Hlead).
  destruct (with_checksum_framed lead body) as (h1 & h2 & -> & Hv).
  exists lead, body, h1, h2.
  split; [reflexivity|]. split; [exact Hlead|]. split; [exact Hv|].
  cbn [parse_sentence]. rewrite StringFacts.split_trailer_complete.
  reflexivity.
Qed.

End SentenceTheorems.

(** ** Number formatting *)

Module FormatFacts.
Import Fmt.
Local Open Scope R_scope.

Lemma round_half_even_IZR (z : Z) : round_half_even (IZR z) = z.
Proof.
  unfold round_half_even. rewrite ZfloorZ.
  destruct (Rlt_dec (IZR z - IZR z) (1 / 2)) as [_|Hn]; [reflexivity|lra].
Qed.

Lemma round_half_even_bounds (x : R) (hi : Z) :
  0 <= x <= IZR hi -> (0 <= round_half_even x <= hi)%Z.
Proof.
  intros [Hlo Hhi]. unfold round_half_even.
  destruct (Zfloor_bound x) as [Hf1 Hf2].
  assert (0 <= Zfloor x)%Z by (apply Zfloor_lub; exact Hlo).
  assert (Zfloor x <= hi)%Z by (apply le_IZR; lra).
  assert (Hstep : x - IZR (Zfloor x) >= 1 / 2 -> (Zfloor x + 1 <= hi)%Z).
  { intros Hge.
    assert (IZR (Zfloor x) < IZR hi) by lra.
    apply lt_IZR in H1. lia. }
  destruct (Rlt_dec _ _); [lia|].
  destruct (Rlt_dec _ _); [split; [lia|apply Hstep; lra]|].
  destruct (Z.even _); [lia|split; [lia|apply Hstep; lra]].
Qed.

Lemma int_abs (x : R) : Py.int_ (Rabs x) = Zfloor (Rabs x).
Proof.
  unfold Py.int_. destruct (Rle_dec 0 (Rabs x)) as [_|Hn]; [reflexivity|].
  exfalso. apply Hn. apply Rabs_pos.
Qed.

(** The minutes obtained from the fractional degrees lie in [0, 60). *)
Lemma minutes_range (x : R) :
  0 <= (Rabs x - IZR (Zfloor (Rabs x))) * 60 < 60.
Proof. destruct (Zfloor_bound (Rabs x)). lra. Qed.

Lemma zfloor_abs_bounds (x : R) (hi : Z) :
  Rabs x < IZR hi -> (0 <= Zfloor (Rabs x) < hi)%Z.
Proof.
  intros Hx. destruct (Zfloor_bound (Rabs x)) as [Hf1 Hf2].
  split; [apply Zfloor_lub, Rabs_pos|].
  apply lt_IZR. lra.
Qed.

Lemma length_zeros (k : nat) : String.length (zeros k) = k.
Proof. induction k as [|k IH]; [reflexivity|]. simpl. rewrite IH. reflexivity. Qed.

Lemma length_fixed_digits (w : nat) (n : Z) :
  String.length (fixed_digits w n) = w.
Proof.
  revert n. induction w as [|w IH]; intros n; [reflexivity|].
  cbn [fixed_digits]. rewrite StringFacts.length_append, IH. simpl. lia.
Qed.

Lemma pad0_append (w : nat) (a b : string) :
  pad0 (w + String.length b) (a ++ b) = pad0 w a ++ b.
Proof.
  unfold pad0. rewrite StringFacts.length_append.
  replace (w + String.length b - (String.length a + String.length b))%nat
    with (w - String.length a)%nat by lia.
  symmetry. apply StringFacts.append_assoc.
Qed.

(** Checking a property of every integer in [0, k) by enumeration. *)
Lemma forall_below (P : Z -> bool) (k : nat) :
  forallb P (map Z.of_nat (seq 0 k)) = true ->
  forall z, (0 <= z < Z.of_nat k)%Z -> P z = true.
Proof.
  intros H z Hz. rewrite forallb_forall in H. apply H.
  apply in_map_iff. exists (Z.to_nat z). split; [lia|].
  apply in_seq. lia.
Qed.

Lemma pad0_two_digits (z : Z) :
  (0 <= z < 100)%Z -> pad0 2 (decimal z) = fixed_digits 2 z.
Proof.
  intros Hz.
  apply String.eqb_eq.
  apply (forall_below
           (fun z => String.eqb (pad0 2 (decimal z)) (fixed_digits 2 z)) 100);
    [vm_compute; reflexivity|exact Hz].
Qed.

Lemma pad0_three_digits (z : Z) :
  (0 <= z < 1000)%Z -> pad0 3 (decimal z) = fixed_digits 3 z.
Proof.
  intros Hz.
  apply String.eqb_eq.
  apply (forall_below
           (fun z => String.eqb (pad0 3 (decimal z)) (fixed_digits 3 z)) 1000);
    [vm_compute; reflexivity|exact Hz].
Qed.

Lemma format_0d_nonneg (w : nat) (z : Z) :
  (0 <= z)%Z -> format_0d w z = pad0 w (decimal z).
Proof.
  intros Hz. unfold format_0d.
  destruct (Z.ltb_spec z 0); [lia|reflexivity].
Qed.

(** The minutes field [f"{minutes:09.6f}"] for minutes in [0, 60]: two
    integer digits, a point, six decimals. *)
Lemma format_minutes (m : R) :
  0 <= m <= 60 ->
  let n := round_half_even (m * 10 ^ 6) in
  (0 <= n <= 60000000)%Z
  /\ format_0f 9 6 m
     = fixed_digits 2 (n / 1000000) ++ "." ++ fixed_digits 6 (n mod 1000000).
Proof.
  intros Hm n.
  assert (Hn : (0 <= n <= 60000000)%Z).
  { apply round_half_even_bounds. simpl. lra. }
  split; [exact Hn|].
  unfold format_0f. destruct (Rlt_dec m 0) as [Hneg|_]; [lra|].
  unfold magnitude_f. rewrite Rabs_right by lra. fold n.
  change (10 ^ Z.of_nat 6)%Z with 1000000%Z.
  change 9%nat
    with (2 + String.length ("." ++ fixed_digits 6 0))%nat.
  replace (String.length ("." ++ fixed_digits 6 0))
    with (String.length ("." ++ fixed_digits 6 (n mod 1000000)))
    by (cbn [append String.length]; rewrite !length_fixed_digits; reflexivity).
  rewrite pad0_append, pad0_two_digits; [reflexivity|].
  split; [apply Z.div_pos; lia|].
  apply Z.div_lt_upper_bound; lia.
Qed.

End FormatFacts.

(** ** Latitude and longitude fields *)

Module CoordinateTheorems.
Import Fmt Messages Examples.
Local Open Scope R_scope.

Lemma to_nmea_lat_layout (p : Position) :
  Rabs (p_lat p) < 100 ->
  let deg := Zfloor (Rabs (p_lat p)) in
  let n := round_half_even ((Rabs (p_lat p) - IZR deg) * 60 * 10 ^ 6) in
  fst (to_nmea_lat p)
  = fixed_digits 2 deg ++ fixed_digits 2 (n / 1000000) ++ "."
    ++ fixed_digits 6 (n mod 1000000).
Proof.
  intros Hlat deg n. unfold to_nmea_lat. cbn [fst].
  rewrite FormatFacts.int_abs. fold deg.
  pose proof (FormatFacts.zfloor_abs_bounds (p_lat p) 100 Hlat) as Hdeg.
  fold deg in Hdeg.
  rewrite FormatFacts.format_0d_nonneg, FormatFacts.pad0_two_digits by lia.
  pose proof (FormatFacts.minutes_range (p_lat p)) as Hmin. fold deg in Hmin.
  destruct (FormatFacts.format_minutes ((Rabs (p_lat p) - IZR deg) * 60))
    as [_ ->]; [lra|].
  reflexivity.
Qed.

Lemma to_nmea_lon_layout (p : Position) :
  Rabs (p_lon p) < 1000 ->
  let deg := Zfloor (Rabs (p_lon p)) in
  let n := round_half_even ((Rabs (p_lon p) - IZR deg) * 60 * 10 ^ 6) in
  fst (to_nmea_lon p)
  = fixed_digits 3 deg ++ fixed_digits 2 (n / 1000000) ++ "."
    ++ fixed_digits 6 (n mod 1000000).
Proof.
  intros Hlon deg n. unfold to_nmea_lon. cbn [fst].
  rewrite FormatFacts.int_abs. fold deg.
  pose proof (FormatFacts.zfloor_abs_bounds (p_lon p) 1000 Hlon) as Hdeg.
  fold deg in Hdeg.
  rewrite FormatFacts.format_0d_nonneg, FormatFacts.pad0_three_digits by lia.
  pose proof (FormatFacts.minutes_range (p_lon p)) as Hmin. fold deg in Hmin.
  destruct (FormatFacts.format_minutes ((Rabs (p_lon p) - IZR deg) * 60))
    as [_ ->]; [lra|].
  reflexivity.
Qed.

Lemma layout_length (w : nat) (a b c : Z) :
  String.length
    (fixed_digits w a ++ fixed_digits 2 b ++ "." ++ fixed_digits 6 c)
  = (w + 9)%nat.
Proof.
  rewrite !StringFacts.length_append, !FormatFacts.length_fixed_digits.
  simpl. lia.
Qed.

(** C7.  [to_nmea_lat] and [to_nmea_lon] split the absolute value into
    whole degrees, rendered with 2 (latitude) or 3 (longitude) zero-padded
    digits, and decimal minutes, the fractional degrees times 60, rendered
    as two integer digits, a point and exactly 6 decimals (width 9); the
    hemisphere letter is N or E for a non-negative coordinate and S or W
    for a negative one.  The position lat = -33.8587, lon = 151.2140
    renders as "3351.522000" S and "15112.840000" E. *)
Theorem nmea_coordinate_format :
  (forall p : Position,
      Rabs (p_lat p) < 100 ->
      let deg := Zfloor (Rabs (p_lat p)) in
      let minutes := (Rabs (p_lat p) - IZR deg) * 60 in
      let n := round_half_even (minutes * 10 ^ 6) in
      IZR deg <= Rabs (p_lat p) < IZR deg + 1
      /\ 0 <= minutes < 60
      /\ fst (to_nmea_lat p)
         = fixed_digits 2 deg ++ fixed_digits 2 (n / 1000000) ++ "."
           ++ fixed_digits 6 (n mod 1000000)
      /\ String.length (fst (to_nmea_lat p)) = 11%nat
      /\ (0 <= p_lat p -> snd (to_nmea_lat p) = "N")
      /\ (p_lat p < 0 -> snd (to_nmea_lat p) = "S"))
  /\ (forall p : Position,
        Rabs (p_lon p) < 1000 ->
        let deg := Zfloor (Rabs (p_lon p)) in
        let minutes := (Rabs (p_lon p) - IZR deg) * 60 in
        let n := round_half_even (minutes * 10 ^ 6) in
        IZR deg <= Rabs (p_lon p) < IZR deg + 1
        /\ 0 <= minutes < 60
        /\ fst (to_nmea_lon p)
           = fixed_digits 3 deg ++ fixed_digits 2 (n / 1000000) ++ "."
             ++ fixed_digits 6 (n mod 1000000)
        /\ String.length (fst (to_nmea_lon p)) = 12%nat
        /\ (0 <= p_lon p -> snd (to_nmea_lon p) = "E")
        /\ (p_lon p < 0 -> snd (to_nmea_lon p) = "W"))
  /\ to_nmea_lat opera_house = ("3351.522000", "S")
  /\ to_nmea_lon opera_house = ("15112.840000", "E").
Proof.
  split; [|split; [|split]].
  - intros p Hlat deg minutes n.
    split; [apply Zfloor_bound|].
    split; [apply FormatFacts.minutes_range|].
    pose proof (to_nmea_lat_layout p Hlat) as Hl. cbv zeta in Hl.
    split; [exact Hl|].
    split; [rewrite Hl; apply layout_length|].
    unfold to_nmea_lat. cbn [snd].
    split; intros H; destruct (Rge_dec (p_lat p) 0); try reflexivity; lra.
  - intros p Hlon deg minutes n.
    split; [apply Zfloor_bound|].
    split; [apply FormatFacts.minutes_range|].
    pose proof (to_nmea_lon_layout p Hlon) as Hl. cbv zeta in Hl.
    split; [exact Hl|].
    split; [rewrite Hl; apply layout_length|].
    unfold to_nmea_lon. cbn [snd].
    split; intros H; destruct (Rge_dec (p_lon p) 0); try reflexivity; lra.
  - assert (Habs : Rabs (p_lat opera_house) = 33.8587).
    { unfold opera_house. cbn [p_lat]. rewrite Rabs_left; lra. }
    assert (Hdeg : Zfloor (Rabs (p_lat opera_house)) = 33%Z).
    { rewrite Habs. apply Zfloor_eq. lra. }
    pose proof (to_nmea_lat_layout opera_house) as Hl. cbv zeta in Hl.
    rewrite Hdeg, Habs in Hl.
    replace ((33.8587 - 33) * 60 * 10 ^ 6) with (IZR 51522000) in Hl
      by (simpl; lra).
    rewrite FormatFacts.round_half_even_IZR in Hl.
    specialize (Hl ltac:(lra)).
    rewrite (surjective_pairing (to_nmea_lat opera_house)), Hl.
    f_equal. unfold to_nmea_lat, opera_house. cbn [snd p_lat].
    destruct (Rge_dec _ 0); [lra|reflexivity].
  - assert (Habs : Rabs (p_lon opera_house) = 151.2140).
    { unfold opera_house. cbn [p_lon]. rewrite Rabs_right; lra. }
    assert (Hdeg : Zfloor (Rabs (p_lon opera_house)) = 151%Z).
    { rewrite Habs. apply Zfloor_eq. lra. }
    pose proof (to_nmea_lon_layout opera_house) as Hl. cbv zeta in Hl.
    rewrite Hdeg, Habs in Hl.
    replace ((151.2140 - 151) * 60 * 10 ^ 6) with (IZR 12840000) in Hl
      by (simpl; lra).
    rewrite FormatFacts.round_half_even_IZR in Hl.
    specialize (Hl ltac:(lra)).
    rewrite (surjective_pairing (to_nmea_lon opera_house)), Hl.
    f_equal. unfold to_nmea_lon, opera_house. cbn [snd p_lon].
    destruct (Rge_dec _ 0); [reflexivity|lra].
Qed.

Lemma nmea_coordinate_format_witness :
  String.length (fst (to_nmea_lat opera_house)) = 11%nat
  /\ String.length (fst (to_nmea_lon opera_house)) = 12%nat.
Proof.
  destruct nmea_coordinate_format as (Hlat & Hlon & _).
  split.
  - apply (Hlat opera_house). unfold opera_house. cbn [p_lat].
    rewrite Rabs_left; lra.
  - apply (Hlon opera_house). unfold opera_house. cbn [p_lon].
    rewrite Rabs_right; lra.
Defined.

End CoordinateTheorems.

(** ** The batch of sentences *)

Module BatchTheorems.
Import GpsTracker Messages Server BatchSpec.
Local Open Scope R_scope.

Lemma find_segment_index (wps : list Waypoint) (d : R) (idx : list nat) :
  forall cur start i pos,
    find_segment wps d idx cur start = Ok (Some (i, pos)) -> In i idx.
Proof.
  induction idx as [|k idx IH]; intros cur start i pos H; [discriminate|].
  cbn [find_segment] in H. destruct (Rlt_dec d _).
  - unfold Py.div_ in H. destruct (Req_dec_T _ 0); [discriminate|].
    cbn [rbind] in H. injection H as <- _. left. reflexivity.
  - right. eapply IH. exact H.
Qed.

(** A query on a well-formed tracker returns a position and records the
    index of one of the route's segments. *)
Lemma get_current_position_indexed (t : GPSTracker) (now : R) :
  (2 <= length (waypoints t))%nat -> 0 < total_distance t ->
  0 <= (now - start_time t) * speed_ms t ->
  exists pos i,
    get_current_position t now = Ok (pos, set_index t (Z.of_nat i))
    /\ (i < length (waypoints t))%nat.
Proof.
  intros Hlen Htot Hx. unfold get_current_position.
  assert (Hw : exists d, wrapped_distance t now = Ok d /\ 0 <= d).
  { unfold wrapped_distance. destruct (Rge_dec _ _).
    - unfold Py.mod_. destruct (Req_dec_T _ 0); [lra|].
      eexists; split; [reflexivity|].
      apply PyFacts.float_mod_bounds; exact Htot.
    - eexists; split; [reflexivity|exact Hx]. }
  destruct Hw as [d [-> Hd]]. cbn [rbind].
  destruct (waypoints t) as [|a l] eqn:Hwps; [simpl in Hlen; lia|].
  rewrite PyFacts.getitem_head. cbn [rbind].
  destruct (TrackerFacts.find_segment_returns (a :: l) d
              (seq 0 (length (a :: l))) 0 a Hd) as [r Hr].
  rewrite Hr. cbn [rbind]. destruct r as [[i pos]|].
  - exists pos, i. split; [reflexivity|].
    apply find_segment_index in Hr. apply in_seq in Hr. lia.
  - change (-1)%Z with (- Z.of_nat 1)%Z.
    rewrite (PyFacts.getitem_neg (a :: l) 1 wp0) by (simpl; lia).
    cbn [rbind]. eexists. exists (length (a :: l) - 2)%nat.
    split; [|lia].
    replace (Z.of_nat (length (a :: l)) - 2)%Z
      with (Z.of_nat (length (a :: l) - 2)) by lia.
    reflexivity.
Qed.

(** Every rendered sentence starts with its lead character, its sentence
    type and a comma. *)
Lemma to_string_prefix (m : NMEAMessage) (g : Rng) :
  starts_with (String (lead_char m) (sentence_type m ++ ","))
              (fst (to_string m g)).
Proof.
  destruct m; unfold starts_with, to_string, to_nmea_lat, to_nmea_lon,
    add_random_variation, with_checksum, bind, ret, random;
    cbn [fst lead_char sentence_type]; eexists; reflexivity.
Qed.

Lemma to_string_id (m : NMEAMessage) (g : Rng) :
  sentence_id (fst (to_string m g)) = String (lead_char m) (sentence_type m).
Proof.
  destruct (to_string_prefix m g) as [rest ->].
  destruct m; reflexivity.
Qed.

Lemma render_all_cons (m : NMEAMessage) (rest : list NMEAMessage) (g : Rng) :
  render_all (m :: rest) g
  = (let (s, g1) := to_string m g in
     let (tl, g2) := render_all rest g1 in (s :: tl, g2)).
Proof. reflexivity. Qed.

Lemma render_all_ids (msgs : list NMEAMessage) :
  forall g,
    map sentence_id (fst (render_all msgs g))
    = map (fun m => String (lead_char m) (sentence_type m)) msgs.
Proof.
  induction msgs as [|m msgs IH]; intros g; [reflexivity|].
  rewrite render_all_cons.
  pose proof (to_string_id m g) as Hid.
  destruct (to_string m g) as [s g1]. cbn [fst] in Hid.
  specialize (IH g1).
  destruct (render_all msgs g1) as [tl g2]. cbn [fst] in IH.
  cbn [fst map]. rewrite Hid, IH. reflexivity.
Qed.

Lemma render_all_app (a b : list NMEAMessage) :
  forall g,
    render_all (a ++ b) g
    = (let (ra, g1) := render_all a g in
       let (rb, g2) := render_all b g1 in ((ra ++ rb)%list, g2)).
Proof.
  induction a as [|m a IH]; intros g.
  - cbn [app render_all ret]. destruct (render_all b g). reflexivity.
  - change ((m :: a) ++ b)%list with (m :: (a ++ b))%list.
    rewrite !render_all_cons.
    destruct (to_string m g) as [s g1]. rewrite IH.
    destruct (render_all a g1) as [ra g2].
    destruct (render_all b g2) as [rb g3]. reflexivity.
Qed.

Lemma render_all_length (msgs : list NMEAMessage) :
  forall g, length (fst (render_all msgs g)) = length msgs.
Proof.
  intros g. rewrite <- (length_map sentence_id), render_all_ids.
  apply length_map.
Qed.

(** The AIS sentences draw no random values and ignore their timestamp. *)
Lemma render_ais (c : nat -> datetime) (g : Rng) :
  fst (render_all
         [ AIVDO (c 18%nat) 1 1 1 "A" "17PaewhP0gar0FkcvG4hBh>t0000";
           AIVDM (c 19%nat) 1 1 1 "A" "17PaewhP0gar0FkcvG4hBh>t0000";
           AIVDO (c 20%nat) 2 1 9 "A"
             "57Paewh00001<To7;?@plD5<Tl0000000000000U1@:552R8R2TnA3QF";
           AIVDO (c 21%nat) 2 2 9 "A" "@00000000000002";
           AIVDM (c 22%nat) 2 1 9 "A"
             "57Paewh00001<To7;?@plD5<Tl0000000000000U1@:552R8R2TnA3QF";
           AIVDM (c 23%nat) 2 2 9 "A" "@00000000000002" ] g)
  = ais_sentences.
Proof. vm_compute. reflexivity. Qed.

Lemma render_all_nth (msgs : list NMEAMessage) (d : NMEAMessage) :
  forall k g,
    (k < length msgs)%nat ->
    exists gk,
      nth k (fst (render_all msgs g)) "" = fst (to_string (nth k msgs d) gk).
Proof.
  induction msgs as [|m msgs IH]; intros k g Hk; [simpl in Hk; lia|].
  rewrite render_all_cons.
  destruct (to_string m g) as [s g1] eqn:Hs.
  destruct k as [|k].
  - exists g. destruct (render_all msgs g1). cbn [nth fst].
    rewrite Hs. reflexivity.
  - destruct (IH k g1) as [gk Hgk]; [simpl in Hk; lia|].
    exists gk. destruct (render_all msgs g1). exact Hgk.
Qed.

Lemma engine_sentence_prefix (ts : datetime) (id : string) (rpm pitch : R)
    (g : Rng) :
  starts_with ("$IIRPM," ++ id ++ "," ++ id ++ ",")
              (fst (to_string (IIRPM ts id rpm pitch) g)).
Proof.
  unfold starts_with, to_string, add_random_variation, with_checksum,
    bind, ret, random. cbn [fst].
  eexists. rewrite !StringFacts.append_assoc. reflexivity.
Qed.

(** C6.  On a simulator with a well-formed tracker (a route of positive
    length, queried at or after its start time) every call of
    [generate_messages] returns a batch of 24 sentences whose identifiers
    are, in this order: GPRMC, IIVHW, GPVTG, IIHDT, GPGLL, GPGGA, GPGSA,
    GPZDA, IIVBW, WIMWD, WIMWV, IIMTW, SDDPT, SDDBT, IIRPM, IIRPM, IIAPB,
    GPRMB, then six AIS sentences; the two engine sentences are for
    engine ids 1 and 2, and the six AIS sentences are the same fixed
    strings in every batch. *)
Theorem batch_order_and_composition
    (self : NMEASimulator) (now : R) (clock : nat -> datetime) (g : Rng) :
  ais_payloads self = ais_payloads (init (gps_tracker self)) ->
  (2 <= length (waypoints (gps_tracker self)))%nat ->
  0 < total_distance (gps_tracker self) ->
  0 <= (now - start_time (gps_tracker self)) * speed_ms (gps_tracker self) ->
  exists msgs self' g',
    generate_messages self now clock g = Ok (msgs, self', g')
    /\ length msgs = 24%nat
    /\ map sentence_id msgs = batch_layout
    /\ starts_with "$IIRPM,1,1," (nth 14 msgs "")
    /\ starts_with "$IIRPM,2,2," (nth 15 msgs "")
    /\ skipn 18 msgs = ais_sentences.
Proof.
  intros Hais Hlen Htot Hx. unfold generate_messages.
  destruct (get_current_position_indexed (gps_tracker self) now Hlen Htot Hx)
    as (pos & i & -> & Hi).
  cbn [rbind].
  rewrite (TrackerTheorems.heading_after_search (gps_tracker self) i)
    by lia.
  cbn [rbind].
  set (t1 := set_index (gps_tracker self) (Z.of_nat i)).
  set (h := if (i <? _)%nat then _ else _).
  pose proof (EnvTheorems.update_env_tracker (set_tracker self t1) g)
    as [_ Hp].
  destruct (_update_environmental_data (set_tracker self t1) g)
    as [s1 g1].
  cbn [fst set_tracker ais_payloads] in Hp. rewrite Hais in Hp.
  cbn [init ais_payloads] in Hp. rewrite Hp.
  change (Py.getitem _ 0) with (Ok "17PaewhP0gar0FkcvG4hBh>t0000").
  change (Py.getitem _ 1)
    with (Ok "57Paewh00001<To7;?@plD5<Tl0000000000000U1@:552R8R2TnA3QF").
  change (Py.getitem _ 2) with (Ok "@00000000000002").
  cbn [rbind].
  set (b := batch s1 pos h (get_current_speed t1) clock _ _ _).
  pose proof (render_all_length b g1) as Hl.
  pose proof (render_all_ids b g1) as Hids.
  destruct (render_all_nth b (GPZDA (clock 0%nat)) 14 g1 ltac:(simpl; lia))
    as [g14 H14].
  destruct (render_all_nth b (GPZDA (clock 0%nat)) 15 g1 ltac:(simpl; lia))
    as [g15 H15].
  assert (Hskip : skipn 18 (fst (render_all b g1)) = ais_sentences).
  { rewrite <- (firstn_skipn 18 b), render_all_app.
    pose proof (render_all_length (firstn 18 b) g1) as Hl18.
    destruct (render_all (firstn 18 b) g1) as [ra g2].
    pose proof (render_ais clock g2) as Hais6.
    change (skipn 18 b) with
      [ AIVDO (clock 18%nat) 1 1 1 "A" "17PaewhP0gar0FkcvG4hBh>t0000";
        AIVDM (clock 19%nat) 1 1 1 "A" "17PaewhP0gar0FkcvG4hBh>t0000";
        AIVDO (clock 20%nat) 2 1 9 "A"
          "57Paewh00001<To7;?@plD5<Tl0000000000000U1@:552R8R2TnA3QF";
        AIVDO (clock 21%nat) 2 2 9 "A" "@00000000000002";
        AIVDM (clock 22%nat) 2 1 9 "A"
          "57Paewh00001<To7;?@plD5<Tl0000000000000U1@:552R8R2TnA3QF";
        AIVDM (clock 23%nat) 2 2 9 "A" "@00000000000002" ].
    destruct (render_all _ g2) as [rb g3]. cbn [fst] in *.
    change (length (firstn 18 b)) with 18%nat in Hl18.
    rewrite skipn_app, Hl18.
    rewrite skipn_all2 by lia. rewrite Nat.sub_diag. exact Hais6. }
  destruct (render_all b g1) as [msgs g2]. cbn [fst] in *.
  exists msgs, s1, g2.
  split; [reflexivity|]. split; [exact Hl|]. split; [exact Hids|].
  split; [rewrite H14; apply engine_sentence_prefix|].
  split; [rewrite H15; apply engine_sentence_prefix|].
  exact Hskip.
Qed.

Lemma batch_order_and_composition_witness :
  exists msgs self' g',
    generate_messages (init Examples.equator_tracker) 60
      (fun _ => mkDatetime 2024 1 2 3 4 5 6789) (fun _ => 0.5)
    = Ok (msgs, self', g')
    /\ map sentence_id msgs = batch_layout.
Proof.
  destruct (batch_order_and_composition
              (init Examples.equator_tracker) 60
              (fun _ => mkDatetime 2024 1 2 3 4 5 6789) (fun _ => 0.5))
    as (msgs & s' & g' & H & _ & Hids & _).
  - reflexivity.
  - simpl. lia.
  - cbn [init gps_tracker].
    destruct TrackerTheorems.equator_loop_legs as (H0 & H1 & H2 & ->). lra.
  - cbn [init gps_tracker Examples.equator_tracker start_time speed_ms].
    lra.
  - exists msgs, s', g'. split; assumption.
Defined.

End BatchTheorems.

(** ** The DOP and active satellites sentence *)

Module SatelliteTheorems.
Import Fmt Messages SentenceSpec.

Lemma split_on_no_sep (sep : ascii) (a : string) :
  has_char sep a = false -> split_on sep a = [a].
Proof.
  induction a as [|c a IH]; intros H; [reflexivity|].
  cbn [has_char] in H. apply orb_false_iff in H as [Hc Ha].
  cbn [split_on]. rewrite Hc, (IH Ha). reflexivity.
Qed.

Lemma split_on_app (sep : ascii) (a rest : string) :
  has_char sep a = false ->
  split_on sep (a ++ String sep rest) = a :: split_on sep rest.
Proof.
  induction a as [|c a IH]; intros H.
  - cbn [append split_on]. rewrite Ascii.eqb_refl. reflexivity.
  - cbn [has_char] in H. apply orb_false_iff in H as [Hc Ha].
    cbn [append split_on]. rewrite Hc, (IH Ha). reflexivity.
Qed.

Lemma split_on_join (sep : ascii) (l : list string) :
  l <> [] -> Forall (fun s => has_char sep s = false) l ->
  split_on sep (join (String sep "") l) = l.
Proof.
  induction l as [|s l IH]; intros Hne Hall; [contradiction|].
  inversion Hall as [|? ? Hs Hl]; subst.
  destruct l as [|s' l]; [apply split_on_no_sep; exact Hs|].
  change (join (String sep "") (s :: s' :: l))
    with (s ++ String sep (join (String sep "") (s' :: l))).
  rewrite split_on_app by exact Hs.
  rewrite IH; [reflexivity|discriminate|exact Hl].
Qed.

Lemma existsb_eqb_in (id : Z) (sats : list Z) :
  existsb (Z.eqb id) sats = if in_dec Z.eq_dec id sats then true else false.
Proof.
  destruct (in_dec Z.eq_dec id sats) as [Hin|Hnin].
  - apply existsb_exists. exists id. split; [exact Hin|apply Z.eqb_refl].
  - destruct (existsb (Z.eqb id) sats) eqn:He; [|reflexivity].
    apply existsb_exists in He as [x [Hx Heq]].
    apply Z.eqb_eq in Heq. subst x. contradiction.
Qed.

(** The list comprehension of [GPGSA.to_string] is the list of the 12
    slots. *)
Lemma sat_list_slots (sats : list Z) :
  sat_list sats = join "," (map (slot sats) slot_ids).
Proof.
  unfold sat_list. f_equal.
  change (map Z.of_nat (seq 1 12)) with slot_ids.
  apply map_ext. intros id. unfold slot.
  rewrite existsb_eqb_in. destruct (in_dec Z.eq_dec id sats); reflexivity.
Qed.

Lemma slot_no_comma (sats : list Z) :
  Forall (fun s => has_char "," s = false) (map (slot sats) slot_ids).
Proof.
  unfold slot_ids. cbn [map].
  repeat (apply Forall_cons;
          [unfold slot; destruct (in_dec _ _ _); reflexivity|]).
  apply Forall_nil.
Qed.

Lemma slot_filter (sats : list Z) (id : Z) :
  in_slot_range id = true ->
  slot (filter in_slot_range sats) id = slot sats id.
Proof.
  intros Hid. unfold slot.
  destruct (in_dec Z.eq_dec id (filter in_slot_range sats)) as [Hf|Hf];
    destruct (in_dec Z.eq_dec id sats) as [Hs|Hs]; try reflexivity.
  - apply filter_In in Hf as [Hin _]. contradiction.
  - exfalso. apply Hf. apply filter_In. split; assumption.
Qed.

Lemma sat_list_filter (sats : list Z) :
  sat_list (filter in_slot_range sats) = sat_list sats.
Proof.
  rewrite !sat_list_slots. f_equal. apply map_ext_in.
  intros id Hid. apply slot_filter.
  unfold slot_ids in Hid. cbn [In] in Hid.
  repeat (destruct Hid as [<-|Hid]; [reflexivity|]). contradiction.
Qed.

(** C10.  The DOP/active-satellites sentence is ["$GPGSA,A,3,"], the
    satellite field list, a comma, and the three DOP values; the
    satellite field list splits at its commas into exactly 12 slots, the
    slot for ID [k] (1 to 12) holding [k] in decimal exactly when [k] is
    in the satellite list given at construction and being empty
    otherwise.  IDs outside 1..12 do not appear: the rendered sentence is
    the same as for the list with those IDs removed. *)
Theorem gpgsa_satellite_slots
    (ts : datetime) (sats : list Z) (pdop hdop vdop : R) (g : Rng) :
  (exists rest,
      fst (to_string (GPGSA ts sats pdop hdop vdop) g)
      = "$GPGSA,A,3," ++ sat_list sats ++ "," ++ rest)
  /\ split_on "," (sat_list sats) = map (slot sats) slot_ids
  /\ length (split_on "," (sat_list sats)) = 12%nat
  /\ (forall k : nat,
        (k < 12)%nat ->
        let id := Z.of_nat (k + 1) in
        (In id sats ->
         nth k (split_on "," (sat_list sats)) "" = decimal id
         /\ decimal id <> "")
        /\ (~ In id sats -> nth k (split_on "," (sat_list sats)) "" = ""))
  /\ to_string (GPGSA ts (filter in_slot_range sats) pdop hdop vdop) g
     = to_string (GPGSA ts sats pdop hdop vdop) g.
Proof.
  assert (Hsplit : split_on "," (sat_list sats) = map (slot sats) slot_ids).
  { rewrite sat_list_slots. apply split_on_join; [discriminate|].
    apply slot_no_comma. }
  split; [|split; [exact Hsplit|split; [rewrite Hsplit; reflexivity|split]]].
  - unfold to_string, add_random_variation, with_checksum, bind, ret, random.
    cbn [fst]. eexists. rewrite !StringFacts.append_assoc. reflexivity.
  - intros k Hk id. rewrite Hsplit.
    assert (Hnth : nth k (map (slot sats) slot_ids) "" = slot sats id).
    { unfold id.
      do 12 (destruct k as [|k]; [reflexivity|]). lia. }
    rewrite Hnth. unfold slot.
    split; intros Hin; destruct (in_dec Z.eq_dec id sats);
      try contradiction; [|reflexivity].
    split; [reflexivity|].
    unfold id. do 12 (destruct k as [|k]; [discriminate|]). lia.
  - unfold to_string. rewrite sat_list_filter. reflexivity.
Qed.

Lemma gpgsa_satellite_slots_witness :
  let sats := [8; 11; 15; 22]%Z in
  split_on "," (sat_list sats)
  = [""; ""; ""; ""; ""; ""; ""; "8"; ""; ""; "11"; ""]
  /\ nth 7 (split_on "," (sat_list sats)) "" = "8"
  /\ nth 0 (split_on "," (sat_list sats)) "" = "".
Proof.
  intros sats.
  destruct (gpgsa_satellite_slots (mkDatetime 2024 1 2 3 4 5 6789) sats
              2 1 1 (fun _ => 0.5%R)) as (_ & Hsplit & _ & Hslot & _).
  split; [rewrite Hsplit; reflexivity|].
  split.
  - apply (Hslot 7%nat); [lia|]. simpl. tauto.
  - apply (Hslot 0%nat); [lia|]. simpl. intros [H|[H|[H|[H|[]]]]]; discriminate.
Defined.

End SatelliteTheorems.

(** ** Further properties of the geo math *)

Module GeoExtras.
Import GpsTracker.
Local Open Scope R_scope.

Lemma atan2_quarter (y x : R) : 0 <= y -> 0 <= x -> Py.atan2 y x <= PI / 2.
Proof.
  intros Hy Hx. unfold Py.atan2. pose proof PI_RGT_0 as Hpi.
  destruct (Rlt_dec 0 x).
  - left. apply atan_bound.
  - destruct (Rlt_dec x 0); [lra|].
    destruct (Rlt_dec 0 y); [lra|].
    destruct (Rlt_dec y 0); lra.
Qed.

Lemma haversine_term_sym (a b : Waypoint) :
  sin (Py.radians (lat b - lat a) / 2) ^ 2
  + cos (Py.radians (lat a)) * cos (Py.radians (lat b))
    * sin (Py.radians (lon b - lon a) / 2) ^ 2
  = sin (Py.radians (lat a - lat b) / 2) ^ 2
    + cos (Py.radians (lat b)) * cos (Py.radians (lat a))
      * sin (Py.radians (lon a - lon b) / 2) ^ 2.
Proof.
  unfold Py.radians.
  replace ((lat a - lat b) * (PI / 180) / 2)
    with (- ((lat b - lat a) * (PI / 180) / 2)) by lra.
  replace ((lon a - lon b) * (PI / 180) / 2)
    with (- ((lon b - lon a) * (PI / 180) / 2)) by lra.
  rewrite !sin_neg. ring.
Qed.

Lemma distance_to_sym (a b : Waypoint) : distance_to a b = distance_to b a.
Proof.
  unfold distance_to. cbv zeta. rewrite (haversine_term_sym a b). reflexivity.
Qed.

Lemma bearing_to_range (a b : Waypoint) : 0 <= bearing_to a b < 360.
Proof. unfold bearing_to. apply PyFacts.float_mod_bounds. lra. Qed.

(** X1.  [distance_to] is symmetric, is zero between identical waypoints,
    is never negative and never exceeds half the circumference of the
    earth, [6371000 * PI] metres. *)
Theorem distance_to_is_bounded_and_symmetric (a b : Waypoint) :
  distance_to a b = distance_to b a
  /\ distance_to a a = 0
  /\ 0 <= distance_to a b <= 6371000 * PI.
Proof.
  split; [apply distance_to_sym|]. split; [apply GeoFacts.distance_to_self|].
  split; [apply GeoFacts.distance_to_nonneg|].
  unfold distance_to. cbv zeta.
  pose proof (atan2_quarter
                (sqrt (sin (Py.radians (lat b - lat a) / 2) ^ 2
                       + cos (Py.radians (lat a)) * cos (Py.radians (lat b))
                         * sin (Py.radians (lon b - lon a) / 2) ^ 2))
                (sqrt (1 - (sin (Py.radians (lat b - lat a) / 2) ^ 2
                            + cos (Py.radians (lat a)) * cos (Py.radians (lat b))
                              * sin (Py.radians (lon b - lon a) / 2) ^ 2)))
                (sqrt_pos _) (sqrt_pos _)) as Hq.
  lra.
Qed.

(** X3.  [bearing_to] always lies in [0, 360), and every heading that
    [get_current_heading] returns, for any tracker state, lies in
    [0, 360). *)
Theorem heading_range :
  (forall a b : Waypoint, 0 <= bearing_to a b < 360)
  /\ (forall (t : GPSTracker) (h : R),
        get_current_heading t = Ok h -> 0 <= h < 360).
Proof.
  split; [apply bearing_to_range|].
  intros t h. unfold get_current_heading.
  destruct (_ >=? _)%Z.
  - destruct (_ >=? 2)%Z.
    + destruct (Py.getitem _ (-2)) as [a|]; [|discriminate].
      destruct (Py.getitem _ (-1)) as [b|]; [|discriminate].
      cbn [rbind]. intros H. injection H as <-. apply bearing_to_range.
    + intros H. injection H as <-. lra.
  - destruct (Py.getitem _ _) as [a|]; [|discriminate].
    destruct (Py.getitem _ _) as [b|]; [|discriminate].
    cbn [rbind]. intros H. injection H as <-. apply bearing_to_range.
Qed.

Lemma heading_range_witness :
  exists h, get_current_heading Examples.equator_tracker = Ok h /\ 0 <= h < 360.
Proof.
  destruct heading_range as [_ H].
  eexists. split; [reflexivity|].
  apply (H Examples.equator_tracker). reflexivity.
Defined.

End GeoExtras.

(** ** Further properties of the tracker *)

Module TrackerExtras.
Import GpsTracker RouteSpec.
Local Open Scope R_scope.

Lemma clamp_range (p : R) : 0 <= Py.max_ 0 (Py.min_ 1 p) <= 1.
Proof.
  unfold Py.max_, Py.min_.
  destruct (Rlt_dec p 1); destruct (Rlt_dec 0 _); lra.
Qed.

Lemma clamp_low (p : R) : p <= 0 -> Py.max_ 0 (Py.min_ 1 p) = 0.
Proof.
  intros Hp. unfold Py.max_, Py.min_.
  destruct (Rlt_dec p 1); destruct (Rlt_dec 0 _); lra.
Qed.

Lemma clamp_high (p : R) : 1 <= p -> Py.max_ 0 (Py.min_ 1 p) = 1.
Proof.
  intros Hp. unfold Py.max_, Py.min_.
  destruct (Rlt_dec p 1); destruct (Rlt_dec 0 _); lra.
Qed.

(** X4.  [_interpolate_position] never leaves the segment: for every
    progress value, also outside [0, 1], the latitude and the longitude
    lie between those of the two endpoints; a progress of 0 or less gives
    the start point and a progress of 1 or more gives the end point. *)
Theorem interpolate_stays_on_segment (a b : Waypoint) (progress : R) :
  let pos := _interpolate_position a b progress in
  Rmin (lat a) (lat b) <= p_lat pos <= Rmax (lat a) (lat b)
  /\ Rmin (lon a) (lon b) <= p_lon pos <= Rmax (lon a) (lon b)
  /\ (progress <= 0 -> pos = mkPosition (lat a) (lon a))
  /\ (1 <= progress -> pos = mkPosition (lat b) (lon b))
  /\ (0 <= progress <= 1 ->
      pos = mkPosition (lat a + (lat b - lat a) * progress)
                       (lon a + (lon b - lon a) * progress)).
Proof.
  intros pos. unfold pos, _interpolate_position. cbn [p_lat p_lon].
  pose proof (clamp_range progress) as Hc.
  set (c := Py.max_ 0 (Py.min_ 1 progress)) in *.
  split; [|split; [|split; [|split]]].
  - clearbody c. unfold Rmin, Rmax. destruct (Rle_dec (lat a) (lat b)); nra.
  - clearbody c. unfold Rmin, Rmax. destruct (Rle_dec (lon a) (lon b)); nra.
  - intros Hp. unfold c. rewrite clamp_low by exact Hp. f_equal; lra.
  - intros Hp. unfold c. rewrite clamp_high by exact Hp. f_equal; lra.
  - intros Hp. unfold c. rewrite PyFacts.clamp_unit by exact Hp. reflexivity.
Qed.

Lemma interpolate_stays_on_segment_witness :
  _interpolate_position (mkWaypoint 0 0) (mkWaypoint 2 4) 7 = mkPosition 2 4
  /\ _interpolate_position (mkWaypoint 0 0) (mkWaypoint 2 4) (-1)
     = mkPosition 0 0.
Proof.
  split.
  - apply (interpolate_stays_on_segment (mkWaypoint 0 0) (mkWaypoint 2 4) 7).
    lra.
  - apply (interpolate_stays_on_segment (mkWaypoint 0 0) (mkWaypoint 2 4) (-1)).
    lra.
Defined.

(** The accumulated length before segment [k], for [k] up to the last
    waypoint, is the partial sum of the loop of
    [_calculate_total_distance]. *)
Lemma distance_before_fold (wps : list Waypoint) (k : nat) :
  (k <= length wps - 1)%nat ->
  distance_before wps k = fold_left (leg wps) (seq 0 k) 0.
Proof.
  induction k as [|k IH]; intros Hk; [reflexivity|].
  rewrite seq_S, fold_left_app. cbn [fold_left Nat.add distance_before].
  rewrite <- IH by lia. unfold leg, segment_length, segment_start, segment_end.
  destruct (Nat.eqb_spec k (length wps - 1)); [lia|reflexivity].
Qed.

(** The total distance stored by the constructor is the accumulated length
    of all the segments walked by the position search: all [n] of them on
    a loop, the single one on a 2-waypoint route. *)
Lemma total_distance_before (wps : list Waypoint) :
  (2 <= length wps)%nat ->
  _calculate_total_distance wps
  = if (2 <? length wps)%nat
    then distance_before wps (length wps)
    else distance_before wps (length wps - 1).
Proof.
  intros Hlen. unfold _calculate_total_distance.
  rewrite <- distance_before_fold by lia.
  destruct (Nat.ltb_spec 2 (length wps)) as [Hlt|Hge]; [|reflexivity].
  replace (length wps) with (S (length wps - 1)) at 3 by lia.
  cbn [distance_before]. unfold segment_length, segment_start, segment_end.
  rewrite Nat.eqb_refl. reflexivity.
Qed.

Lemma total_distance_le_before (wps : list Waypoint) :
  (2 <= length wps)%nat ->
  _calculate_total_distance wps <= distance_before wps (length wps).
Proof.
  intros Hlen. rewrite total_distance_before by exact Hlen.
  destruct (2 <? length wps)%nat; [lra|].
  apply TrackerFacts.distance_before_mono. lia.
Qed.

(** A non-negative distance below the accumulated length of [k] segments
    lies in one of them. *)
Lemma locate_segment (wps : list Waypoint) (d : R) (k : nat) :
  0 <= d < distance_before wps k ->
  exists i, (i < k)%nat /\ in_segment wps i d.
Proof.
  induction k as [|k IH]; intros [Hlo Hhi]; [cbn in Hhi; lra|].
  destruct (Rlt_dec d (distance_before wps k)) as [Hlt|Hge].
  - destruct (IH (conj Hlo Hlt)) as (i & Hi & Hin). exists i. split; [lia|exact Hin].
  - exists k. split; [lia|]. unfold in_segment. split; [lra|exact Hhi].
Qed.

(** The wrapped distance, when there is one, is below the total
    distance. *)
Lemma wrapped_distance_below (t : GPSTracker) (now d : R) :
  0 <= total_distance t -> wrapped_distance t now = Ok d ->
  d < total_distance t
  /\ ((now - start_time t) * speed_ms t < 0 -> d < 0)
  /\ (0 <= (now - start_time t) * speed_ms t -> 0 <= d).
Proof.
  intros Htot. unfold wrapped_distance.
  destruct (Rge_dec _ _) as [Hge|Hlt].
  - unfold Py.mod_. destruct (Req_dec_T _ 0) as [|Hnz]; [discriminate|].
    intros H. injection H as <-.
    pose proof (PyFacts.float_mod_bounds ((now - start_time t) * speed_ms t)
                  (total_distance t) ltac:(lra)).
    repeat split; lra.
  - intros H. injection H as <-. repeat split; lra.
Qed.

(** What a position query on a tracker with at least 2 waypoints and the
    total distance of its route can do: fail with a division by zero, or
    return the interpolated position on the segment in which the wrapped
    distance lies, recording the index of that segment. *)
Lemma position_query_cases (t : GPSTracker) (now : R) :
  (2 <= length (waypoints t))%nat ->
  total_distance t = _calculate_total_distance (waypoints t) ->
  match get_current_position t now with
  | Raise e =>
      e = ZeroDivisionError
      /\ (total_distance t = 0
          \/ ((now - start_time t) * speed_ms t < 0
              /\ segment_length (waypoints t) 0 = 0))
  | Ok (pos, t') =>
      exists d i,
        wrapped_distance t now = Ok d
        /\ (i < length (waypoints t))%nat
        /\ (in_segment (waypoints t) i d \/ (d < 0 /\ i = 0%nat))
        /\ 0 < segment_length (waypoints t) i
        /\ t' = set_index t (Z.of_nat i)
        /\ pos = _interpolate_position
                   (segment_start (waypoints t) i) (segment_end (waypoints t) i)
                   ((d - distance_before (waypoints t) i)
                    / segment_length (waypoints t) i)
  end.
Proof.
  intros Hlen Htot.
  pose proof (TrackerFacts.total_distance_nonneg (waypoints t)) as Hnn.
  rewrite <- Htot in Hnn.
  destruct (wrapped_distance t now) as [d|e] eqn:Hw.
  - destruct (wrapped_distance_below t now d Hnn Hw) as (Hd & Hneg & Hpos).
    destruct (Rlt_dec d 0) as [Hd0|Hd0].
    + unfold get_current_position. rewrite Hw. cbn [rbind].
      destruct (waypoints t) as [|a [|b l]] eqn:Hwps;
        [simpl in Hlen; lia ..|].
      rewrite PyFacts.getitem_head. cbn [rbind length seq find_segment].
      change (distance_to a
                (if (0 =? S (S (length l)) - 1)%nat
                 then wp_at (a :: b :: l) 0
                 else wp_at (a :: b :: l) (0 + 1)))
        with (segment_length (a :: b :: l) 0).
      pose proof (TrackerFacts.segment_length_nonneg (a :: b :: l) 0) as Hs.
      destruct (Rlt_dec d _) as [_|Hn]; [|lra].
      unfold Py.div_. destruct (Req_dec_T _ 0) as [Hz|Hnz].
      * cbn [rbind]. split; [reflexivity|]. right.
        split; [|exact Hz].
        destruct (Rlt_dec ((now - start_time t) * speed_ms t) 0); [assumption|].
        exfalso. assert (0 <= d) by (apply Hpos; lra). lra.
      * cbn [rbind]. exists d, 0%nat.
        split; [reflexivity|]. split; [simpl; lia|].
        split; [right; split; [exact Hd0|reflexivity]|].
        split; [lra|]. split; reflexivity.
    + assert (Hrange : 0 <= d < distance_before (waypoints t)
                                  (length (waypoints t))).
      { pose proof (total_distance_le_before (waypoints t) Hlen). lra. }
      destruct (locate_segment _ _ _ Hrange) as (i & Hi & Hin).
      rewrite (TrackerTheorems.position_search_in_segment t now d i Hi Hw Hin).
      exists d, i. split; [reflexivity|]. split; [exact Hi|].
      split; [left; exact Hin|].
      split; [|split; reflexivity].
      destruct Hin as [H1 H2]. cbn [distance_before] in H2. lra.
  - unfold get_current_position. rewrite Hw. cbn [rbind].
    unfold wrapped_distance in Hw.
    destruct (Rge_dec _ _); [|discriminate].
    unfold Py.mod_ in Hw. destruct (Req_dec_T _ 0) as [Hz|]; [|discriminate].
    injection Hw as <-. split; [reflexivity|]. left. exact Hz.
Qed.

(** X5.  On a tracker built by the constructor a position query never
    raises an index error and never falls out of the segment search: it
    either fails with a division by zero (route of zero length, or a
    negative travelled distance on a first leg of zero length), or returns
    the interpolated position on the segment in which the wrapped distance
    lies and records that segment's index, after which the heading query
    succeeds. *)
Theorem position_query_complete
    (now0 speed now : R) (wps : list Waypoint) (t : GPSTracker) :
  init now0 wps speed = Ok t ->
  match get_current_position t now with
  | Raise e =>
      e = ZeroDivisionError
      /\ (total_distance t = 0
          \/ ((now - start_time t) * speed_ms t < 0
              /\ segment_length wps 0 = 0))
  | Ok (pos, t') =>
      exists d i,
        wrapped_distance t now = Ok d
        /\ (i < length wps)%nat
        /\ (in_segment wps i d \/ (d < 0 /\ i = 0%nat))
        /\ current_waypoint_index t' = Z.of_nat i
        /\ pos = _interpolate_position
                   (segment_start wps i) (segment_end wps i)
                   ((d - distance_before wps i) / segment_length wps i)
        /\ exists h, get_current_heading t' = Ok h
  end.
Proof.
  intros Hinit. unfold init in Hinit.
  destruct (Nat.ltb_spec (length wps) 2) as [|Hlen]; [discriminate|].
  injection Hinit as <-.
  set (t := {| waypoints := wps |}).
  pose proof (position_query_cases t now Hlen eq_refl) as H.
  destruct (get_current_position t now) as [[pos t']|e]; [|exact H].
  destruct H as (d & i & Hw & Hi & Hin & _ & -> & ->).
  exists d, i. repeat (split; [assumption || reflexivity|]).
  eexists. apply (TrackerTheorems.heading_after_search t i); [exact Hlen|exact Hi].
Qed.

Lemma position_query_complete_witness :
  exists pos t' d i,
    get_current_position Examples.equator_tracker 100 = Ok (pos, t')
    /\ wrapped_distance Examples.equator_tracker 100 = Ok d
    /\ current_waypoint_index t' = Z.of_nat i.
Proof.
  pose proof (position_query_complete 0 5 100 Examples.equator_loop
                Examples.equator_tracker eq_refl) as H.
  destruct (get_current_position Examples.equator_tracker 100)
    as [[pos t']|e].
  - destruct H as (d & i & Hw & _ & _ & Hidx & _).
    exists pos, t', d, i. repeat split; assumption.
  - exfalso. destruct H as [_ [Hz|[Hneg _]]].
    + destruct TrackerTheorems.equator_loop_legs as (H0 & H1 & H2 & Htot).
      rewrite Htot in Hz. lra.
    + cbn [Examples.equator_tracker start_time speed_ms] in Hneg. lra.
Defined.

(** X6.  A route of zero total length makes the tracker unusable: the
    constructor accepts it, and every position query, at any time, fails
    with a division by zero, and so does every generated batch.  A route
    whose waypoints all coincide is such a route. *)
Theorem zero_length_route_always_fails :
  (forall (now0 speed : R) (wps : list Waypoint) (t : GPSTracker),
      init now0 wps speed = Ok t -> total_distance t = 0 ->
      forall now, get_current_position t now = Raise ZeroDivisionError)
  /\ (forall (s : Server.NMEASimulator) (now : R) (clock : nat -> datetime)
        (g : Rng),
        get_current_position (Server.gps_tracker s) now
        = Raise ZeroDivisionError ->
        Server.generate_messages s now clock g = Raise ZeroDivisionError)
  /\ (forall (w : Waypoint) (n : nat) (now0 speed : R),
        (2 <= n)%nat ->
        exists t, init now0 (repeat w n) speed = Ok t /\ total_distance t = 0).
Proof.
  split; [|split].
  - intros now0 speed wps t Hinit Hz now. unfold init in Hinit.
    destruct (Nat.ltb_spec (length wps) 2) as [|Hlen]; [discriminate|].
    injection Hinit as <-.
    set (t := {| waypoints := wps |}) in *.
    pose proof (position_query_cases t now Hlen eq_refl) as H.
    destruct (get_current_position t now) as [[pos t']|e].
    + exfalso. destruct H as (d & i & Hw & Hi & Hin & Hseg & _).
      pose proof (TrackerFacts.total_distance_nonneg wps) as Hnn.
      destruct (wrapped_distance_below t now d ltac:(rewrite Hz; lra) Hw)
        as (Hd & _).
      rewrite Hz in Hd. cbn [t waypoints] in Hin, Hseg.
      destruct Hin as [[Hlo _]|[_ ->]].
      * pose proof (TrackerFacts.distance_before_mono wps 0 i ltac:(lia)) as Hm.
        cbn [distance_before] in Hm. lra.
      * pose proof (total_distance_le_before wps Hlen) as Hle.
        pose proof (total_distance_before wps Hlen) as Heq.
        cbn [t total_distance] in Hz. rewrite Hz in Heq.
        pose proof (TrackerFacts.distance_before_mono wps 1 (length wps - 1)
                      ltac:(lia)) as Hm1.
        pose proof (TrackerFacts.distance_before_mono wps 1 (length wps)
                      ltac:(lia)) as Hm2.
        cbn [distance_before] in Hm1, Hm2.
        destruct (2 <? length wps)%nat; lra.
    + destruct H as [-> _]. reflexivity.
  - intros s now clock g H. unfold Server.generate_messages. rewrite H.
    reflexivity.
  - intros w n now0 speed Hn.
    eexists. split; [apply TrackerProps.init_ok; rewrite repeat_length; exact Hn|].
    cbn [total_distance]. rewrite TrackerFacts.calculate_total_distance_spec.
    unfold total_length.
    assert (Hsum : forall k, consecutive_sum (repeat w k) = 0).
    { induction k as [|k IH]; [reflexivity|].
      destruct k as [|k]; [reflexivity|].
      change (repeat w (S (S k))) with (w :: w :: repeat w k).
      rewrite TrackerFacts.consecutive_sum_cons, GeoFacts.distance_to_self.
      change (w :: repeat w k) with (repeat w (S k)). rewrite IH. lra. }
    rewrite Hsum.
    assert (Hlast : last (repeat w n) wp0 = w).
    { clear Hsum. destruct n as [|n]; [lia|]. clear Hn.
      induction n as [|n IH]; [reflexivity|].
      change (repeat w (S (S n))) with (w :: repeat w (S n)).
      change (last (w :: repeat w (S n)) wp0) with (last (repeat w (S n)) wp0).
      exact IH. }
    assert (Hhd : hd wp0 (repeat w n) = w) by (destruct n; [lia|reflexivity]).
    rewrite Hlast, Hhd, GeoFacts.distance_to_self.
    destruct (2 <? _)%nat; lra.
Qed.

Lemma zero_length_route_always_fails_witness :
  exists t,
    init 0 (repeat (mkWaypoint 10 20) 8) 5 = Ok t
    /\ get_current_position t 30 = Raise ZeroDivisionError.
Proof.
  destruct zero_length_route_always_fails as (Hq & _ & Hrep).
  destruct (Hrep (mkWaypoint 10 20) 8%nat 0 5 ltac:(lia)) as (t & Hinit & Hz).
  exists t. split; [exact Hinit|].
  apply (Hq 0 5 (repeat (mkWaypoint 10 20) 8) t Hinit Hz).
Defined.

(** X8.  On a 2-waypoint route, before the route is complete, the tracker
    moves linearly from the first waypoint to the second: for a travelled
    distance [x] with [0 <= x < total_distance] the position is the first
    waypoint plus the fraction [x / total_distance] of the way to the
    second, and the recorded segment index is 0. *)
Theorem two_point_route_progress
    (t : GPSTracker) (a b : Waypoint) (now : R) :
  waypoints t = [a; b] -> total_distance t = distance_to a b ->
  let x := (now - start_time t) * speed_ms t in
  0 <= x < total_distance t ->
  get_current_position t now
  = Ok (mkPosition (lat a + (lat b - lat a) * (x / total_distance t))
                   (lon a + (lon b - lon a) * (x / total_distance t)),
        set_index t 0).
Proof.
  intros Hw Ht x Hx.
  assert (Hwd : wrapped_distance t now = Ok x).
  { unfold wrapped_distance. fold x.
    destruct (Rge_dec x (total_distance t)); [lra|reflexivity]. }
  rewrite (TrackerTheorems.position_search_in_segment t now x 0).
  - rewrite Hw. unfold segment_start, segment_end, segment_length,
      segment_start, segment_end, wp_at.
    cbn [length Nat.sub Nat.eqb Nat.add nth distance_before].
    rewrite Rminus_0_r. rewrite Ht in *. unfold _interpolate_position.
    rewrite PyFacts.clamp_unit; [reflexivity|].
    split; [apply Rmult_le_pos; [lra|left; apply Rinv_0_lt_compat; lra]|].
    apply Rmult_le_reg_r with (r := distance_to a b); [lra|].
    unfold Rdiv. rewrite Rmult_assoc, Rinv_l by lra. lra.
  - rewrite Hw. simpl. lia.
  - exact Hwd.
  - rewrite Hw. unfold in_segment. cbn [distance_before].
    unfold segment_length, segment_start, segment_end, wp_at.
    cbn [length Nat.sub Nat.eqb Nat.add nth].
    rewrite Ht in Hx. unfold x in *. lra.
Qed.

Lemma two_point_route_progress_witness :
  let a := mkWaypoint 0 0 in
  let b := mkWaypoint 1 0 in
  let t := {| waypoints := [a; b];
              speed_knots := 5;
              speed_ms := 5 * 0.514444;
              current_waypoint_index := 0%Z;
              start_time := 0;
              total_distance := distance_to a b;
              current_position := mkPosition 0 0 |} in
  get_current_position t 0
  = Ok (mkPosition (0 + (1 - 0) * ((0 - 0) * (5 * 0.514444) / distance_to a b))
                   (0 + (0 - 0) * ((0 - 0) * (5 * 0.514444) / distance_to a b)),
        set_index t 0).
Proof.
  intros a b t.
  apply (two_point_route_progress t a b 0 eq_refl eq_refl).
  cbn [t start_time speed_ms total_distance].
  assert (0 < distance_to a b)
    by (apply GeoFacts.distance_to_pos_meridian; simpl; lra).
  lra.
Defined.

(** X9.  [is_route_complete] fails with a division by zero on a tracker
    whose speed is 0 and returns a boolean on every other tracker; its
    answer is permanent: once the route is reported complete it is
    reported complete at every later time (until the tracker is reset). *)
Theorem route_complete_is_permanent (t : GPSTracker) (now later : R) :
  (speed_ms t = 0 -> is_route_complete t now = Raise ZeroDivisionError)
  /\ (speed_ms t <> 0 -> exists b, is_route_complete t now = Ok b)
  /\ (now <= later ->
      is_route_complete t now = Ok true ->
      is_route_complete t later = Ok true).
Proof.
  unfold is_route_complete, Py.div_.
  destruct (Req_dec_T (speed_ms t) 0) as [Hz|Hnz].
  - split; [reflexivity|]. split; [contradiction|discriminate].
  - cbn [rbind]. split; [contradiction|].
    split; [intros _; eexists; reflexivity|].
    intros Hle.
    destruct (Rge_dec (now - start_time t) _) as [Hge|_]; [|discriminate].
    intros _.
    destruct (Rge_dec (later - start_time t) _) as [_|Hn]; [reflexivity|].
    exfalso. apply Hn. lra.
Qed.

Lemma route_complete_is_permanent_witness :
  is_route_complete Examples.equator_tracker
    (total_distance Examples.equator_tracker
     / speed_ms Examples.equator_tracker) = Ok true
  /\ is_route_complete Examples.equator_tracker
       (total_distance Examples.equator_tracker
        / speed_ms Examples.equator_tracker + 60) = Ok true.
Proof.
  assert (H : is_route_complete Examples.equator_tracker
                (total_distance Examples.equator_tracker
                 / speed_ms Examples.equator_tracker) = Ok true).
  { unfold is_route_complete, Py.div_.
    destruct (Req_dec_T _ 0) as [Hz|_];
      [cbn [Examples.equator_tracker speed_ms] in Hz; lra|].
    cbn [rbind]. destruct (Rge_dec _ _) as [_|Hn]; [reflexivity|].
    exfalso. apply Hn.
    cbn [Examples.equator_tracker start_time]. lra. }
  split; [exact H|].
  apply (route_complete_is_permanent Examples.equator_tracker
           (total_distance Examples.equator_tracker
            / speed_ms Examples.equator_tracker)
           (total_distance Examples.equator_tracker
            / speed_ms Examples.equator_tracker + 60)); [lra|exact H].
Defined.

(** X10.  [reset_route] restarts the route: it keeps the waypoints, the
    speed and the total distance, sets the start time to the time of the
    reset and the segment index to 0; a position query at that same time
    then returns the first waypoint (when the first leg has positive
    length) and, at positive speed, the route is not complete. *)
Theorem reset_route_restarts
    (t : GPSTracker) (a b : Waypoint) (rest : list Waypoint) (now : R) :
  waypoints t = a :: b :: rest ->
  0 < distance_to a b -> 0 < total_distance t -> 0 < speed_ms t ->
  exists t',
    reset_route t now = Ok t'
    /\ waypoints t' = waypoints t
    /\ speed_knots t' = speed_knots t
    /\ total_distance t' = total_distance t
    /\ start_time t' = now
    /\ current_waypoint_index t' = 0%Z
    /\ get_current_position t' now = Ok (mkPosition (lat a) (lon a), t')
    /\ is_route_complete t' now = Ok false.
Proof.
  intros Hw Hleg Htot Hs. unfold reset_route. rewrite Hw.
  rewrite PyFacts.getitem_head. cbn [rbind].
  eexists. split; [reflexivity|].
  cbn [waypoints speed_knots total_distance start_time current_waypoint_index].
  repeat (split; [reflexivity|]).
  split.
  - unfold get_current_position, wrapped_distance.
    cbn [start_time speed_ms total_distance waypoints].
    replace ((now - now) * speed_ms t) with 0 by ring.
    destruct (Rge_dec 0 (total_distance t)); [lra|]. cbn [rbind].
    rewrite PyFacts.getitem_head. cbn [rbind length seq find_segment].
    destruct (Nat.eqb_spec 0 (S (S (length rest)) - 1)) as [He|_]; [simpl in He; lia|].
    unfold wp_at. cbn [Nat.add nth].
    destruct (Rlt_dec 0 (0 + distance_to a b)) as [_|Hn]; [|lra].
    unfold Py.div_. destruct (Req_dec_T _ 0); [lra|]. cbn [rbind].
    replace ((0 - 0) / distance_to a b) with 0 by (field; lra).
    rewrite TrackerProps.interpolate_start. reflexivity.
  - unfold is_route_complete, Py.div_. cbn [start_time speed_ms total_distance].
    destruct (Req_dec_T (speed_ms t) 0); [lra|]. cbn [rbind].
    destruct (Rge_dec _ _) as [Hge|_]; [|reflexivity].
    exfalso.
    assert (0 < total_distance t / speed_ms t)
      by (apply Rdiv_lt_0_compat; assumption).
    lra.
Qed.

Lemma reset_route_restarts_witness :
  exists t',
    reset_route Examples.equator_tracker 500 = Ok t'
    /\ get_current_position t' 500 = Ok (mkPosition 0 0, t').
Proof.
  destruct (reset_route_restarts Examples.equator_tracker
              (mkWaypoint 0 0) (mkWaypoint 0 1) [mkWaypoint 0 2] 500)
    as (t' & Hr & _ & _ & _ & _ & _ & Hq & _).
  - reflexivity.
  - apply GeoFacts.distance_to_pos_equator; simpl; lra.
  - destruct TrackerTheorems.equator_loop_legs as (H0 & H1 & H2 & ->). lra.
  - cbn [Examples.equator_tracker speed_ms]. lra.
  - exists t'. split; assumption.
Defined.

(** X11.  The tracker passes through the waypoints: when the wrapped
    distance is exactly the accumulated length of the segments before
    segment [i], and segment [i] has positive length, the position is
    waypoint [i] itself and the recorded segment index is [i]. *)
Theorem position_at_segment_start
    (t : GPSTracker) (now : R) (i : nat) :
  (i < length (waypoints t))%nat ->
  wrapped_distance t now = Ok (distance_before (waypoints t) i) ->
  0 < segment_length (waypoints t) i ->
  get_current_position t now
  = Ok (mkPosition (lat (wp_at (waypoints t) i)) (lon (wp_at (waypoints t) i)),
        set_index t (Z.of_nat i)).
Proof.
  intros Hi Hw Hseg.
  rewrite (TrackerTheorems.position_search_in_segment t now _ i Hi Hw).
  - replace ((distance_before (waypoints t) i - distance_before (waypoints t) i)
             / segment_length (waypoints t) i) with 0 by (field; lra).
    rewrite TrackerProps.interpolate_start. reflexivity.
  - unfold in_segment. cbn [distance_before]. lra.
Qed.

Lemma position_at_segment_start_witness :
  get_current_position Examples.equator_tracker 0
  = Ok (mkPosition 0 0, set_index Examples.equator_tracker 0).
Proof.
  destruct TrackerTheorems.equator_loop_legs as (H0 & H1 & H2 & Htot).
  apply (position_at_segment_start Examples.equator_tracker 0 0).
  - simpl. lia.
  - unfold wrapped_distance. rewrite Htot.
    cbn [Examples.equator_tracker start_time speed_ms waypoints
         distance_before].
    replace ((0 - 0) * (5 * 0.514444)) with 0 by lra.
    destruct (Rge_dec 0 _); [lra|reflexivity].
  - exact H0.
Defined.

End TrackerExtras.

(** ** Further properties of the route generators and the configuration *)

Module RouteExtras.
Import GpsTracker RouteSpec ExtraSpec.
Local Open Scope R_scope.

Lemma line_points_map (sl so el eo : R) (n : Z) (idx : list Z) :
  (n - 1 <> 0)%Z ->
  line_points sl so el eo n idx = Ok (map (line_point sl so el eo n) idx).
Proof.
  intros Hn. induction idx as [|i idx IH]; [reflexivity|].
  cbn [line_points map]. unfold Py.div_.
  destruct (Req_dec_T (IZR (n - 1)) 0) as [Hz|_].
  - exfalso. apply Hn. apply eq_IZR. exact Hz.
  - cbn [rbind]. rewrite IH. reflexivity.
Qed.

Lemma nth_range (A : Type) (f : Z -> A) (n : Z) (k : nat) (d : A) :
  (k < Z.to_nat n)%nat -> nth k (map f (range n)) d = f (Z.of_nat k).
Proof.
  intros Hk. unfold range. rewrite map_map.
  rewrite (nth_indep _ d (f (Z.of_nat 0)))
    by (rewrite length_map, length_seq; exact Hk).
  rewrite (map_nth (fun x => f (Z.of_nat x)) (seq 0 (Z.to_nat n)) 0%nat k).
  rewrite seq_nth by exact Hk. reflexivity.
Qed.

Lemma line_point_first (sl so el eo : R) (n : Z) :
  line_point sl so el eo n 0 = mkWaypoint sl so.
Proof.
  unfold line_point. unfold Rdiv. rewrite Rmult_0_l. f_equal; lra.
Qed.

Lemma line_point_last (sl so el eo : R) (n : Z) :
  (n - 1 <> 0)%Z -> line_point sl so el eo n (n - 1) = mkWaypoint el eo.
Proof.
  intros Hn. unfold line_point. unfold Rdiv.
  rewrite Rinv_r by (intros H; apply Hn, eq_IZR, H). f_equal; lra.
Qed.

Lemma line_route_shape (sl so el eo : R) (n : Z) :
  (2 <= n)%Z ->
  let wps := map (line_point sl so el eo n) (range n) in
  create_line_route sl so el eo n = Ok wps
  /\ length wps = Z.to_nat n
  /\ hd wp0 wps = mkWaypoint sl so
  /\ last wps wp0 = mkWaypoint el eo.
Proof.
  intros Hn wps.
  assert (Hlen : length wps = Z.to_nat n).
  { unfold wps. rewrite length_map. apply TrackerTheorems.range_length. }
  split; [apply line_points_map; lia|]. split; [exact Hlen|]. split.
  - rewrite <- TrackerFacts.wp_at_hd. unfold wp_at, wps.
    rewrite nth_range by lia. apply line_point_first.
  - rewrite <- TrackerFacts.wp_at_last. unfold wp_at. rewrite Hlen.
    unfold wps. rewrite nth_range by lia.
    replace (Z.of_nat (Z.to_nat n - 1)) with (n - 1)%Z by lia.
    apply line_point_last. lia.
Qed.

(** X12.  [create_line_route] called with at least 2 points returns
    exactly that many waypoints; the first is the start point, the last is
    the end point, and waypoint [k] is the start point plus the fraction
    [k / (num_points - 1)] of the way to the end point, in latitude and in
    longitude.  With 2 points the route is the start and the end point. *)
Theorem line_route_interpolates (sl so el eo : R) (n : Z) :
  (2 <= n)%Z ->
  exists wps,
    create_line_route sl so el eo n = Ok wps
    /\ length wps = Z.to_nat n
    /\ hd wp0 wps = mkWaypoint sl so
    /\ last wps wp0 = mkWaypoint el eo
    /\ (forall k : nat,
          (k < Z.to_nat n)%nat ->
          nth k wps wp0
          = mkWaypoint
              (sl + (el - sl) * (INR k / (IZR n - 1)))
              (so + (eo - so) * (INR k / (IZR n - 1))))
    /\ (n = 2%Z -> wps = [mkWaypoint sl so; mkWaypoint el eo]).
Proof.
  intros Hn.
  destruct (line_route_shape sl so el eo n Hn) as (Hc & Hlen & Hhd & Hlast).
  eexists. split; [exact Hc|]. split; [exact Hlen|].
  split; [exact Hhd|]. split; [exact Hlast|]. split.
  - intros k Hk. rewrite nth_range by exact Hk. unfold line_point.
    rewrite <- INR_IZR_INZ, minus_IZR. reflexivity.
  - intros ->. change (range 2) with [0%Z; 1%Z]. cbn [map].
    rewrite line_point_first.
    change 1%Z with (2 - 1)%Z at 1.
    rewrite (line_point_last sl so el eo 2) by lia. reflexivity.
Qed.

Lemma line_route_interpolates_witness :
  exists wps,
    create_line_route (-33.8587) 151.2140 (-33.8400) 151.2200 2 = Ok wps
    /\ wps = [mkWaypoint (-33.8587) 151.2140; mkWaypoint (-33.8400) 151.2200].
Proof.
  destruct (line_route_interpolates (-33.8587) 151.2140 (-33.8400) 151.2200 2)
    as (wps & Hc & _ & _ & _ & _ & H2); [lia|].
  exists wps. split; [exact Hc|]. apply H2. reflexivity.
Defined.

(** X13.  A line route of 3 or more points is followed as a loop: the
    tracker built from it has a total distance made of the legs from the
    start point to the end point plus the direct leg from the end point
    back to the start point. *)
Theorem line_route_is_followed_as_loop
    (sl so el eo now speed : R) (n : Z) :
  (3 <= n)%Z ->
  exists wps t,
    create_line_route sl so el eo n = Ok wps
    /\ init now wps speed = Ok t
    /\ total_distance t
       = consecutive_sum wps
         + distance_to (mkWaypoint el eo) (mkWaypoint sl so)
    /\ segment_end wps (length wps - 1) = mkWaypoint sl so.
Proof.
  intros Hn.
  destruct (line_route_shape sl so el eo n ltac:(lia))
    as (Hc & Hlen & Hhd & Hlast).
  eexists. eexists. split; [exact Hc|].
  split; [apply TrackerProps.init_ok; rewrite Hlen; lia|].
  cbn [total_distance]. rewrite TrackerFacts.calculate_total_distance_spec.
  unfold total_length. rewrite Hhd, Hlast, Hlen.
  destruct (Nat.ltb_spec 2 (Z.to_nat n)) as [_|H]; [|lia].
  split; [reflexivity|].
  unfold segment_end. rewrite Hlen, Nat.eqb_refl, TrackerFacts.wp_at_hd.
  exact Hhd.
Qed.

Lemma line_route_is_followed_as_loop_witness :
  exists wps t,
    create_line_route 0 0 1 1 10 = Ok wps
    /\ init 0 wps 5 = Ok t
    /\ total_distance t
       = consecutive_sum wps + distance_to (mkWaypoint 1 1) (mkWaypoint 0 0).
Proof.
  destruct (line_route_is_followed_as_loop 0 0 1 1 0 5 10 ltac:(lia))
    as (wps & t & Hc & Hi & Ht & _).
  exists wps, t. repeat split; assumption.
Defined.

(** X14.  [create_circular_route], for a centre whose latitude has a
    non-zero cosine, returns as many waypoints as asked (none for a
    negative count); every waypoint lies on the ellipse of semi-axes
    [radius_nm / 60] degrees of latitude and
    [radius_nm / (60 * cos center_lat)] degrees of longitude around the
    centre, and the first one is due north of the centre. *)
Theorem circular_route_on_ellipse (clat clon r : R) (n : Z) :
  cos (Py.radians clat) <> 0 ->
  exists wps,
    create_circular_route clat clon r n = Ok wps
    /\ length wps = Z.to_nat n
    /\ (forall k : nat,
          (k < Z.to_nat n)%nat ->
          let w := nth k wps wp0 in
          (lat w - clat) ^ 2
          + ((lon w - clon) * cos (Py.radians clat)) ^ 2
          = (r / 60) ^ 2)
    /\ ((0 < n)%Z -> hd wp0 wps = mkWaypoint (clat + r / 60) clon).
Proof.
  intros Hc. unfold create_circular_route.
  eexists. split; [reflexivity|].
  split; [rewrite length_map; apply TrackerTheorems.range_length|]. split.
  - intros k Hk. cbv zeta. rewrite nth_range by exact Hk. cbn [lat lon].
    set (angle := 2 * PI * IZR (Z.of_nat k) / IZR n).
    pose proof (sin2_cos2 angle) as Hsc. unfold Rsqr in Hsc.
    set (c := cos (Py.radians clat)) in *.
    replace ((clon + r / (60 * c) * sin angle - clon) * c)
      with (r / 60 * sin angle) by (field; exact Hc).
    replace (clat + r / 60 * cos angle - clat) with (r / 60 * cos angle) by ring.
    clearbody angle c. nra.
  - intros Hn. rewrite <- TrackerFacts.wp_at_hd. unfold wp_at.
    rewrite nth_range by lia.
    replace (2 * PI * IZR (Z.of_nat 0) / IZR n) with 0
      by (unfold Rdiv; simpl; ring).
    rewrite cos_0, sin_0. f_equal; ring.
Qed.

Lemma circular_route_on_ellipse_witness :
  exists wps,
    create_circular_route 0 0 1 8 = Ok wps
    /\ length wps = 8%nat
    /\ hd wp0 wps = mkWaypoint (0 + 1 / 60) 0.
Proof.
  destruct (circular_route_on_ellipse 0 0 1 8) as (wps & Hc & Hlen & _ & Hhd).
  - rewrite TrackerTheorems.cos_radians_zero. lra.
  - exists wps. split; [exact Hc|]. split; [exact Hlen|]. apply Hhd. lia.
Defined.

End RouteExtras.

Module ConfigExtras.
Import GpsTracker RouteSpec ExtraSpec ServerConfig.
Local Open Scope R_scope.

Lemma server_init_some (now : R) (h : string) (p : Z) (t : GPSTracker) :
  server_init now h p (Some t)
  = Ok {| srv_host := h; srv_port := p; srv_gps_tracker := t;
          srv_simulator := Server.init t; srv_clients := [];
          srv_running := false |}.
Proof. reflexivity. Qed.

Lemma init_inv (now speed : R) (wps : list Waypoint) (t : GPSTracker) :
  init now wps speed = Ok t ->
  (2 <= length wps)%nat
  /\ waypoints t = wps
  /\ GpsTracker.speed_knots t = speed.
Proof.
  unfold init. destruct (Nat.ltb_spec (length wps) 2) as [Hlt|Hge];
    [discriminate|].
  intros H. injection H as <-. split; [exact Hge|]. split; reflexivity.
Qed.

(** What a returned server is made of: the route handed to the tracker
    constructor, the configured (or default) speed, host and port, and
    the fresh fields of [NMEATCPServer.__init__]. *)
Lemma built_server (now speed : R) (h : string) (p : Z)
    (route : result (list Waypoint)) (srv : NMEATCPServer) :
  (waypoints <-? route ;;
   gps_tracker <-? init now waypoints speed ;;
   server_init now h p (Some gps_tracker)) = Ok srv ->
  exists wps,
    route = Ok wps
    /\ (2 <= length wps)%nat
    /\ waypoints (srv_gps_tracker srv) = wps
    /\ GpsTracker.speed_knots (srv_gps_tracker srv) = speed
    /\ srv_host srv = h
    /\ srv_port srv = p
    /\ srv_simulator srv = Server.init (srv_gps_tracker srv)
    /\ srv_clients srv = []
    /\ srv_running srv = false.
Proof.
  destruct route as [wps|e]; [|discriminate]. cbn [rbind].
  destruct (init now wps speed) as [t|e] eqn:Hi; [|discriminate].
  cbn [rbind]. rewrite server_init_some. intros H. injection H as <-.
  destruct (init_inv _ _ _ _ Hi) as (Hlen & Hw & Hs).
  exists wps. cbn [srv_gps_tracker srv_host srv_port srv_simulator
                   srv_clients srv_running].
  repeat split; try reflexivity; assumption.
Qed.



(** X16.  [create_simulator_from_config] fails with a [ValueError] on a
    route type other than "line", "circle" and "rectangle", and on a
    "circle" configuration with fewer than 2 points (the error then comes
    from the length check of the tracker constructor).  Whenever it
    returns a server, the route type is one of the three and the tracker
    holds 10 waypoints for a line, [num_points] (at least 2) for a
    circle, and for a rectangle 5 of which the last repeats the first. *)
Theorem config_route_type_outcomes (now : R) (c : Config) :
  let route_type := get (route_type c) "line" in
  let n := get (num_points c) 8%Z in
  (route_type <> "line" -> route_type <> "circle" ->
   route_type <> "rectangle" ->
   create_simulator_from_config now c = Raise ValueError)
  /\ (route_type = "circle" -> (n < 2)%Z ->
      create_simulator_from_config now c = Raise ValueError)
  /\ (forall srv,
        create_simulator_from_config now c = Ok srv ->
        let wps := waypoints (srv_gps_tracker srv) in
        (route_type = "line" /\ length wps = 10%nat)
        \/ (route_type = "circle" /\ (2 <= n)%Z /\ length wps = Z.to_nat n)
        \/ (route_type = "rectangle" /\ length wps = 5%nat
            /\ last wps wp0 = hd wp0 wps)).
Proof.
  intros rt n. unfold create_simulator_from_config. fold rt. fold n.
  split; [|split].
  - intros H1 H2 H3.
    destruct (String.eqb_spec rt "line"); [contradiction|].
    destruct (String.eqb_spec rt "circle"); [contradiction|].
    destruct (String.eqb_spec rt "rectangle"); [contradiction|].
    reflexivity.
  - intros -> Hn. change (String.eqb "circle" "line") with false.
    change (String.eqb "circle" "circle") with true. cbv iota.
    destruct (TrackerTheorems.circular_route_ok
                (get (center_lat c) (-33.8587)) (get (center_lon c) 151.2140)
                (get (radius_nm c) 0.5) n) as (wps & Hc & Hlen).
    rewrite Hc. cbn [rbind]. unfold init.
    destruct (Nat.ltb_spec (length wps) 2); [reflexivity|lia].
  - intros srv H. set (wps := waypoints (srv_gps_tracker srv)).
    apply built_server in H.
    destruct H as (wps' & Hr & Hlen & Hw & _). fold wps in Hw. subst wps'.
    destruct (String.eqb_spec rt "line") as [Hl|_].
    { left. split; [exact Hl|].
      destruct (RouteExtras.line_route_shape
                  (get (start_lat c) (-33.8587)) (get (start_lon c) 151.2140)
                  (get (end_lat c) (-33.8400)) (get (end_lon c) 151.2200) 10
                  ltac:(lia)) as (Hc & Hl10 & _).
      rewrite Hc in Hr. injection Hr as <-. exact Hl10. }
    destruct (String.eqb_spec rt "circle") as [Hc|_].
    { right. left. split; [exact Hc|].
      destruct (TrackerTheorems.circular_route_ok
                  (get (center_lat c) (-33.8587))
                  (get (center_lon c) 151.2140)
                  (get (radius_nm c) 0.5) n) as (w & Hw' & Hlw).
      rewrite Hw' in Hr. injection Hr as ->.
      split; [lia|exact Hlw]. }
    destruct (String.eqb_spec rt "rectangle") as [Hre|_]; [|discriminate].
    right. right. split; [exact Hre|].
    injection Hr as Hr. rewrite <- Hr. split; reflexivity.
Qed.

Lemma config_route_type_outcomes_witness :
  create_simulator_from_config 0
    (mkConfig None None None (Some "spiral") None None None None
              None None None None None None)
  = Raise ValueError
  /\ create_simulator_from_config 0
       (mkConfig None None None (Some "circle") None None None None
                 None None None (Some 1%Z) None None)
     = Raise ValueError.
Proof.
  split.
  - destruct (config_route_type_outcomes 0
                (mkConfig None None None (Some "spiral") None None None None
                          None None None None None None)) as [H _].
    apply H; discriminate.
  - destruct (config_route_type_outcomes 0
                (mkConfig None None None (Some "circle") None None None None
                          None None None (Some 1%Z) None None))
      as (_ & H & _).
    apply H; [reflexivity|simpl; lia].
Defined.

End ConfigExtras.

(** ** Further properties of the sentences *)

Module SentenceExtras.
Import Fmt Messages SentenceSpec ExtraSpec.
Local Open Scope R_scope.

(** X17.  [add_random_variation] draws one value and, for a draw in
    [0, 1), moves the nominal value by at most the fraction
    [variation_percent] of it: the result differs from [value] by at most
    [|value * variation_percent|]; for a non-negative value and fraction it
    lies between [value * (1 - variation_percent)] and
    [value * (1 + variation_percent)].  A value of 0 is returned
    unchanged. *)
Theorem random_variation_amplitude (value pct : R) (g : Rng) :
  unit_draws g ->
  let r := fst (add_random_variation value pct g) in
  Rabs (r - value) <= Rabs (value * pct)
  /\ (0 <= value -> 0 <= pct ->
      value * (1 - pct) <= r <= value * (1 + pct))
  /\ (value = 0 -> r = 0)
  /\ (forall n, snd (add_random_variation value pct g) n = g (S n)).
Proof.
  intros Hg r. unfold r, add_random_variation, bind, ret, random.
  cbn [fst snd]. specialize (Hg 0%nat).
  set (u := g 0%nat) in *.
  assert (Hk : -1 <= 2 * u - 1 <= 1) by lra.
  split; [|split; [|split]].
  - replace (value + value * pct * (u - 0.5) * 2 - value)
      with (value * pct * (2 * u - 1)) by lra.
    rewrite Rabs_mult.
    assert (Rabs (2 * u - 1) <= 1) by (apply Rabs_le; lra).
    pose proof (Rabs_pos (value * pct)). nra.
  - intros Hv Hp. assert (0 <= value * pct) by nra. clearbody u. nra.
  - intros ->. lra.
  - reflexivity.
Qed.

Lemma random_variation_amplitude_witness :
  let r := fst (add_random_variation 5 0.05 (fun _ => 0.25)) in
  5 * (1 - 0.05) <= r <= 5 * (1 + 0.05).
Proof.
  intros r.
  apply (random_variation_amplitude 5 0.05 (fun _ => 0.25)).
  - intros n. lra.
  - lra.
  - lra.
Defined.

Lemma xor_bytes_app (a b : string) :
  xor_bytes (a ++ b) = N.lxor (xor_bytes a) (xor_bytes b).
Proof.
  induction a as [|c a IH]; [symmetry; apply N.lxor_0_l|].
  cbn [append xor_bytes]. rewrite IH, N.lxor_assoc. reflexivity.
Qed.

Lemma lxor_cancel_l (a x y : N) : N.lxor a x = N.lxor a y -> x = y.
Proof.
  intros H.
  rewrite <- (N.lxor_0_l x), <- (N.lxor_0_l y), <- (N.lxor_nilpotent a).
  rewrite !N.lxor_assoc, H. reflexivity.
Qed.

Lemma lxor_cancel_r (b x y : N) : N.lxor x b = N.lxor y b -> x = y.
Proof.
  rewrite (N.lxor_comm x b), (N.lxor_comm y b). apply lxor_cancel_l.
Qed.

Lemma calculate_checksum_inj (a b : string) :
  calculate_checksum a = calculate_checksum b -> xor_bytes a = xor_bytes b.
Proof.
  intros H.
  destruct (StringFacts.calculate_checksum_spec a) as (h1 & h2 & Ha & Hva).
  destruct (StringFacts.calculate_checksum_spec b) as (k1 & k2 & Hb & Hvb).
  rewrite Ha, Hb in H. injection H as -> ->. congruence.
Qed.

(** X18.  The checksum detects every change of a single character: two
    texts that differ in exactly one position have different checksums.
    It does not detect a reordering: exchanging two neighbouring
    characters leaves the checksum unchanged. *)
Theorem checksum_error_detection :
  (forall (pre post : string) (c c' : ascii),
      c <> c' ->
      calculate_checksum (pre ++ String c post)
      <> calculate_checksum (pre ++ String c' post))
  /\ (forall (pre post : string) (c1 c2 : ascii),
        calculate_checksum (pre ++ String c1 (String c2 post))
        = calculate_checksum (pre ++ String c2 (String c1 post))).
Proof.
  split.
  - intros pre post c c' Hne H. apply calculate_checksum_inj in H.
    rewrite !xor_bytes_app in H. cbn [xor_bytes] in H.
    apply lxor_cancel_l, lxor_cancel_r in H.
    apply Hne. rewrite <- (ascii_N_embedding c), <- (ascii_N_embedding c'), H.
    reflexivity.
  - intros pre post c1 c2. unfold calculate_checksum.
    rewrite !StringFacts.xor_chars_spec, !xor_bytes_app. cbn [xor_bytes].
    assert (Hswap : N.lxor (N_of_ascii c1)
                      (N.lxor (N_of_ascii c2) (xor_bytes post))
                    = N.lxor (N_of_ascii c2)
                        (N.lxor (N_of_ascii c1) (xor_bytes post))).
    { rewrite <- !N.lxor_assoc.
      rewrite (N.lxor_comm (N_of_ascii c1) (N_of_ascii c2)). reflexivity. }
    rewrite Hswap. reflexivity.
Qed.

Lemma checksum_error_detection_witness :
  calculate_checksum "GPGLL,A" <> calculate_checksum "GPGLL,V".
Proof.
  destruct checksum_error_detection as [H _].
  apply (H "GPGLL," "" "A"%char "V"%char). discriminate.
Defined.

End SentenceExtras.

(** ** Further properties of the latitude and longitude fields *)

Module CoordinateExtras.
Import Fmt Messages ExtraSpec.
Local Open Scope R_scope.









Lemma round_up_to_sixty (m : R) :
  59.9999995 <= m < 60 -> round_half_even (m * 10 ^ 6) = 60000000%Z.
Proof.
  intros Hm. unfold round_half_even.
  assert (Hf : Zfloor (m * 10 ^ 6) = 59999999%Z)
    by (apply Zfloor_eq; simpl; lra).
  rewrite Hf.
  destruct (Rlt_dec _ _) as [H|_]; [simpl in H; lra|].
  destruct (Rlt_dec _ _); reflexivity.
Qed.

(** X20.  The minutes are rounded without a carry into the degrees: when
    the fractional degrees amount to 59.9999995 minutes or more, the field
    shows the whole degrees followed by "60.000000". *)
Theorem minutes_round_up_to_sixty (p : Position) :
  (Rabs (p_lat p) < 100 ->
   59.9999995 <= (Rabs (p_lat p) - IZR (Zfloor (Rabs (p_lat p)))) * 60 ->
   fst (to_nmea_lat p)
   = fixed_digits 2 (Zfloor (Rabs (p_lat p))) ++ "60.000000")
  /\ (Rabs (p_lon p) < 1000 ->
      59.9999995 <= (Rabs (p_lon p) - IZR (Zfloor (Rabs (p_lon p)))) * 60 ->
      fst (to_nmea_lon p)
      = fixed_digits 3 (Zfloor (Rabs (p_lon p))) ++ "60.000000").
Proof.
  split; intros H Hm.
  - rewrite (CoordinateTheorems.to_nmea_lat_layout p H).
    pose proof (FormatFacts.minutes_range (p_lat p)).
    rewrite round_up_to_sixty by lra. reflexivity.
  - rewrite (CoordinateTheorems.to_nmea_lon_layout p H).
    pose proof (FormatFacts.minutes_range (p_lon p)).
    rewrite round_up_to_sixty by lra. reflexivity.
Qed.

Lemma minutes_round_up_to_sixty_witness :
  fst (to_nmea_lat (mkPosition (33 + 0.99999999999) 0)) = "3360.000000".
Proof.
  destruct (minutes_round_up_to_sixty (mkPosition (33 + 0.99999999999) 0))
    as [H _].
  assert (Habs : Rabs (33 + 0.99999999999) = 33 + 0.99999999999)
    by (apply Rabs_right; lra).
  assert (Hf : Zfloor (33 + 0.99999999999) = 33%Z)
    by (apply Zfloor_eq; lra).
  cbn [p_lat] in H. rewrite Habs, Hf in H.
  apply H; lra.
Defined.

End CoordinateExtras.

(** ** Further properties of the simulator *)

Module SimulatorExtras.
Import GpsTracker Messages Server SimSpec BatchSpec ExtraSpec.
Local Open Scope R_scope.

Lemma to_string_draws (m : NMEAMessage) (g : Rng) (n : nat) :
  snd (to_string m g) n = g (draws m + n)%nat.
Proof.
  destruct m; unfold to_string, to_nmea_lat, to_nmea_lon,
    add_random_variation, bind, ret, random; reflexivity.
Qed.

Lemma to_string_no_draw (m : NMEAMessage) (g1 g2 : Rng) :
  draws m = 0%nat -> fst (to_string m g1) = fst (to_string m g2).
Proof.
  destruct m; cbn [draws]; intros H; try discriminate H; reflexivity.
Qed.

Lemma render_all_draws (msgs : list NMEAMessage) :
  forall g n, snd (render_all msgs g) n = g (total_draws msgs + n)%nat.
Proof.
  induction msgs as [|m msgs IH]; intros g n; [reflexivity|].
  rewrite BatchTheorems.render_all_cons.
  pose proof (to_string_draws m g) as Hm.
  destruct (to_string m g) as [s g1]. cbn [snd] in Hm.
  specialize (IH g1 n).
  destruct (render_all msgs g1) as [tl g2]. cbn [snd] in *.
  rewrite IH, Hm. cbn [total_draws]. f_equal. lia.
Qed.

Lemma update_env_draws (s : NMEASimulator) (g : Rng) (n : nat) :
  snd (_update_environmental_data s g) n = g (6 + n)%nat.
Proof. reflexivity. Qed.

(** What a successful call of [generate_messages] returns. *)
Lemma generate_messages_inv (s s' : NMEASimulator) (now : R)
    (clock : nat -> datetime) (g g' : Rng) (msgs : list string) :
  generate_messages s now clock g = Ok (msgs, s', g') ->
  exists pos t h p0 p1 p2,
    get_current_position (gps_tracker s) now = Ok (pos, t)
    /\ s' = fst (_update_environmental_data (set_tracker s t) g)
    /\ msgs = fst (render_all
                     (batch s' pos h (get_current_speed t) clock p0 p1 p2)
                     (snd (_update_environmental_data (set_tracker s t) g)))
    /\ g' = snd (render_all
                   (batch s' pos h (get_current_speed t) clock p0 p1 p2)
                   (snd (_update_environmental_data (set_tracker s t) g))).
Proof.
  unfold generate_messages. intros H.
  destruct (get_current_position _ _) as [[pos t]|e]; [|discriminate].
  cbn [rbind] in H.
  destruct (get_current_heading t) as [h|e]; [|discriminate].
  cbn [rbind] in H.
  destruct (_update_environmental_data (set_tracker s t) g) as [s1 g1] eqn:Hu.
  destruct (Py.getitem (ais_payloads s1) 0) as [p0|e]; [|discriminate].
  destruct (Py.getitem (ais_payloads s1) 1) as [p1|e]; [|discriminate].
  destruct (Py.getitem (ais_payloads s1) 2) as [p2|e]; [|discriminate].
  cbn [rbind] in H.
  destruct (render_all _ g1) as [m g2] eqn:Hr.
  injection H as <- <- <-.
  exists pos, t, h, p0, p1, p2. rewrite Hu. cbn [fst snd]. rewrite Hr.
  repeat split; reflexivity.
Qed.

(** X21.  Every sentence class draws a fixed number of random values, one
    per varied field, and the sentences without a varied field (GPGLL,
    GPZDA, AIVDO, AIVDM) render the same text whatever the random supply.
    A generated batch consumes exactly 40 values: 6 for the environmental
    update and 34 for the sentences. *)
Theorem batch_consumes_forty_draws :
  (forall (m : NMEAMessage) (g : Rng) (n : nat),
      snd (to_string m g) n = g (draws m + n)%nat)
  /\ (forall (m : NMEAMessage) (g1 g2 : Rng),
        draws m = 0%nat -> fst (to_string m g1) = fst (to_string m g2))
  /\ (forall (s s' : NMEASimulator) (now : R) (clock : nat -> datetime)
        (g g' : Rng) (msgs : list string),
        generate_messages s now clock g = Ok (msgs, s', g') ->
        forall n, g' n = g (40 + n)%nat).
Proof.
  split; [exact to_string_draws|]. split; [exact to_string_no_draw|].
  intros s s' now clock g g' msgs H n.
  destruct (generate_messages_inv _ _ _ _ _ _ _ H)
    as (pos & t & h & p0 & p1 & p2 & _ & _ & _ & ->).
  rewrite render_all_draws, update_env_draws.
  change (total_draws (batch s' pos h (get_current_speed t) clock p0 p1 p2))
    with 34%nat.
  f_equal.
Qed.

(** A call of [generate_messages] on a well-formed simulator, at a time at
    which the travelled distance is not negative, returns a batch with the
    layout of the specification and leaves a well-formed simulator on the
    same route, speed and start time. *)
Lemma generate_messages_step (s : NMEASimulator) (now : R)
    (clock : nat -> datetime) (g : Rng) :
  well_formed s ->
  0 <= (now - start_time (gps_tracker s)) * speed_ms (gps_tracker s) ->
  exists msgs s' g',
    generate_messages s now clock g = Ok (msgs, s', g')
    /\ map sentence_id msgs = batch_layout
    /\ well_formed s'
    /\ start_time (gps_tracker s') = start_time (gps_tracker s)
    /\ speed_ms (gps_tracker s') = speed_ms (gps_tracker s)
    /\ waypoints (gps_tracker s') = waypoints (gps_tracker s).
Proof.
  intros (Hais & Hlen & Htot) Hx. unfold generate_messages.
  destruct (BatchTheorems.get_current_position_indexed
              (gps_tracker s) now Hlen Htot Hx) as (pos & i & -> & Hi).
  cbn [rbind].
  rewrite (TrackerTheorems.heading_after_search (gps_tracker s) i) by lia.
  cbn [rbind].
  set (t1 := set_index (gps_tracker s) (Z.of_nat i)).
  set (h := if (i <? _)%nat then _ else _).
  pose proof (EnvTheorems.update_env_tracker (set_tracker s t1) g)
    as [Ht Hp].
  destruct (_update_environmental_data (set_tracker s t1) g) as [s1 g1].
  cbn [fst set_tracker ais_payloads gps_tracker] in Hp, Ht.
  rewrite Hais in Hp. cbn [init ais_payloads] in Hp. rewrite Hp.
  change (Py.getitem _ 0) with (Ok "17PaewhP0gar0FkcvG4hBh>t0000").
  change (Py.getitem _ 1)
    with (Ok "57Paewh00001<To7;?@plD5<Tl0000000000000U1@:552R8R2TnA3QF").
  change (Py.getitem _ 2) with (Ok "@00000000000002").
  cbn [rbind].
  set (b := batch s1 pos h (get_current_speed t1) clock _ _ _).
  pose proof (BatchTheorems.render_all_ids b g1) as Hids.
  destruct (render_all b g1) as [msgs g2]. cbn [fst] in Hids.
  exists msgs, s1, g2. split; [reflexivity|]. split; [exact Hids|].
  rewrite Ht. unfold well_formed. rewrite Ht, Hp.
  repeat split; try reflexivity; assumption.
Qed.

(** X22.  A simulator with the constructor's AIS payloads and a tracker on
    a route of positive length keeps working: successive calls of
    [generate_messages], at any times at which the travelled distance is
    not negative, all return, each a batch of 24 sentences with the same
    order of sentence identifiers. *)
Theorem batches_keep_coming
    (s : NMEASimulator) (times : list R) (clock : nat -> datetime) (g : Rng) :
  well_formed s ->
  Forall (fun now => 0 <= (now - start_time (gps_tracker s))
                          * speed_ms (gps_tracker s)) times ->
  exists batches,
    run_batches s times clock g = Ok batches
    /\ length batches = length times
    /\ Forall (fun msgs => map sentence_id msgs = batch_layout
                           /\ length msgs = 24%nat) batches.
Proof.
  revert s g. induction times as [|now times IH]; intros s g Hwf Hall.
  - exists []. repeat split; constructor.
  - inversion Hall as [|? ? Hnow Hrest]; subst.
    destruct (generate_messages_step s now clock g Hwf Hnow)
      as (msgs & s' & g' & Hg & Hids & Hwf' & Hst & Hsp & _).
    destruct (IH s' g' Hwf') as (bs & Hbs & Hlen & Hf).
    { rewrite Hst, Hsp. exact Hrest. }
    exists (msgs :: bs). cbn [run_batches]. rewrite Hg. cbn [rbind].
    rewrite Hbs. cbn [rbind].
    split; [reflexivity|]. split; [simpl; rewrite Hlen; reflexivity|].
    constructor; [|exact Hf]. split; [exact Hids|].
    rewrite <- (length_map sentence_id), Hids. reflexivity.
Qed.

Lemma equator_simulator_well_formed :
  well_formed (init Examples.equator_tracker).
Proof.
  split; [reflexivity|]. split; [simpl; lia|].
  cbn [init gps_tracker].
  destruct TrackerTheorems.equator_loop_legs as (H0 & H1 & H2 & ->). lra.
Qed.

Lemma batches_keep_coming_witness :
  exists batches,
    run_batches (init Examples.equator_tracker) [1; 2; 3]
      (fun _ => mkDatetime 2024 1 2 3 4 5 6789) (fun _ => 0.5)
    = Ok batches
    /\ length batches = 3%nat.
Proof.
  destruct (batches_keep_coming (init Examples.equator_tracker) [1; 2; 3]
              (fun _ => mkDatetime 2024 1 2 3 4 5 6789) (fun _ => 0.5)
              equator_simulator_well_formed)
    as (bs & H & Hlen & _).
  - cbn [init gps_tracker Examples.equator_tracker start_time speed_ms].
    repeat constructor; lra.
  - exists bs. split; assumption.
Defined.

Lemma batch_consumes_forty_draws_witness :
  exists msgs s' g',
    generate_messages (init Examples.equator_tracker) 1
      (fun _ => mkDatetime 2024 1 2 3 4 5 6789) (fun n => / INR (S n))
    = Ok (msgs, s', g')
    /\ g' 0%nat = / INR 41.
Proof.
  destruct (generate_messages_step (init Examples.equator_tracker) 1
              (fun _ => mkDatetime 2024 1 2 3 4 5 6789)
              (fun n => / INR (S n)) equator_simulator_well_formed)
    as (msgs & s' & g' & Hg & _).
  - cbn [init gps_tracker Examples.equator_tracker start_time speed_ms]. lra.
  - exists msgs, s', g'. split; [exact Hg|].
    destruct batch_consumes_forty_draws as (_ & _ & H).
    apply (H _ _ _ _ _ _ _ Hg 0%nat).
Defined.

Lemma clamped_step (floor_ x delta bound : R) :
  floor_ <= x -> - bound <= delta <= bound ->
  Rabs (Py.max_ floor_ (x + delta) - x) <= bound.
Proof.
  intros Hx Hd. apply Rabs_le. unfold Py.max_.
  destruct (Rlt_dec floor_ (x + delta)); lra.
Qed.

Lemma wrapped_step (x delta : R) :
  0 <= x < 360 -> -2 <= delta <= 2 ->
  Py.float_mod (x + delta) 360 = x + delta
  \/ Py.float_mod (x + delta) 360 = x + delta + 360
  \/ Py.float_mod (x + delta) 360 = x + delta - 360.
Proof.
  intros Hx Hd.
  destruct (Rlt_dec (x + delta) 0) as [Hneg|Hpos].
  - right. left. rewrite (PyFacts.float_mod_eq _ 360 (-1)); lra.
  - destruct (Rlt_dec (x + delta) 360) as [Hlt|Hge].
    + left. rewrite (PyFacts.float_mod_eq _ 360 0); lra.
    + right. right. rewrite (PyFacts.float_mod_eq _ 360 1); lra.
Qed.

(** X23.  One update of the environmental data, with draws in [0, 1), is
    a small step: from a state within the bounds, wind speed changes by at
    most 1, water temperature by at most 0.2, depth by at most 0.1, engine
    RPM by at most 5 and engine pitch by at most 0.5; wind direction turns
    by at most 2 degrees, going round through 0/360.  The tracker and
    the AIS payloads are left as they are. *)
Theorem environmental_step_is_small (s : NMEASimulator) (g : Rng) :
  env_ok s -> unit_draws g ->
  let s' := fst (_update_environmental_data s g) in
  Rabs (wind_speed s' - wind_speed s) <= 1
  /\ Rabs (water_temp s' - water_temp s) <= 0.2
  /\ Rabs (depth s' - depth s) <= 0.1
  /\ Rabs (engine_rpm s' - engine_rpm s) <= 5
  /\ Rabs (engine_pitch s' - engine_pitch s) <= 0.5
  /\ (exists turn,
        -2 <= turn <= 2
        /\ (wind_direction s' = wind_direction s + turn
            \/ wind_direction s' = wind_direction s + turn + 360
            \/ wind_direction s' = wind_direction s + turn - 360))
  /\ gps_tracker s' = gps_tracker s
  /\ ais_payloads s' = ais_payloads s.
Proof.
  intros (Hwd & Hws & Hwt & Hd & Hrpm & Hp) Hg s'.
  unfold s', _update_environmental_data, uniform, bind, ret, random.
  cbn [fst wind_direction wind_speed water_temp depth engine_rpm engine_pitch
       gps_tracker ais_payloads].
  pose proof (Hg 0%nat) as H0. pose proof (Hg 1%nat) as H1.
  pose proof (Hg 2%nat) as H2. pose proof (Hg 3%nat) as H3.
  pose proof (Hg 4%nat) as H4. pose proof (Hg 5%nat) as H5.
  split; [apply clamped_step; [exact Hws|lra]|].
  split; [apply clamped_step; [exact Hwt|lra]|].
  split; [apply clamped_step; [exact Hd|lra]|].
  split; [apply clamped_step; [exact Hrpm|lra]|].
  split; [apply clamped_step; [exact Hp|lra]|].
  split; [|split; reflexivity].
  exists (-2 + (2 - -2) * g 0%nat). split; [lra|].
  apply wrapped_step; [exact Hwd|lra].
Qed.

Lemma environmental_step_is_small_witness :
  Rabs (wind_speed
          (fst (_update_environmental_data (init Examples.equator_tracker)
                  (fun _ => 0.5)))
        - wind_speed (init Examples.equator_tracker)) <= 1.
Proof.
  apply (environmental_step_is_small (init Examples.equator_tracker)
           (fun _ => 0.5)).
  - unfold env_ok. cbn. lra.
  - intros n. lra.
Defined.

End SimulatorExtras.
